(** * Dataset statistics engine (isd/dataset/statistics.py)

    A shallow embedding of the statistics engine of the ISD backend: column
    role resolution, event-indicator derivation, the censoring-aware
    event-time histogram, the ordering of the per-feature records and the
    cache orchestration around the [DatasetStatistics] table.

    Modelling conventions.
    - A pandas float is a value of [pyfloat]: a rational, an infinity or NaN.
      Rationals stand for the finite IEEE doubles, so rounding error is not
      modelled; NaN is also pandas' marker of a missing entry. Minima,
      maxima, comparisons and the bin edges are computed on these values;
      the reductions whose result depends on rounding (mean, median,
      deviation, correlation, the Cox fit) are taken from a record of
      library functions.
    - A [DataFrame] holds its column labels and its records row by row, as
      [pd.read_csv] builds it; a [Series] taken from it is the list of the
      cells of one column, labelled 0, 1, ... (a [RangeIndex]). A cell is a
      number or a piece of text (boolean and date columns are not
      represented), and a label names one column ([pd.read_csv] renames a
      repeated header).
    - Python exceptions that can leave a function are values of [outcome];
      exceptions caught inside a function show as an [option] there.
    - The [DatasetStatistics] table and the file storage are finite maps;
      a write of the table fails when the database does not answer or
      refuses the row. *)

From Stdlib Require Import ZArith QArith Qabs Lqa Bool List String Ascii Lia.
From Stdlib Require Import Sorted Permutation.
From stdpp Require Import gmap strings.
Import ListNotations.

Open Scope Z_scope.

(** ** Module constants *)

Definition DATASET_STATS_SCHEMA_VERSION : string := "v2".
Definition MIN_HISTOGRAM_BINS : Z := 5.
Definition MAX_HISTOGRAM_BINS : Z := 20.

(** ** Floating-point values as pandas sees them *)

Inductive pyfloat : Type :=
| Fin (q : Q)
| Inf (negative : bool)
| NaN.

Module PyFloat.

Definition isnan (x : pyfloat) : bool :=
  match x with NaN => true | _ => false end.

Definition notna (x : pyfloat) : bool := negb (isnan x).

Definition isfinite (x : pyfloat) : bool :=
  match x with Fin _ => true | _ => false end.

(** IEEE comparisons: every comparison with NaN is false. *)
Definition eqb (x y : pyfloat) : bool :=
  match x, y with
  | Fin a, Fin b => Qeq_bool a b
  | Inf s, Inf t => Bool.eqb s t
  | _, _ => false
  end.

Definition leb (x y : pyfloat) : bool :=
  match x, y with
  | NaN, _ | _, NaN => false
  | Inf true, _ => true
  | _, Inf false => true
  | Fin a, Fin b => Qle_bool a b
  | _, _ => false
  end.

Definition ltb (x y : pyfloat) : bool :=
  match x, y with
  | NaN, _ | _, NaN => false
  | _, _ => negb (leb y x)
  end.

Definition neg (x : pyfloat) : pyfloat :=
  match x with
  | Fin a => Fin (- a)
  | Inf s => Inf (negb s)
  | NaN => NaN
  end.

Definition add (x y : pyfloat) : pyfloat :=
  match x, y with
  | NaN, _ | _, NaN => NaN
  | Fin a, Fin b => Fin (a + b)
  | Inf s, Fin _ | Fin _, Inf s => Inf s
  | Inf s, Inf t => if Bool.eqb s t then Inf s else NaN
  end.

Definition sub (x y : pyfloat) : pyfloat := add x (neg y).

Definition qsign_neg (a : Q) : bool := Qle_bool a 0 && negb (Qeq_bool a 0).

Definition mul (x y : pyfloat) : pyfloat :=
  match x, y with
  | NaN, _ | _, NaN => NaN
  | Fin a, Fin b => Fin (a * b)
  | Inf s, Fin a | Fin a, Inf s =>
      if Qeq_bool a 0 then NaN else Inf (xorb s (qsign_neg a))
  | Inf s, Inf t => Inf (xorb s t)
  end.

(** Division by a positive count, as in a mean. *)
Definition div_count (x : pyfloat) (n : nat) : pyfloat :=
  match n with
  | O => NaN
  | _ => match x with
         | Fin a => Fin (a / inject_Z (Z.of_nat n))
         | other => other
         end
  end.

Definition abs (x : pyfloat) : pyfloat :=
  match x with
  | Fin a => Fin (Qabs a)
  | Inf _ => Inf false
  | NaN => NaN
  end.

Definition of_Z (z : Z) : pyfloat := Fin (inject_Z z).

(** [np.minimum] / [np.maximum] reductions: NaN propagates. *)
Definition min (x y : pyfloat) : pyfloat :=
  if isnan x || isnan y then NaN else if leb x y then x else y.

Definition max (x y : pyfloat) : pyfloat :=
  if isnan x || isnan y then NaN else if leb x y then y else x.

End PyFloat.

(** ** Exceptions that leave the engine

    [DatabaseError] stands for Django's class and its subclasses (the
    [IntegrityError] or [DataError] of a rejected write among them), which
    the callers catch as one; [ValueError] is what pandas raises in the
    Cox block, [SuspiciousFileOperation] what the file storage raises for
    a name that leaves its root. *)

Inductive exn : Type :=
| DatabaseError
| IntCastingNaNError
| ValueError
| SuspiciousFileOperation.

Definition is_database_error (e : exn) : bool :=
  match e with DatabaseError => true | _ => false end.

Inductive outcome (A : Type) : Type :=
| Ok (a : A)
| Raise (e : exn).

Arguments Ok {A} a.
Arguments Raise {A} e.

#[global] Instance outcome_ret : MRet outcome := fun A a => Ok a.

#[global] Instance outcome_bind : MBind outcome := fun A B k m =>
  match m with
  | Ok a => k a
  | Raise e => Raise e
  end.

(** ** Strings *)

Definition ascii_lower (c : ascii) : ascii :=
  let n := nat_of_ascii c in
  if (65 <=? n)%nat && (n <=? 90)%nat then ascii_of_nat (n + 32) else c.

(** [str.lower()] on the ASCII range. *)
Fixpoint lower (s : string) : string :=
  match s with
  | EmptyString => EmptyString
  | String c rest => String (ascii_lower c) (lower rest)
  end.

(** [needle in haystack] *)
Fixpoint str_contains (needle haystack : string) : bool :=
  String.prefix needle haystack ||
  match haystack with
  | EmptyString => false
  | String _ rest => str_contains needle rest
  end.

(** [s.endswith(suffix)] *)
Definition endswith (s suffix : string) : bool :=
  let n := String.length s in
  let k := String.length suffix in
  (k <=? n)%nat && String.eqb (String.substring (n - k) k s) suffix.

(** Truthiness of an optional string: [None] and [""] are falsy. *)
Definition truthy (s : option string) : bool :=
  match s with
  | Some t => negb (String.eqb t "")
  | None => false
  end.

Definition str_in (name : string) (names : list string) : bool :=
  existsb (String.eqb name) names.

(** ** Tables *)

(** A cell of a loaded table: a number (NaN when the entry is missing) or a
    piece of text. *)
Inductive cell : Type :=
| CNum (x : pyfloat)
| CStr (s : string).

Definition Series : Type := list cell.

Record DataFrame : Type := mkDataFrame {
  df_columns : list string;
  df_records : list (list cell)
}.

Definition num_rows (df : DataFrame) : nat := List.length (df_records df).
Definition num_cols (df : DataFrame) : nat := List.length (df_columns df).

(** [df.empty]: some axis has length 0. *)
Definition df_empty (df : DataFrame) : bool :=
  (num_rows df =? 0)%nat || (num_cols df =? 0)%nat.

Fixpoint position (name : string) (names : list string) : option nat :=
  match names with
  | [] => None
  | n :: rest =>
      if String.eqb name n then Some O
      else option_map S (position name rest)
  end.

(** [df[name]]; a record shorter than the header is padded with NaN, as
    [read_csv] does. *)
Definition df_get (df : DataFrame) (name : string) : option Series :=
  match position name (df_columns df) with
  | Some j => Some (List.map (fun r => nth j r (CNum NaN)) (df_records df))
  | None => None
  end.

Definition dropna (s : list pyfloat) : list pyfloat :=
  List.filter PyFloat.notna s.

(** [reindex] onto the labels 0 .. n-1: a missing label yields NaN. *)
Definition reindex (n : nat) (s : list pyfloat) : list pyfloat :=
  List.map (fun i => nth i s NaN) (seq 0 n).

Definition fillna (v : pyfloat) (s : list pyfloat) : list pyfloat :=
  List.map (fun x => if PyFloat.isnan x then v else x) s.

(** Truncation toward zero of a rational. *)
Definition Qtrunc (a : Q) : Z := Z.quot (Qnum a) (Zpos (Qden a)).

(** [astype(int)] raises on NaN and on the infinities. *)
Definition astype_int1 (x : pyfloat) : outcome Z :=
  match x with
  | Fin a => Ok (Qtrunc a)
  | _ => Raise IntCastingNaNError
  end.

Fixpoint astype_int (s : list pyfloat) : outcome (list Z) :=
  match s with
  | [] => Ok []
  | x :: rest =>
      z ← astype_int1 x;
      zs ← astype_int rest;
      Ok (z :: zs)
  end.

Definition count_eq (v : Z) (s : list Z) : Z :=
  Z.of_nat (List.length (List.filter (Z.eqb v) s)).

(** ** Column role resolution *)

Definition TIME_CANDIDATES : list string :=
  ["time"; "Time"; "TIME"; "duration"; "survival_time"]%string.

Definition CENSOR_CANDIDATES : list string :=
  ["censored"; "Censored"; "event"; "Event"; "status"; "Status"; "failure"]%string.

Fixpoint _find_column (columns candidates exclude : list string) : option string :=
  match candidates with
  | [] => None
  | name :: rest =>
      if str_in name exclude then _find_column columns rest exclude
      else if str_in name columns then Some name
      else _find_column columns rest exclude
  end.

(** Lines 179-193 of [_compute_statistics_from_dataframe]: the pair
    [(time_col, censor_col)]. *)
Definition resolve_columns (df : DataFrame) : option string * option string :=
  let cols := df_columns df in
  let time_col := _find_column cols TIME_CANDIDATES [] in
  let censor_col :=
    _find_column cols CENSOR_CANDIDATES
      (match time_col with
       | Some t => if truthy time_col then [t] else []
       | None => []
       end) in
  let time_col :=
    match time_col with
    | None => if negb (df_empty df) then nth_error cols 0 else None
    | Some _ => time_col
    end in
  let censor_col :=
    match censor_col with
    | None =>
        if (1 <? num_cols df)%nat then
          let fallback_candidates :=
            List.filter
              (fun col => match time_col with
                          | Some t => negb (String.eqb col t)
                          | None => true
                          end)
              (tl cols) in
          match fallback_candidates with
          | c :: _ => Some c
          | [] => None
          end
        else None
    | Some _ => censor_col
    end in
  (time_col, censor_col).

(** ** Python's stable sort *)

Section Sort.
Context {A : Type} (lt : A -> A -> bool).

(** [x] is placed in front of the first element that is not below it, so
    it stays ahead of the elements that compare equal to it. *)
Fixpoint sort_insert (x : A) (l : list A) : list A :=
  match l with
  | [] => [x]
  | y :: rest => if lt y x then y :: sort_insert x rest else x :: y :: rest
  end.

(** [list.sort] / [sorted]: a stable sort that only uses [<]. *)
Fixpoint py_sort (l : list A) : list A :=
  match l with
  | [] => []
  | x :: rest => sort_insert x (py_sort rest)
  end.
End Sort.

(** ** Reductions of a float series *)

Definition series_min (s : list pyfloat) : pyfloat :=
  match s with
  | [] => NaN
  | x :: rest => fold_left PyFloat.min rest x
  end.

Definition series_max (s : list pyfloat) : pyfloat :=
  match s with
  | [] => NaN
  | x :: rest => fold_left PyFloat.max rest x
  end.

(** The sum, the mean and the median in exact arithmetic. pandas computes
    them in floating point, so the engine takes [Series.mean] and
    [Series.median] from the library record below; these serve as its
    instance in closed examples. *)
Definition exact_sum (s : list pyfloat) : pyfloat :=
  fold_left PyFloat.add s (Fin 0).

Definition exact_mean (s : list pyfloat) : pyfloat :=
  PyFloat.div_count (exact_sum s) (List.length s).

Definition exact_median (s : list pyfloat) : pyfloat :=
  let sorted := py_sort PyFloat.ltb s in
  let n := List.length s in
  if Nat.even n then
    PyFloat.div_count
      (PyFloat.add (nth (n / 2 - 1) sorted NaN) (nth (n / 2) sorted NaN)) 2
  else nth (n / 2) sorted NaN.

(** ** Histogram binning *)

Definition _determine_histogram_bin_count (sample_count : Z) : Z :=
  if sample_count <=? 0 then MIN_HISTOGRAM_BINS
  else
    let heuristic := Z.sqrt sample_count in
    let heuristic := Z.max MIN_HISTOGRAM_BINS heuristic in
    let heuristic := Z.min MAX_HISTOGRAM_BINS heuristic in
    heuristic.

(** [np.linspace(start, stop, num)]: [num - 1] equal steps from [start], the
    last point set to [stop] itself. *)
Definition linspace (start stop : Q) (num : nat) : list Q :=
  match num with
  | O => []
  | S O => [start]
  | S div =>
      let step := ((stop - start) / inject_Z (Z.of_nat div))%Q in
      List.map (fun i => (start + inject_Z (Z.of_nat i) * step)%Q) (seq 0 div)
        ++ [stop]
  end.

(** Membership of a bin: half-open, except for the last bin, which also
    holds its right edge. Non-finite values lie in no bin. *)
Definition in_bin (lo hi : Q) (last : bool) (x : pyfloat) : bool :=
  match x with
  | Fin a => Qle_bool lo a && (if last then Qle_bool a hi else negb (Qle_bool hi a))
  | _ => false
  end.

Fixpoint bin_counts (edges : list Q) (a : list pyfloat) : list Z :=
  match edges with
  | lo :: ((hi :: rest) as more) =>
      Z.of_nat (List.length
                  (List.filter (in_bin lo hi (match rest with [] => true | _ => false end)) a))
        :: bin_counts more a
  | _ => []
  end.

(** [np.histogram(a, bins=n)] for an integer [n]; [None] stands for the
    [ValueError] numpy raises on a non-finite range or on [n < 1]. The
    edges are exact, so the refusal of numpy to cut a range that is too
    narrow for the spacing of the doubles has no counterpart here: what
    follows speaks of the histograms that are produced. *)
Definition np_histogram (a : list pyfloat) (bins : Z) : option (list Z * list Q) :=
  if bins <? 1 then None
  else
    let range :=
      match a with
      | [] => (Fin 0, Fin 1)
      | _ => (series_min a, series_max a)
      end in
    match range with
    | (Fin first_edge, Fin last_edge) =>
        let '(first_edge, last_edge) :=
          if Qeq_bool first_edge last_edge
          then ((first_edge - (1 # 2))%Q, (last_edge + (1 # 2))%Q)
          else (first_edge, last_edge) in
        let bin_edges := linspace first_edge last_edge (S (Z.to_nat bins)) in
        Some (bin_counts bin_edges a, bin_edges)
    | _ => None
    end.

Fixpoint monotonic (edges : list Q) : bool :=
  match edges with
  | lo :: ((hi :: _) as more) => Qle_bool lo hi && monotonic more
  | _ => true
  end.

(** [np.histogram(a, bins=edges)] for given edges; [None] stands for the
    [ValueError] raised when the edges decrease somewhere. *)
Definition np_histogram_edges (a : list pyfloat) (bin_edges : list Q) : option (list Z) :=
  if monotonic bin_edges then Some (bin_counts bin_edges a) else None.

Record HistogramBin : Type := mkBin {
  bin_start : Q;
  bin_end : Q;
  count : Z;
  events : Z;
  censored : Z
}.

(** A series with its labels: [valid_times] keeps the labels of the rows it
    was selected from. *)
Definition labelled (s : list pyfloat) : list (nat * pyfloat) :=
  combine (seq 0 (List.length s)) s.

Definition _build_event_time_histogram
    (time_numeric : option (list pyfloat)) (event_indicator : list Z)
    : list HistogramBin :=
  match time_numeric with
  | None => []
  | Some time_numeric =>
      let valid_times :=
        List.filter (fun p => PyFloat.notna (snd p)) (labelled time_numeric) in
      match valid_times with
      | [] => []
      | _ =>
          (* reindex onto the labels of valid_times, fillna(0), astype(int) *)
          let events_mask :=
            List.map (fun p => nth (fst p) event_indicator 0) valid_times in
          let bin_count :=
            _determine_histogram_bin_count (Z.of_nat (List.length valid_times)) in
          match np_histogram (List.map snd valid_times) bin_count with
          | None => []
          | Some (total_counts, bin_edges) =>
              let event_times :=
                List.map (fun p => snd (fst p))
                  (List.filter (fun p => snd p =? 1) (combine valid_times events_mask)) in
              match np_histogram_edges event_times bin_edges with
              | None => []
              | Some event_counts =>
                  let censored_counts :=
                    List.map (fun p => fst p - snd p) (combine total_counts event_counts) in
                  List.map
                    (fun idx =>
                       {| bin_start := nth idx bin_edges 0%Q;
                          bin_end := nth (idx + 1) bin_edges 0%Q;
                          count := nth idx total_counts 0;
                          events := nth idx event_counts 0;
                          censored := nth idx censored_counts 0 |})
                    (seq 0 (List.length total_counts))
              end
          end
      end
  end.

(** ** Records that are persisted *)

Record GeneralStats : Type := mkGeneralStats {
  num_samples : Z;
  num_features : Z;
  num_numeric_features : Z;
  num_censored : option Z;
  num_events : option Z;
  time_min : option pyfloat;
  time_max : option pyfloat;
  time_mean : option pyfloat;
  time_median : option pyfloat;
  gs_time_unit : string;
  total_columns : Z
}.

Record FeatureRow : Type := mkFeatureRow {
  feature : string;
  feature_type : string;
  non_null_percent : option pyfloat;
  correlation_with_time : option pyfloat;
  abs_correlation : option pyfloat;
  mean : option pyfloat;
  std_dev : option pyfloat;
  cox_score : option pyfloat;
  cox_score_log : option pyfloat
}.

Record Analysis : Type := mkAnalysis {
  general_stats : GeneralStats;
  feature_correlations : list FeatureRow;
  event_time_histogram : list HistogramBin
}.

(** A row of the [DatasetStatistics] table, keyed by its dataset; the
    [computed_at] timestamp is left out. *)
Record DatasetStatistics : Type := mkDatasetStatistics {
  st_general_stats : GeneralStats;
  st_feature_correlations : list FeatureRow;
  st_event_time_histogram : list HistogramBin;
  schema_version : string
}.

Record Dataset : Type := mkDataset {
  dataset_id : Z;
  file_path : option string;
  time_unit : string
}.

Record DatasetStatisticsResult : Type := mkResult {
  stats : DatasetStatistics;
  dataframe : option DataFrame
}.

(** The persistence layer: the table, and whether the database answers. *)
Record Database : Type := mkDatabase {
  db_reachable : bool;
  db_rows : gmap Z DatasetStatistics
}.

(** The file storage: relative path to file content. *)
Definition Storage : Type := gmap string string.

(** [dataset.statistics]: the row of the dataset, if any. *)
Definition get_statistics (db : Database) (id : Z) : outcome (option DatasetStatistics) :=
  if db_reachable db then Ok (db_rows db !! id) else Raise DatabaseError.

(** A float the JSON columns accept: the database rejects the tokens
    [NaN] and [Infinity] that [json.dumps] writes for the other floats. *)
Definition json_float (x : option pyfloat) : bool :=
  match x with
  | Some v => PyFloat.isfinite v
  | None => true
  end.

Definition json_general_stats (g : GeneralStats) : bool :=
  json_float (time_min g) && json_float (time_max g)
  && json_float (time_mean g) && json_float (time_median g).

Definition json_feature_row (r : FeatureRow) : bool :=
  json_float (non_null_percent r) && json_float (correlation_with_time r)
  && json_float (abs_correlation r) && json_float (mean r)
  && json_float (std_dev r) && json_float (cox_score r)
  && json_float (cox_score_log r).

Definition json_storable (row : DatasetStatistics) : bool :=
  json_general_stats (st_general_stats row)
  && forallb json_feature_row (st_feature_correlations row).

(** [DatasetStatistics.objects.update_or_create(dataset=..., defaults=...)]:
    the write fails when the database does not answer and when a JSON
    column is rejected. *)
Definition update_or_create (db : Database) (id : Z) (row : DatasetStatistics)
    : outcome (DatasetStatistics * Database) :=
  if db_reachable db && json_storable row
  then Ok (row, {| db_reachable := db_reachable db; db_rows := <[id := row]> (db_rows db) |})
  else Raise DatabaseError.

(** ** Library functions the engine calls and that are not modelled

    [str_to_numeric] is [pd.to_numeric(..., errors="coerce")] on a text
    entry (NaN when the text is no number); [series_mean], [series_median]
    and [series_std] are [Series.mean], [Series.median] and [Series.std] on
    the non-missing entries; [pearson] is [Series.corr(method="pearson")];
    [lifelines_available] tells whether lifelines can be imported, and
    [cox_fit] is the body of the [try] around [CoxPHFitter], given the
    duration, event and feature columns of the fitted frame ([None] when
    it raises, the p-value of the feature otherwise); [np_log] is
    [np.log]; [default_storage_path] is [default_storage.path] ([None]
    when it raises, as Django does for a name that leaves the storage
    root); [read_csv] is [pd.read_csv] on a file content and a separator
    ([None] when it raises). *)
Record Libraries : Type := mkLibraries {
  str_to_numeric : string -> pyfloat;
  series_mean : list pyfloat -> pyfloat;
  series_median : list pyfloat -> pyfloat;
  series_std : list pyfloat -> pyfloat;
  pearson : list pyfloat -> list pyfloat -> pyfloat;
  lifelines_available : bool;
  cox_fit : Series -> list Z -> list pyfloat -> option pyfloat;
  np_log : pyfloat -> pyfloat;
  default_storage_path : string -> option string;
  read_csv : string -> string -> option DataFrame
}.

Definition TAB : string := String (ascii_of_nat 9) EmptyString.

Definition is_none {A : Type} (o : option A) : bool :=
  match o with None => true | Some _ => false end.

Definition is_number (c : cell) : bool :=
  match c with CNum _ => true | CStr _ => false end.

(** [pd.api.types.is_numeric_dtype]: a column read from a file is numeric
    when it holds no text; a column without rows has dtype [object]. *)
Definition is_numeric_dtype (s : Series) : bool :=
  match s with
  | [] => false
  | _ => forallb is_number s
  end.

Definition cell_notna (c : cell) : bool :=
  match c with CNum x => PyFloat.notna x | CStr _ => true end.

Definition cell_float (c : cell) : pyfloat :=
  match c with CNum x => x | CStr _ => NaN end.

Fixpoint unique (s : list pyfloat) : list pyfloat :=
  match s with
  | [] => []
  | x :: rest => x :: List.filter (fun y => negb (PyFloat.eqb x y)) (unique rest)
  end.

Definition nunique (s : list pyfloat) : nat := List.length (unique (dropna s)).

Definition is_zero_or_one (x : pyfloat) : bool :=
  PyFloat.eqb x (Fin 0) || PyFloat.eqb x (Fin 1).

(** The sort key of a feature record and Python's tuple comparison on it. *)
Definition sort_key (row : FeatureRow) : bool * pyfloat :=
  (is_none (abs_correlation row),
   PyFloat.neg (match abs_correlation row with
                | Some x => if PyFloat.eqb x (Fin 0) then Fin 0 else x
                | None => Fin 0
                end)).

Definition key_lt (k1 k2 : bool * pyfloat) : bool :=
  if Bool.eqb (fst k1) (fst k2) then PyFloat.ltb (snd k1) (snd k2)
  else negb (fst k1) && fst k2.

Definition row_lt (r1 r2 : FeatureRow) : bool := key_lt (sort_key r1) (sort_key r2).

Definition empty_general_stats (unit : string) : GeneralStats :=
  {| num_samples := 0; num_features := 0; num_numeric_features := 0;
     num_censored := None; num_events := None;
     time_min := None; time_max := None; time_mean := None; time_median := None;
     gs_time_unit := unit; total_columns := 0 |}.

(** ** The engine *)

Section Engine.
Context (lib : Libraries).

(** [pd.to_numeric(series, errors="coerce")], entry by entry. *)
Definition coerce (c : cell) : pyfloat :=
  match c with
  | CNum x => x
  | CStr t => str_to_numeric lib t
  end.

Definition to_numeric (s : Series) : list pyfloat := List.map coerce s.

Definition _derive_event_indicator (series : Series) (column_name : string)
    : option (list pyfloat) :=
  let numeric := to_numeric series in
  let valid := dropna numeric in
  match valid with
  | [] => None
  | _ =>
      (* set(valid.unique()).issubset({0, 1}) *)
      if negb (forallb is_zero_or_one valid) then None
      else
        let column_name_lower := lower column_name in
        let indicator :=
          if str_contains "censor" column_name_lower
          then List.map (fun x => PyFloat.sub (Fin 1) x) numeric
          else numeric in
        Some indicator
  end.

(** Lines 232-234: the derived indicator of the resolved column, [None]
    when no column was resolved or the derivation failed. *)
Definition derived_indicator (df : DataFrame) (censor_col : option string)
    : option (list pyfloat) :=
  match censor_col with
  | Some c =>
      if truthy censor_col then
        match df_get df c with
        | Some series => _derive_event_indicator series c
        | None => None
        end
      else None
  | None => None
  end.

(** Lines 236-245: the counts stored in the general statistics, when there
    are any, and the integer indicator handed to the later stages. *)
Definition event_indicator_stage (df : DataFrame) (censor_col : option string)
    : outcome (option (Z * Z) * list Z) :=
  match derived_indicator df censor_col with
  | Some indicator =>
      event_indicator ← astype_int (fillna (Fin 0) (reindex (num_rows df) indicator));
      Ok (Some (count_eq 1 event_indicator, count_eq 0 event_indicator),
          event_indicator)
  | None => Ok (None, repeat 1 (num_rows df))
  end.

(** Lines 217-221: the time column coerced to numbers. *)
Definition time_numeric_of (df : DataFrame) (time_col : option string)
    : option (list pyfloat) :=
  match time_col with
  | Some t =>
      if truthy time_col then option_map to_numeric (df_get df t) else None
  | None => None
  end.

(** The frame the Cox model is fitted on: the time column, the feature and
    the event indicator joined on the row labels, without the rows that
    miss an entry. *)
Definition cox_frame (time_series : Series) (event_indicator : list Z)
    (values : list pyfloat) : list (cell * Z * pyfloat) :=
  List.filter (fun r => cell_notna (fst (fst r)) && PyFloat.notna (snd r))
    (combine (combine time_series event_indicator) values).

Definition sum_Z (l : list Z) : Z := fold_right Z.add 0 l.

(** The Cox block of the loop. Its first lines stand outside the [try]:
    the [join] raises when a column of the frame is itself called "event",
    and when the feature is the time column the frame holds that name
    twice, so that [cox_df[feature].nunique() > 1] is a Series whose truth
    value the [if] cannot take. *)
Definition cox_block (df : DataFrame) (time_col : string)
    (event_indicator : list Z) (name : string) (values : list pyfloat)
    : outcome (option pyfloat) :=
  if String.eqb time_col "event" || String.eqb name "event"
  then Raise ValueError
  else
    let time_series := match df_get df time_col with Some s => s | None => [] end in
    let cox_df := cox_frame time_series event_indicator values in
    if negb (match cox_df with [] => true | _ => false end)
       && (0 <? sum_Z (List.map (fun r => snd (fst r)) cox_df))
    then
      if String.eqb name time_col then Raise ValueError
      else if (1 <? nunique (List.map snd cox_df))%nat
      then Ok (cox_fit lib (List.map (fun r => fst (fst r)) cox_df)
                 (List.map (fun r => snd (fst r)) cox_df)
                 (List.map snd cox_df))
      else Ok None
    else Ok None.

(** The body of the loop over the feature columns. *)
Definition feature_row (df : DataFrame) (time_col : string)
    (event_indicator : list Z) (time_numeric : option (list pyfloat))
    (name : string) : outcome FeatureRow :=
  let series := match df_get df name with Some s => s | None => [] end in
  let total_rows := num_rows df in
  let is_numeric := is_numeric_dtype series in
  let non_null_count := List.length (List.filter cell_notna series) in
  let non_null_percent :=
    match total_rows with
    | O => None
    | _ => Some (Fin (inject_Z (Z.of_nat non_null_count)
                      / inject_Z (Z.of_nat total_rows) * 100)%Q)
    end in
  let values := List.map cell_float series in
  let mean_value :=
    if is_numeric && (0 <? non_null_count)%nat
    then Some (series_mean lib (dropna values)) else None in
  let std_value :=
    if is_numeric && (1 <? non_null_count)%nat
    then Some (series_std lib (dropna values)) else None in
  let correlation :=
    match time_numeric with
    | Some times =>
        if is_numeric then
          let weighted_time :=
            List.map (fun p => PyFloat.mul (fst p) (PyFloat.of_Z (snd p)))
              (combine times event_indicator) in
          let corr_df :=
            List.filter (fun p => PyFloat.notna (fst p) && PyFloat.notna (snd p))
              (combine weighted_time values) in
          if (2 <=? List.length corr_df)%nat
             && (1 <? nunique (List.map snd corr_df))%nat
             && (1 <? nunique (List.map fst corr_df))%nat
          then
            let corr := pearson lib (List.map fst corr_df) (List.map snd corr_df) in
            if PyFloat.notna corr then Some corr else None
          else None
        else None
    | None => None
    end in
  cox ←
    (if lifelines_available lib && is_numeric
     then cox_block df time_col event_indicator name values
     else Ok None);
  Ok {| feature := name;
        feature_type := if is_numeric then "numeric" else "categorical";
        non_null_percent := non_null_percent;
        correlation_with_time := correlation;
        abs_correlation := option_map PyFloat.abs correlation;
        mean := mean_value;
        std_dev := std_value;
        cox_score := cox;
        cox_score_log :=
          match cox with
          | Some p => if PyFloat.ltb (Fin 0) p then Some (np_log lib p) else None
          | None => None
          end |}.

(** The loop itself: it stops at the first feature whose body raises. *)
Fixpoint feature_rows (df : DataFrame) (time_col : string)
    (event_indicator : list Z) (time_numeric : option (list pyfloat))
    (feature_columns : list string) : outcome (list FeatureRow) :=
  match feature_columns with
  | [] => Ok []
  | name :: rest =>
      row ← feature_row df time_col event_indicator time_numeric name;
      rows ← feature_rows df time_col event_indicator time_numeric rest;
      Ok (row :: rows)
  end.

Definition _compute_feature_statistics (df : DataFrame)
    (feature_columns : list string) (time_col : option string)
    (event_indicator : list Z) (time_numeric : option (list pyfloat))
    : outcome (list FeatureRow) :=
  match feature_columns, time_col with
  | [], _ | _, None => Ok []
  | _, Some t =>
      if negb (str_in t (df_columns df)) then Ok []
      else
        results ← feature_rows df t event_indicator time_numeric feature_columns;
        Ok (py_sort row_lt results)
  end.

Definition feature_columns_of (df : DataFrame) : list string :=
  if (2 <=? num_cols df)%nat then skipn 2 (df_columns df) else [].

Definition _compute_statistics_from_dataframe (df : DataFrame) (time_unit : string)
    : outcome Analysis :=
  let '(time_col, censor_col) := resolve_columns df in
  let feature_columns := feature_columns_of df in
  let numeric_features :=
    List.filter
      (fun name => match df_get df name with
                   | Some s => is_numeric_dtype s
                   | None => false
                   end)
      feature_columns in
  let numeric_features_empty :=
    (num_rows df =? 0)%nat || (List.length numeric_features =? 0)%nat in
  let time_numeric := time_numeric_of df time_col in
  let time_series := option_map dropna time_numeric in
  let time_stat (f : list pyfloat -> pyfloat) : option pyfloat :=
    match time_series with
    | Some (x :: rest) => Some (f (x :: rest))
    | _ => None
    end in
  '(counts, event_indicator) ← event_indicator_stage df censor_col;
  let general_stats :=
    {| num_samples := Z.of_nat (num_rows df);
       num_features := Z.of_nat (List.length feature_columns);
       num_numeric_features :=
         if numeric_features_empty then 0
         else Z.of_nat (List.length numeric_features);
       num_censored := option_map snd counts;
       num_events := option_map fst counts;
       time_min := time_stat series_min;
       time_max := time_stat series_max;
       time_mean := time_stat (series_mean lib);
       time_median := time_stat (series_median lib);
       gs_time_unit := time_unit;
       total_columns := Z.of_nat (num_cols df) |} in
  feature_correlations ←
    _compute_feature_statistics df feature_columns time_col
      event_indicator time_numeric;
  Ok {| general_stats := general_stats;
        feature_correlations := feature_correlations;
        event_time_histogram :=
          _build_event_time_histogram time_numeric event_indicator |}.

(** ** Loading and caching *)

(** [get_full_path] is called before the [try], so what it raises leaves
    the loader; what is raised inside the [try] gives [None]. *)
Definition _read_dataset_into_dataframe (storage : Storage) (dataset : Dataset)
    : outcome (option DataFrame) :=
  match file_path dataset with
  | None => Ok None
  | Some path =>
      if negb (truthy (Some path)) then Ok None
      else
        match default_storage_path lib path with
        | None => Raise SuspiciousFileOperation
        | Some _ =>
            match storage !! path with
            | None => Ok None
            | Some content =>
                if endswith (lower path) ".tsv"
                then Ok (read_csv lib content TAB)
                else Ok (read_csv lib content ",")
            end
        end
  end.

Definition calculate_and_store_dataset_statistics
    (storage : Storage) (db : Database) (dataset : Dataset)
    (dataframe : option DataFrame)
    : outcome (DatasetStatisticsResult * Database) :=
  df ←
    match dataframe with
    | Some d => Ok (Some d)
    | None => _read_dataset_into_dataframe storage dataset
    end;
  analysis ←
    match df with
    | Some d =>
        if df_empty d
        then Ok {| general_stats := empty_general_stats (time_unit dataset);
                   feature_correlations := [];
                   event_time_histogram := [] |}
        else _compute_statistics_from_dataframe d (time_unit dataset)
    | None =>
        Ok {| general_stats := empty_general_stats (time_unit dataset);
              feature_correlations := [];
              event_time_histogram := [] |}
    end;
  '(stats, db') ←
    update_or_create db (dataset_id dataset)
      {| st_general_stats := general_stats analysis;
         st_feature_correlations := feature_correlations analysis;
         st_event_time_histogram := event_time_histogram analysis;
         schema_version := DATASET_STATS_SCHEMA_VERSION |};
  Ok ({| stats := stats;
         dataframe := match df with
                      | Some d => Some d
                      | None => Some (mkDataFrame [] [])
                      end |}, db').

Definition ensure_dataset_statistics
    (storage : Storage) (db : Database) (dataset : Dataset)
    (force_recalculate : bool) (dataframe : option DataFrame)
    (include_dataframe : bool)
    : outcome (DatasetStatisticsResult * Database) :=
  existing ← get_statistics db (dataset_id dataset);
  match existing with
  | Some row =>
      if negb force_recalculate
         && String.eqb (schema_version row) DATASET_STATS_SCHEMA_VERSION
      then
        df ←
          match dataframe with
          | Some d => Ok (Some d)
          | None =>
              if include_dataframe
              then _read_dataset_into_dataframe storage dataset
              else Ok None
          end;
        Ok ({| stats := row; dataframe := df |}, db)
      else calculate_and_store_dataset_statistics storage db dataset dataframe
  | None => calculate_and_store_dataset_statistics storage db dataset dataframe
  end.

End Engine.

(** * Properties *)

(** ** Series and indicator lemmas *)

(** The integer an indicator entry becomes after [fillna(0).astype(int)]. *)
Definition bit (x : pyfloat) : Z :=
  match x with
  | Fin a => Qtrunc a
  | _ => 0
  end.

(** An indicator entry: missing, or the number 0 or 1. *)
Definition nan_or_bit (x : pyfloat) : Prop :=
  x = NaN \/ exists a, x = Fin a /\ (a == 0 \/ a == 1)%Q.

Lemma Qtrunc_0 (a : Q) : (a == 0)%Q -> Qtrunc a = 0.
Proof.
  unfold Qeq, Qtrunc. simpl. intros H.
  replace (Qnum a) with 0 by lia. apply Z.quot_0_l. lia.
Qed.

Lemma Qtrunc_1 (a : Q) : (a == 1)%Q -> Qtrunc a = 1.
Proof.
  unfold Qeq, Qtrunc. simpl. intros H.
  replace (Qnum a) with (Zpos (Qden a)) by lia. apply Z.quot_same. lia.
Qed.

Lemma is_zero_or_one_spec (x : pyfloat) :
  is_zero_or_one x = true <-> exists a, x = Fin a /\ (a == 0 \/ a == 1)%Q.
Proof.
  unfold is_zero_or_one. split.
  - intros H. destruct x as [a | s | ]; simpl in H; try discriminate.
    exists a. split; [reflexivity | ].
    apply orb_true_iff in H. destruct H as [H | H]; apply Qeq_bool_iff in H; auto.
  - intros (a & -> & [H | H]); simpl; apply orb_true_iff;
      [left | right]; apply Qeq_bool_iff; exact H.
Qed.

Lemma nan_or_bit_bit (x : pyfloat) : nan_or_bit x -> bit x = 0 \/ bit x = 1.
Proof.
  intros [-> | (a & -> & [H | H])]; simpl; auto using Qtrunc_0, Qtrunc_1.
Qed.

Lemma nan_or_bit_one_minus (x : pyfloat) :
  nan_or_bit x -> nan_or_bit (PyFloat.sub (Fin 1) x).
Proof.
  intros [-> | (a & -> & H)]; [left; reflexivity | right].
  simpl. eexists. split; [reflexivity | ]. destruct H as [H | H]; [right | left]; lra.
Qed.

Lemma reindex_length (n : nat) (s : list pyfloat) : List.length (reindex n s) = n.
Proof. unfold reindex. rewrite length_map, length_seq. reflexivity. Qed.

Lemma map_nth_seq_from {A : Type} (d : A) (l pre : list A) :
  List.map (fun i => nth i (pre ++ l) d) (seq (List.length pre) (List.length l)) = l.
Proof.
  revert pre. induction l as [ | x l IH]; intros pre; simpl; [reflexivity | ].
  f_equal.
  - rewrite app_nth2 by lia. rewrite Nat.sub_diag. reflexivity.
  - specialize (IH (pre ++ [x])). rewrite <- app_assoc in IH. simpl in IH.
    rewrite length_app in IH. simpl in IH. rewrite Nat.add_1_r in IH. exact IH.
Qed.

Lemma reindex_same (s : list pyfloat) : reindex (List.length s) s = s.
Proof. unfold reindex. apply (map_nth_seq_from NaN s []). Qed.

Lemma astype_int_fillna (s : list pyfloat) :
  Forall nan_or_bit s ->
  astype_int (fillna (Fin 0) s) = Ok (List.map bit s).
Proof.
  induction 1 as [ | x s Hx _ IH]; [reflexivity | ].
  change (astype_int (fillna (Fin 0) (x :: s)))
    with (z ← astype_int1 (if PyFloat.isnan x then Fin 0 else x);
          zs ← astype_int (fillna (Fin 0) s); Ok (z :: zs)).
  rewrite IH. destruct Hx as [-> | (a & -> & _)]; reflexivity.
Qed.

Lemma count_bits (s : list Z) :
  Forall (fun z => z = 0 \/ z = 1) s ->
  count_eq 1 s + count_eq 0 s = Z.of_nat (List.length s).
Proof.
  unfold count_eq. induction 1 as [ | z s Hz _ IH]; simpl; [reflexivity | ].
  destruct Hz as [-> | ->]; simpl; lia.
Qed.

Lemma df_get_length (df : DataFrame) (c : string) (s : Series) :
  df_get df c = Some s -> List.length s = num_rows df.
Proof.
  unfold df_get, num_rows. destruct (position c (df_columns df)); [ | discriminate].
  intros [= <-]. apply length_map.
Qed.

Section IndicatorFacts.
Context (lib : Libraries).

Lemma to_numeric_length (s : Series) : List.length (to_numeric lib s) = List.length s.
Proof. apply length_map. Qed.

Lemma dropna_bits (s : list pyfloat) :
  forallb is_zero_or_one (dropna s) = true -> Forall nan_or_bit s.
Proof.
  induction s as [ | x s IH]; intros H; [constructor | ].
  destruct x as [a | b | ]; simpl in H.
  - apply andb_true_iff in H. destruct H as [H1 H2]. constructor.
    + right. apply is_zero_or_one_spec. exact H1.
    + apply IH. exact H2.
  - discriminate.
  - constructor; [left; reflexivity | apply IH; exact H].
Qed.

(** What [_derive_event_indicator] returns, as one equation. *)
Lemma derive_event_indicator_eq (series : Series) (c : string) :
  _derive_event_indicator lib series c =
    if (match dropna (to_numeric lib series) with [] => false | _ => true end)
       && forallb is_zero_or_one (dropna (to_numeric lib series))
    then Some (if str_contains "censor" (lower c)
               then List.map (fun x => PyFloat.sub (Fin 1) x) (to_numeric lib series)
               else to_numeric lib series)
    else None.
Proof.
  unfold _derive_event_indicator.
  destruct (dropna (to_numeric lib series)) as [ | x v]; [reflexivity | ].
  destruct (forallb is_zero_or_one (x :: v)); reflexivity.
Qed.

Lemma derive_event_indicator_values (series : Series) (c : string) (ind : list pyfloat) :
  _derive_event_indicator lib series c = Some ind ->
  Forall nan_or_bit ind /\ List.length ind = List.length series.
Proof.
  rewrite derive_event_indicator_eq.
  destruct (forallb is_zero_or_one (dropna (to_numeric lib series))) eqn:F;
    [ | rewrite andb_false_r; discriminate].
  apply dropna_bits in F.
  destruct (dropna (to_numeric lib series)) as [ | x v]; [discriminate | ].
  simpl. intros [= <-].
  destruct (str_contains "censor" (lower c)).
  - split; [ | rewrite length_map; apply to_numeric_length].
    apply List.Forall_map. eapply List.Forall_impl; [ | exact F].
    intros y Hy. exact (nan_or_bit_one_minus y Hy).
  - split; [exact F | apply to_numeric_length].
Qed.

Lemma derived_indicator_values (df : DataFrame) (cc : option string) (ind : list pyfloat) :
  derived_indicator lib df cc = Some ind ->
  Forall nan_or_bit ind /\ List.length ind = num_rows df.
Proof.
  unfold derived_indicator. destruct cc as [c | ]; [ | discriminate].
  destruct (truthy (Some c)); [ | discriminate].
  destruct (df_get df c) as [s | ] eqn:G; [ | discriminate].
  intros H. apply derive_event_indicator_values in H. destruct H as [H1 H2].
  split; [exact H1 | ]. rewrite H2. eapply df_get_length. exact G.
Qed.

(** The indicator stage never raises; its result in both cases. *)
Lemma event_indicator_stage_eq (df : DataFrame) (cc : option string) :
  event_indicator_stage lib df cc =
    match derived_indicator lib df cc with
    | Some ind =>
        Ok (Some (count_eq 1 (List.map bit ind), count_eq 0 (List.map bit ind)),
            List.map bit ind)
    | None => Ok (None, repeat 1 (num_rows df))
    end.
Proof.
  unfold event_indicator_stage.
  destruct (derived_indicator lib df cc) as [ind | ] eqn:D; [ | reflexivity].
  apply derived_indicator_values in D. destruct D as [HF HL].
  rewrite <- HL, reindex_same, astype_int_fillna by exact HF. reflexivity.
Qed.

End IndicatorFacts.

(** ** Event counts (C1, C4, C5, C10) *)

(** A library instance for closed examples: no text entry is numeric,
    means and medians are exact, lifelines is not installed, the storage
    accepts every name and no file content parses. *)
Definition sample_lib : Libraries :=
  {| str_to_numeric := fun _ => NaN;
     series_mean := exact_mean;
     series_median := exact_median;
     series_std := fun _ => Fin 0;
     pearson := fun _ _ => NaN;
     lifelines_available := false;
     cox_fit := fun _ _ _ => None;
     np_log := fun _ => NaN;
     default_storage_path := fun path => Some ("/media/" ++ path)%string;
     read_csv := fun _ _ => None |}.

(** The same with lifelines installed; its fit never converges. *)
Definition lifelines_lib : Libraries :=
  {| str_to_numeric := fun _ => NaN;
     series_mean := exact_mean;
     series_median := exact_median;
     series_std := fun _ => Fin 0;
     pearson := fun _ _ => NaN;
     lifelines_available := true;
     cox_fit := fun _ _ _ => None;
     np_log := fun _ => NaN;
     default_storage_path := fun path => Some ("/media/" ++ path)%string;
     read_csv := fun _ _ => None |}.

Definition num (z : Z) : cell := CNum (Fin (inject_Z z)).

(** The record stored for a dataset without data, and the row written for
    an analysis. *)
Definition empty_analysis (unit : string) : Analysis :=
  {| general_stats := empty_general_stats unit;
     feature_correlations := [];
     event_time_histogram := [] |}.

Definition row_of (a : Analysis) : DatasetStatistics :=
  {| st_general_stats := general_stats a;
     st_feature_correlations := feature_correlations a;
     st_event_time_histogram := event_time_histogram a;
     schema_version := DATASET_STATS_SCHEMA_VERSION |}.

Section ComputationFacts.
Context (lib : Libraries).

(** The general statistics of a table, given the counts of the indicator
    stage. *)
Definition general_stats_of (df : DataFrame) (unit : string)
    (counts : option (Z * Z)) : GeneralStats :=
  let feature_columns := feature_columns_of df in
  let numeric_features :=
    List.filter
      (fun name => match df_get df name with
                   | Some s => is_numeric_dtype s
                   | None => false
                   end)
      feature_columns in
  let time_series :=
    option_map dropna (time_numeric_of lib df (fst (resolve_columns df))) in
  let time_stat (f : list pyfloat -> pyfloat) : option pyfloat :=
    match time_series with
    | Some (x :: rest) => Some (f (x :: rest))
    | _ => None
    end in
  {| num_samples := Z.of_nat (num_rows df);
     num_features := Z.of_nat (List.length feature_columns);
     num_numeric_features :=
       if (num_rows df =? 0)%nat || (List.length numeric_features =? 0)%nat
       then 0 else Z.of_nat (List.length numeric_features);
     num_censored := option_map snd counts;
     num_events := option_map fst counts;
     time_min := time_stat series_min;
     time_max := time_stat series_max;
     time_mean := time_stat (series_mean lib);
     time_median := time_stat (series_median lib);
     gs_time_unit := unit;
     total_columns := Z.of_nat (num_cols df) |}.

(** The integer indicator the feature statistics and the histogram
    receive, and the counts the general statistics receive. *)
Definition engine_indicator (df : DataFrame) : list Z :=
  match derived_indicator lib df (snd (resolve_columns df)) with
  | Some ind => List.map bit ind
  | None => repeat 1 (num_rows df)
  end.

Definition engine_counts (df : DataFrame) : option (Z * Z) :=
  match derived_indicator lib df (snd (resolve_columns df)) with
  | Some ind => Some (count_eq 1 (List.map bit ind), count_eq 0 (List.map bit ind))
  | None => None
  end.

(** The computation returns exactly when the feature statistics do, and
    raises what they raise otherwise. *)
Lemma compute_statistics_cases (df : DataFrame) (unit : string) :
  _compute_statistics_from_dataframe lib df unit =
    match _compute_feature_statistics lib df (feature_columns_of df)
            (fst (resolve_columns df)) (engine_indicator df)
            (time_numeric_of lib df (fst (resolve_columns df))) with
    | Ok rows =>
        Ok {| general_stats := general_stats_of df unit (engine_counts df);
              feature_correlations := rows;
              event_time_histogram :=
                _build_event_time_histogram
                  (time_numeric_of lib df (fst (resolve_columns df)))
                  (engine_indicator df) |}
    | Raise e => Raise e
    end.
Proof.
  unfold _compute_statistics_from_dataframe, general_stats_of,
    engine_indicator, engine_counts.
  destruct (resolve_columns df) as [tc cc]. cbn [fst snd].
  rewrite event_indicator_stage_eq.
  destruct (derived_indicator lib df cc) as [ind | ]; reflexivity.
Qed.

Lemma compute_statistics_inv (df : DataFrame) (unit : string) (a : Analysis) :
  _compute_statistics_from_dataframe lib df unit = Ok a ->
  _compute_feature_statistics lib df (feature_columns_of df)
    (fst (resolve_columns df)) (engine_indicator df)
    (time_numeric_of lib df (fst (resolve_columns df)))
    = Ok (feature_correlations a) /\
  general_stats a = general_stats_of df unit (engine_counts df) /\
  event_time_histogram a =
    _build_event_time_histogram
      (time_numeric_of lib df (fst (resolve_columns df))) (engine_indicator df).
Proof.
  rewrite compute_statistics_cases.
  destruct (_compute_feature_statistics _ _ _ _ _ _) as [rows | e];
    [ | discriminate].
  intros [= <-]. repeat split.
Qed.

Lemma engine_counts_sum (df : DataFrame) (e c : Z) :
  engine_counts df = Some (e, c) -> e + c = Z.of_nat (num_rows df).
Proof.
  unfold engine_counts.
  destruct (derived_indicator lib df (snd (resolve_columns df))) as [ind | ] eqn:D;
    [ | discriminate].
  intros [= <- <-].
  apply derived_indicator_values in D. destruct D as [HF HL].
  rewrite count_bits.
  - rewrite length_map, HL. reflexivity.
  - apply List.Forall_map. eapply List.Forall_impl; [ | exact HF].
    intros x Hx. apply nan_or_bit_bit. exact Hx.
Qed.

(** A table without rows or without columns has no derivable indicator. *)
Lemma empty_frame_underivable (df : DataFrame) :
  df_empty df = true ->
  derived_indicator lib df (snd (resolve_columns df)) = None.
Proof.
  unfold df_empty, num_rows, num_cols. intros H.
  apply orb_true_iff in H. destruct H as [H | H]; apply Nat.eqb_eq in H.
  - unfold derived_indicator.
    destruct (snd (resolve_columns df)) as [c | ]; [ | reflexivity].
    destruct (truthy (Some c)); [ | reflexivity].
    unfold df_get. destruct (position c (df_columns df)); [ | reflexivity].
    destruct (df_records df); [reflexivity | discriminate].
  - destruct df as [cols recs]. simpl in H.
    destruct cols; [reflexivity | discriminate].
Qed.

(** What a call of [calculate_and_store_dataset_statistics] that returns
    has done. *)
Lemma calculate_inv (storage : Storage) (db : Database) (dataset : Dataset)
    (frame : option DataFrame) (result : DatasetStatisticsResult) (db' : Database) :
  calculate_and_store_dataset_statistics lib storage db dataset frame
    = Ok (result, db') ->
  exists df analysis,
    match frame with
    | Some d => Ok (Some d)
    | None => _read_dataset_into_dataframe lib storage dataset
    end = Ok df /\
    match df with
    | Some d =>
        if df_empty d then Ok (empty_analysis (time_unit dataset))
        else _compute_statistics_from_dataframe lib d (time_unit dataset)
    | None => Ok (empty_analysis (time_unit dataset))
    end = Ok analysis /\
    db_reachable db = true /\
    json_storable (row_of analysis) = true /\
    result = {| stats := row_of analysis;
                dataframe := Some (match df with
                                   | Some d => d
                                   | None => mkDataFrame [] []
                                   end) |} /\
    db' = {| db_reachable := db_reachable db;
             db_rows := <[dataset_id dataset := row_of analysis]> (db_rows db) |}.
Proof.
  unfold calculate_and_store_dataset_statistics.
  destruct (match frame with
            | Some d => Ok (Some d)
            | None => _read_dataset_into_dataframe lib storage dataset
            end) as [df | e]; [ | discriminate].
  change (empty_general_stats (time_unit dataset)) with
    (general_stats (empty_analysis (time_unit dataset))).
  cbn [mbind outcome_bind].
  destruct (match df with
            | Some d =>
                if df_empty d
                then Ok {| general_stats := general_stats (empty_analysis (time_unit dataset));
                           feature_correlations := [];
                           event_time_histogram := [] |}
                else _compute_statistics_from_dataframe lib d (time_unit dataset)
            | None =>
                Ok {| general_stats := general_stats (empty_analysis (time_unit dataset));
                      feature_correlations := [];
                      event_time_histogram := [] |}
            end) as [analysis | e] eqn:A; [ | discriminate].
  cbn [mbind outcome_bind]. unfold update_or_create.
  destruct (db_reachable db) eqn:R; [ | discriminate].
  change ({| st_general_stats := general_stats analysis;
             st_feature_correlations := feature_correlations analysis;
             st_event_time_histogram := event_time_histogram analysis;
             schema_version := DATASET_STATS_SCHEMA_VERSION |})
    with (row_of analysis).
  destruct (json_storable (row_of analysis)) eqn:J; [ | discriminate].
  cbn [andb]. intros [= <- <-].
  exists df, analysis. split; [reflexivity | ].
  split; [exact A | ]. split; [reflexivity | ]. split; [exact J | ].
  split; [destruct df; reflexivity | reflexivity].
Qed.


End ComputationFacts.

Section EventCounts.
Context (lib : Libraries).

(** C1. The row a call of the engine persists for the table it loaded:
    when an event indicator is derivable from the resolved event/censoring
    column, the persisted general statistics satisfy
    [num_events + num_censored = num_samples] (the number of rows), and
    when it is not (or no such column exists) [num_events] and
    [num_censored] are both null. *)
Theorem count_conservation
    (storage : Storage) (db : Database) (dataset : Dataset)
    (frame : option DataFrame) (result : DatasetStatisticsResult) (db' : Database) :
  calculate_and_store_dataset_statistics lib storage db dataset frame
    = Ok (result, db') ->
  exists df,
    dataframe result = Some df /\
    db_rows db' !! dataset_id dataset = Some (stats result) /\
    let persisted := st_general_stats (stats result) in
    match derived_indicator lib df (snd (resolve_columns df)) with
    | Some _ =>
        exists e c,
          num_events persisted = Some e /\
          num_censored persisted = Some c /\
          e + c = num_samples persisted /\
          num_samples persisted = Z.of_nat (num_rows df)
    | None =>
        num_events persisted = None /\
        num_censored persisted = None
    end.
Proof.
  intros H. apply calculate_inv in H.
  destruct H as (df & analysis & _ & Han & _ & _ & -> & ->).
  eexists. split; [reflexivity | ].
  split; [cbn [db_rows]; apply lookup_insert_eq | ].
  cbn [stats row_of st_general_stats].
  assert (Hempty : forall d,
             df_empty d = true ->
             analysis = empty_analysis (time_unit dataset) ->
             match derived_indicator lib d (snd (resolve_columns d)) with
             | Some _ =>
                 exists e c,
                   num_events (general_stats analysis) = Some e /\
                   num_censored (general_stats analysis) = Some c /\
                   e + c = num_samples (general_stats analysis) /\
                   num_samples (general_stats analysis) = Z.of_nat (num_rows d)
             | None =>
                 num_events (general_stats analysis) = None /\
                 num_censored (general_stats analysis) = None
             end).
  { intros d Hd ->. rewrite (empty_frame_underivable lib d Hd).
    split; reflexivity. }
  destruct df as [d | ].
  - destruct (df_empty d) eqn:E.
    + apply Hempty; [exact E | congruence].
    + apply compute_statistics_inv in Han. destruct Han as (_ & -> & _).
      pose proof (engine_counts_sum lib d) as Hsum.
      unfold engine_counts in *.
      destruct (derived_indicator lib d (snd (resolve_columns d))) as [ind | ].
      * eexists. eexists. split; [reflexivity | ]. split; [reflexivity | ].
        split; [ | reflexivity]. cbn [num_samples general_stats_of].
        apply Hsum. reflexivity.
      * split; reflexivity.
  - apply Hempty; [reflexivity | congruence].
Qed.

Lemma nth_error_to_numeric (series : Series) (i : nat) :
  nth_error (to_numeric lib series) i = option_map (coerce lib) (nth_error series i).
Proof. unfold to_numeric. apply List.nth_error_map. Qed.

(** C10. When the indicator is derivable, the engine's indicator has one
    entry per row, and a row whose event entry is missing or not numeric
    gets indicator 0, so it is among the rows counted as censored; the two
    counts add up to the number of rows, and they are the [num_events] and
    [num_censored] of every analysis the computation returns. *)
Theorem missing_event_entries_are_censored
    (df : DataFrame) (unit c : string) (series : Series) :
  snd (resolve_columns df) = Some c ->
  df_get df c = Some series ->
  derived_indicator lib df (Some c) <> None ->
  exists e k event_indicator,
    event_indicator_stage lib df (Some c) = Ok (Some (e, k), event_indicator) /\
    List.length event_indicator = num_rows df /\
    (forall i entry,
        nth_error series i = Some entry ->
        coerce lib entry = NaN ->
        nth_error event_indicator i = Some 0) /\
    k = count_eq 0 event_indicator /\
    e + k = Z.of_nat (num_rows df) /\
    forall a,
      _compute_statistics_from_dataframe lib df unit = Ok a ->
      num_events (general_stats a) = Some e /\
      num_censored (general_stats a) = Some k /\
      e + k = num_samples (general_stats a).
Proof.
  intros Hc Hs Hsome.
  destruct (derived_indicator lib df (Some c)) as [ind | ] eqn:Hd; [ | congruence].
  clear Hsome.
  pose proof (derived_indicator_values lib df (Some c) ind Hd) as [HF HL].
  assert (Hsum : count_eq 1 (List.map bit ind) + count_eq 0 (List.map bit ind)
                 = Z.of_nat (num_rows df)).
  { rewrite count_bits.
    - rewrite length_map, HL. reflexivity.
    - apply List.Forall_map. eapply List.Forall_impl; [ | exact HF].
      intros x Hx. apply nan_or_bit_bit. exact Hx. }
  rewrite event_indicator_stage_eq, Hd.
  eexists. eexists. eexists.
  split; [reflexivity | ].
  split; [rewrite length_map; exact HL | ].
  split; [ | split; [reflexivity | split; [exact Hsum | ]]].
  - intros i entry Hi Hnan.
    rewrite List.nth_error_map.
    assert (Hind : nth_error ind i = Some NaN).
    { unfold derived_indicator in Hd. rewrite Hs in Hd.
      destruct (truthy (Some c)); [ | discriminate].
      rewrite derive_event_indicator_eq in Hd.
      destruct (_ && _); [ | discriminate].
      injection Hd as <-.
      destruct (str_contains "censor" (lower c)).
      - rewrite List.nth_error_map, nth_error_to_numeric, Hi. simpl.
        rewrite Hnan. reflexivity.
      - rewrite nth_error_to_numeric, Hi. simpl. rewrite Hnan. reflexivity. }
    rewrite Hind. reflexivity.
  - intros a Ha. apply compute_statistics_inv in Ha. destruct Ha as (_ & -> & _).
    unfold engine_counts. rewrite Hc, Hd.
    cbn [general_stats_of num_events num_censored num_samples option_map fst snd].
    split; [reflexivity | ]. split; [reflexivity | exact Hsum].
Qed.


Lemma inverted_bit (x : pyfloat) :
  nan_or_bit x ->
  (1 =? bit (PyFloat.sub (Fin 1) x)) = PyFloat.eqb x (Fin 0).
Proof.
  intros [-> | (a & -> & [Ha | Ha])].
  - reflexivity.
  - replace (bit (PyFloat.sub (Fin 1) (Fin a))) with 1
      by (symmetry; apply Qtrunc_1; lra).
    symmetry. apply Qeq_bool_iff. exact Ha.
  - replace (bit (PyFloat.sub (Fin 1) (Fin a))) with 0
      by (symmetry; apply Qtrunc_0; lra).
    symmetry. apply not_true_is_false. intros E.
    apply Qeq_bool_iff in E. lra.
Qed.

Lemma count_inverted_zeros (numeric : list pyfloat) :
  Forall nan_or_bit numeric ->
  count_eq 1 (List.map bit (List.map (fun x => PyFloat.sub (Fin 1) x) numeric)) =
    Z.of_nat (List.length (List.filter (fun x => PyFloat.eqb x (Fin 0)) numeric)).
Proof.
  unfold count_eq. intros H. f_equal.
  induction H as [ | x s Hx _ IH]; [reflexivity | ].
  cbn [List.map List.filter]. rewrite (inverted_bit x Hx).
  destruct (PyFloat.eqb x (Fin 0)); cbn [List.length]; rewrite IH; reflexivity.
Qed.

Lemma contains_censor_nonempty (c : string) :
  str_contains "censor" (lower c) = true -> truthy (Some c) = true.
Proof. destruct c; [discriminate | reflexivity]. Qed.

(** The number of rows in which a column holds the number 0. *)
Definition rows_holding_zero (series : Series) : Z :=
  Z.of_nat (List.length
              (List.filter (fun x => PyFloat.eqb x (Fin 0)) (to_numeric lib series))).

(** C4, amended. For a resolved event/censoring column whose name
    contains "censor" (in any case), that has at least one numeric value
    and whose numeric values are all 0 or 1, the derived indicator inverts
    the stored values (1 becomes 0, 0 becomes 1), the event count of the
    indicator stage is the number of rows in which the column holds 0, and
    that number is the [num_events] of every analysis the computation
    returns. *)
Theorem censor_column_inversion
    (df : DataFrame) (unit c : string) (series : Series) :
  snd (resolve_columns df) = Some c ->
  df_get df c = Some series ->
  str_contains "censor" (lower c) = true ->
  forallb is_zero_or_one (dropna (to_numeric lib series)) = true ->
  dropna (to_numeric lib series) <> [] ->
  exists ind k event_indicator,
    _derive_event_indicator lib series c = Some ind /\
    (forall i x,
        nth_error (to_numeric lib series) i = Some x ->
        (PyFloat.eqb x (Fin 1) = true ->
         exists y, nth_error ind i = Some y /\ PyFloat.eqb y (Fin 0) = true) /\
        (PyFloat.eqb x (Fin 0) = true ->
         exists y, nth_error ind i = Some y /\ PyFloat.eqb y (Fin 1) = true)) /\
    event_indicator_stage lib df (Some c)
      = Ok (Some (rows_holding_zero series, k), event_indicator) /\
    forall a,
      _compute_statistics_from_dataframe lib df unit = Ok a ->
      num_events (general_stats a) = Some (rows_holding_zero series).
Proof.
  intros Hc Hs Hname Hall Hne.
  assert (Hd : _derive_event_indicator lib series c =
               Some (List.map (fun x => PyFloat.sub (Fin 1) x) (to_numeric lib series))).
  { rewrite derive_event_indicator_eq, Hall, Hname.
    destruct (dropna (to_numeric lib series)); [congruence | reflexivity]. }
  assert (Hdi : derived_indicator lib df (Some c) =
                Some (List.map (fun x => PyFloat.sub (Fin 1) x) (to_numeric lib series))).
  { unfold derived_indicator.
    rewrite (contains_censor_nonempty c Hname), Hs, Hd. reflexivity. }
  assert (Hcount :
            count_eq 1 (List.map bit
                          (List.map (fun x => PyFloat.sub (Fin 1) x)
                             (to_numeric lib series)))
            = rows_holding_zero series).
  { apply count_inverted_zeros. apply dropna_bits. exact Hall. }
  eexists. eexists. eexists. split; [exact Hd | ]. split; [ | split].
  - intros i x Hi. rewrite List.nth_error_map, Hi. simpl option_map. split; intros Hx.
    + eexists. split; [reflexivity | ].
      destruct x as [a | s | ]; try discriminate. simpl in Hx |- *.
      apply Qeq_bool_iff in Hx. apply Qeq_bool_iff. lra.
    + eexists. split; [reflexivity | ].
      destruct x as [a | s | ]; try discriminate. simpl in Hx |- *.
      apply Qeq_bool_iff in Hx. apply Qeq_bool_iff. lra.
  - rewrite event_indicator_stage_eq, Hdi, Hcount. reflexivity.
  - intros a Ha. apply compute_statistics_inv in Ha. destruct Ha as (_ & -> & _).
    unfold engine_counts. rewrite Hc, Hdi.
    cbn [general_stats_of num_events option_map fst]. rewrite Hcount. reflexivity.
Qed.

(** C4 as the specification words it, without asking for a numeric value. *)
Definition censor_inversion_as_stated (df : DataFrame) (unit : string) : Prop :=
  forall c series a,
    snd (resolve_columns df) = Some c ->
    df_get df c = Some series ->
    str_contains "censor" (lower c) = true ->
    forallb is_zero_or_one (dropna (to_numeric lib series)) = true ->
    _compute_statistics_from_dataframe lib df unit = Ok a ->
    num_events (general_stats a) = Some (rows_holding_zero series).

End EventCounts.

(** Closed instances on small tables. *)

(** The table of the upload test: [time,censored,feature_a]. *)
Definition upload_table : DataFrame :=
  mkDataFrame ["time"; "censored"; "feature_a"]%string
    [[num 10; num 1; CNum (Fin (1 # 2))];
     [num 15; num 0; CNum (Fin (3 # 2))];
     [num 20; num 1; num 3]].

(** A table whose censoring flag is missing in its second row. *)
Definition gap_table : DataFrame :=
  mkDataFrame ["time"; "censored"]%string
    [[num 4; num 0]; [num 6; CNum NaN]; [num 9; num 1]].

(** A table whose status column is not binary. *)
Definition graded_table : DataFrame :=
  mkDataFrame ["time"; "status"; "age"]%string
    [[num 4; num 0; num 50]; [num 6; num 2; num 61]; [num 9; num 1; num 47]].

(** A table whose censoring column has no value at all. *)
Definition blank_table : DataFrame :=
  mkDataFrame ["time"; "censored"]%string
    [[num 4; CNum NaN]; [num 6; CNum NaN]].

(** A dataset and a database that answers and holds no row. *)
Definition upload_dataset : Dataset :=
  {| dataset_id := 3;
     file_path := Some "datasets/2025/01/upload.csv"%string;
     time_unit := "day" |}.

Definition empty_db : Database := {| db_reachable := true; db_rows := ∅ |}.

Lemma count_conservation_witness :
  exists result db',
    calculate_and_store_dataset_statistics lifelines_lib ∅ empty_db upload_dataset
      (Some upload_table) = Ok (result, db') /\
    db_rows db' !! 3 = Some (stats result) /\
    num_events (st_general_stats (stats result)) = Some 1 /\
    num_censored (st_general_stats (stats result)) = Some 2 /\
    num_samples (st_general_stats (stats result)) = 3.
Proof.
  destruct (calculate_and_store_dataset_statistics lifelines_lib ∅ empty_db
              upload_dataset (Some upload_table)) as [[result db'] | e] eqn:H;
    [ | vm_compute in H; discriminate].
  exists result, db'. split; [reflexivity | ].
  destruct (count_conservation lifelines_lib ∅ empty_db upload_dataset
              (Some upload_table) result db' H) as (df & Hdf & Hrow & Hcounts).
  split; [exact Hrow | ].
  vm_compute in H. injection H as <- <-. repeat split.
Defined.

Lemma missing_event_entries_are_censored_witness :
  exists e k event_indicator,
    event_indicator_stage sample_lib gap_table (Some "censored"%string)
      = Ok (Some (e, k), event_indicator) /\
    List.length event_indicator = num_rows gap_table /\
    (forall i entry,
        nth_error [num 0; CNum NaN; num 1] i = Some entry ->
        coerce sample_lib entry = NaN ->
        nth_error event_indicator i = Some 0) /\
    k = count_eq 0 event_indicator /\
    e + k = Z.of_nat (num_rows gap_table) /\
    forall a,
      _compute_statistics_from_dataframe sample_lib gap_table "day" = Ok a ->
      num_events (general_stats a) = Some e /\
      num_censored (general_stats a) = Some k /\
      e + k = num_samples (general_stats a).
Proof.
  apply (missing_event_entries_are_censored sample_lib gap_table "day" "censored").
  - reflexivity.
  - reflexivity.
  - vm_compute. discriminate.
Defined.


Lemma censor_column_inversion_witness :
  exists a,
    _compute_statistics_from_dataframe lifelines_lib upload_table "day" = Ok a /\
    num_events (general_stats a) = Some 1.
Proof.
  destruct (censor_column_inversion lifelines_lib upload_table "day" "censored"
              [num 1; num 0; num 1]) as (ind & k & ev & _ & _ & _ & H).
  - reflexivity.
  - reflexivity.
  - reflexivity.
  - reflexivity.
  - vm_compute. discriminate.
  - destruct (_compute_statistics_from_dataframe lifelines_lib upload_table "day")
      as [a | e] eqn:E; [ | vm_compute in E; discriminate].
    exists a. split; [reflexivity | ]. apply H. reflexivity.
Defined.

(** C4 as worded fails on a censoring column without any value: its
    numeric values are (vacuously) all 0 or 1, no row holds 0, and the
    reported event count is null, not 0. *)
Lemma censor_inversion_as_stated_fails :
  ~ censor_inversion_as_stated sample_lib blank_table "day".
Proof.
  intros H.
  destruct (_compute_statistics_from_dataframe sample_lib blank_table "day")
    as [a | e] eqn:E; [ | vm_compute in E; discriminate].
  specialize (H "censored"%string [CNum NaN; CNum NaN] a).
  vm_compute in E. injection E as <-.
  discriminate H; reflexivity.
Qed.

(** ** The order on floats *)

Lemma leb_Fin (a b : Q) : PyFloat.leb (Fin a) (Fin b) = true <-> (a <= b)%Q.
Proof. simpl. apply Qle_bool_iff. Qed.

Lemma leb_trans (x y z : pyfloat) :
  PyFloat.leb x y = true -> PyFloat.leb y z = true -> PyFloat.leb x z = true.
Proof.
  destruct x as [a | [ | ] | ], y as [b | [ | ] | ], z as [c | [ | ] | ];
    simpl; try (intros; congruence).
  rewrite !Qle_bool_iff. intros. lra.
Qed.

Lemma leb_total (x y : pyfloat) :
  PyFloat.isnan x = false -> PyFloat.isnan y = false ->
  PyFloat.leb x y = false -> PyFloat.leb y x = true.
Proof.
  destruct x as [a | [ | ] | ], y as [b | [ | ] | ];
    simpl; try (intros; congruence).
  intros _ _ H. apply Qle_bool_iff.
  destruct (Qlt_le_dec b a) as [L | L]; [lra | ].
  apply Qle_bool_iff in L. congruence.
Qed.

Lemma leb_notnan (x y : pyfloat) :
  PyFloat.leb x y = true -> PyFloat.isnan x = false /\ PyFloat.isnan y = false.
Proof.
  destruct x as [a | [ | ] | ], y as [b | [ | ] | ]; simpl;
    intros; split; congruence.
Qed.

Lemma min_lower_bound (lo x y : pyfloat) :
  PyFloat.leb lo (PyFloat.min x y) = true ->
  PyFloat.leb lo x = true /\ PyFloat.leb lo y = true.
Proof.
  unfold PyFloat.min.
  destruct (PyFloat.isnan x) eqn:Nx; [destruct lo as [ | [ | ] | ]; discriminate | ].
  destruct (PyFloat.isnan y) eqn:Ny; [destruct lo as [ | [ | ] | ]; discriminate | ].
  simpl. destruct (PyFloat.leb x y) eqn:L; intros H.
  - split; [exact H | eapply leb_trans; eassumption].
  - split; [ | exact H]. eapply leb_trans; [exact H | ].
    apply leb_total; assumption.
Qed.

Lemma max_upper_bound (hi x y : pyfloat) :
  PyFloat.leb (PyFloat.max x y) hi = true ->
  PyFloat.leb x hi = true /\ PyFloat.leb y hi = true.
Proof.
  unfold PyFloat.max.
  destruct (PyFloat.isnan x) eqn:Nx; [discriminate | ].
  destruct (PyFloat.isnan y) eqn:Ny; [discriminate | ].
  simpl. destruct (PyFloat.leb x y) eqn:L; intros H.
  - split; [eapply leb_trans; eassumption | exact H].
  - split; [exact H | ]. eapply leb_trans; [ | exact H].
    apply leb_total; assumption.
Qed.

Lemma fold_min_lower_bound (lo : pyfloat) (rest : list pyfloat) (x : pyfloat) :
  PyFloat.leb lo (fold_left PyFloat.min rest x) = true ->
  Forall (fun y => PyFloat.leb lo y = true) (x :: rest).
Proof.
  revert x. induction rest as [ | y rest IH]; intros x H; simpl in H.
  - constructor; [exact H | constructor].
  - apply IH in H. inversion H as [ | m l Hm Hrest]; subst.
    apply min_lower_bound in Hm. destruct Hm as [Hx Hy].
    constructor; [exact Hx | constructor; [exact Hy | exact Hrest]].
Qed.

Lemma fold_max_upper_bound (hi : pyfloat) (rest : list pyfloat) (x : pyfloat) :
  PyFloat.leb (fold_left PyFloat.max rest x) hi = true ->
  Forall (fun y => PyFloat.leb y hi = true) (x :: rest).
Proof.
  revert x. induction rest as [ | y rest IH]; intros x H; simpl in H.
  - constructor; [exact H | constructor].
  - apply IH in H. inversion H as [ | m l Hm Hrest]; subst.
    apply max_upper_bound in Hm. destruct Hm as [Hx Hy].
    constructor; [exact Hx | constructor; [exact Hy | exact Hrest]].
Qed.

(** A value between two rationals is a rational. *)
Definition within (lo hi : Q) (x : pyfloat) : Prop :=
  exists a, x = Fin a /\ (lo <= a <= hi)%Q.

Lemma leb_within (lo hi : Q) (x : pyfloat) :
  PyFloat.leb (Fin lo) x = true -> PyFloat.leb x (Fin hi) = true -> within lo hi x.
Proof.
  destruct x as [a | [ | ] | ]; simpl; try discriminate.
  rewrite !Qle_bool_iff. intros. exists a. split; [reflexivity | lra].
Qed.

(** When the minimum and the maximum of a series are finite, so is every
    entry, and it lies between them. *)
Lemma finite_range_within (s : list pyfloat) (lo hi : Q) :
  s <> [] -> series_min s = Fin lo -> series_max s = Fin hi ->
  Forall (within lo hi) s /\ (lo <= hi)%Q.
Proof.
  destruct s as [ | x rest]; [congruence | ]. intros _ Hmin Hmax.
  simpl in Hmin, Hmax.
  assert (Hlo : Forall (fun y => PyFloat.leb (Fin lo) y = true) (x :: rest)).
  { apply fold_min_lower_bound. rewrite Hmin. apply leb_Fin. lra. }
  assert (Hhi : Forall (fun y => PyFloat.leb y (Fin hi) = true) (x :: rest)).
  { apply fold_max_upper_bound. rewrite Hmax. apply leb_Fin. lra. }
  assert (HW : Forall (within lo hi) (x :: rest)).
  { rewrite List.Forall_forall in Hlo, Hhi |- *. intros y Hy.
    apply leb_within; auto. }
  split; [exact HW | ].
  inversion HW as [ | y l (a & _ & Ha) _]; subst. lra.
Qed.

(** ** Counting into bins *)

Definition sum_counts (l : list Z) : Z := fold_right Z.add 0 l.

Lemma bin_counts_length (edges : list Q) (a : list pyfloat) :
  List.length (bin_counts edges a) = Nat.pred (List.length edges).
Proof.
  induction edges as [ | lo more IH]; [reflexivity | ].
  destruct more as [ | hi rest]; [reflexivity | ].
  change (bin_counts (lo :: hi :: rest) a)
    with (Z.of_nat (List.length
                      (List.filter (in_bin lo hi (match rest with [] => true | _ => false end)) a))
          :: bin_counts (hi :: rest) a).
  simpl List.length in *. rewrite IH. reflexivity.
Qed.

Lemma filter_length_split {A : Type} (p q r : A -> bool) (a : list A) :
  (forall x, r x = p x || q x) ->
  (forall x, p x && q x = false) ->
  (List.length (List.filter p a) + List.length (List.filter q a))%nat =
    List.length (List.filter r a).
Proof.
  intros Hr Hpq. induction a as [ | x a IH]; [reflexivity | ].
  simpl. rewrite (Hr x). specialize (Hpq x).
  destruct (p x), (q x); simpl in *; try discriminate; lia.
Qed.

Lemma Qle_bool_false (a b : Q) : Qle_bool a b = false <-> (b < a)%Q.
Proof.
  split; intros H.
  - destruct (Qlt_le_dec b a) as [L | L]; [exact L | ].
    apply Qle_bool_iff in L. congruence.
  - apply not_true_is_false. intros E. apply Qle_bool_iff in E. lra.
Qed.

Lemma in_bin_glue (lo hi top : Q) (x : pyfloat) :
  (lo <= hi)%Q -> (hi <= top)%Q ->
  in_bin lo top true x = in_bin lo hi false x || in_bin hi top true x.
Proof.
  intros H1 H2. destruct x as [a | s | ]; try reflexivity. simpl.
  destruct (Qle_bool lo a) eqn:E1, (Qle_bool hi a) eqn:E2, (Qle_bool a top) eqn:E3;
    try reflexivity; exfalso;
    repeat match goal with
           | H : Qle_bool _ _ = true |- _ => apply Qle_bool_iff in H
           | H : Qle_bool _ _ = false |- _ => apply Qle_bool_false in H
           end; lra.
Qed.

Lemma in_bin_apart (lo hi top : Q) (x : pyfloat) :
  in_bin lo hi false x && in_bin hi top true x = false.
Proof.
  destruct x as [a | s | ]; try reflexivity. simpl.
  destruct (Qle_bool lo a), (Qle_bool hi a), (Qle_bool a top); reflexivity.
Qed.

Lemma last_cons {A : Type} (l : list A) (x d : A) :
  List.last (x :: l) d = List.last l x.
Proof.
  revert x d. induction l as [ | y l IH]; intros x d; [reflexivity | ].
  change (List.last (x :: y :: l) d) with (List.last (y :: l) d).
  rewrite !IH. reflexivity.
Qed.

Lemma monotonic_last (more : list Q) (lo : Q) :
  monotonic (lo :: more) = true -> (lo <= List.last more lo)%Q.
Proof.
  revert lo. induction more as [ | hi rest IH]; intros lo H.
  - simpl. lra.
  - change (monotonic (lo :: hi :: rest))
      with (Qle_bool lo hi && monotonic (hi :: rest)) in H.
    apply andb_true_iff in H. destruct H as [H1 H2].
    apply Qle_bool_iff in H1. apply IH in H2.
    rewrite last_cons. lra.
Qed.

(** Over non-decreasing edges the bins partition the closed range. *)
Lemma bin_counts_sum (a : list pyfloat) (more : list Q) (lo : Q) :
  more <> [] -> monotonic (lo :: more) = true ->
  sum_counts (bin_counts (lo :: more) a) =
    Z.of_nat (List.length (List.filter (in_bin lo (List.last more lo) true) a)).
Proof.
  revert lo. induction more as [ | hi rest IH]; intros lo Hne Hmono; [congruence | ].
  destruct rest as [ | h2 r].
  - simpl. lia.
  - change (monotonic (lo :: hi :: h2 :: r))
      with (Qle_bool lo hi && monotonic (hi :: h2 :: r)) in Hmono.
    apply andb_true_iff in Hmono. destruct Hmono as [H1 H2].
    apply Qle_bool_iff in H1.
    change (bin_counts (lo :: hi :: h2 :: r) a)
      with (Z.of_nat (List.length (List.filter (in_bin lo hi false) a))
            :: bin_counts (hi :: h2 :: r) a).
    change (sum_counts (?z :: ?l)) with (z + sum_counts l).
    rewrite IH by (congruence || exact H2).
    pose proof (monotonic_last (h2 :: r) hi H2) as Htop.
    rewrite (last_cons (h2 :: r) hi lo).
    rewrite <- Nat2Z.inj_add. f_equal.
    apply filter_length_split.
    + intros x. apply in_bin_glue; assumption.
    + intros x. apply in_bin_apart.
Qed.

Lemma within_all_counted (lo hi : Q) (a : list pyfloat) :
  Forall (within lo hi) a ->
  List.length (List.filter (in_bin lo hi true) a) = List.length a.
Proof.
  induction 1 as [ | x a (q & -> & Hq) _ IH]; [reflexivity | ].
  simpl. destruct (Qle_bool lo q) eqn:E1; [ | apply Qle_bool_false in E1; lra].
  destruct (Qle_bool q hi) eqn:E2; [ | apply Qle_bool_false in E2; lra].
  simpl. rewrite IH. reflexivity.
Qed.

(** ** Equally spaced edges *)

(** The [i]-th point of a grid that starts at [lo]. *)
Definition grid (lo step : Q) (i : nat) : Q :=
  (lo + inject_Z (Z.of_nat i) * step)%Q.

Definition grid_step (lo hi : Q) (div : nat) : Q :=
  ((hi - lo) / inject_Z (Z.of_nat div))%Q.

Lemma linspace_grid (lo hi : Q) (m : nat) :
  linspace lo hi (S (S m)) =
    List.map (grid lo (grid_step lo hi (S m))) (seq 0 (S m)) ++ [hi].
Proof. reflexivity. Qed.

Lemma linspace_length (lo hi : Q) (m : nat) :
  List.length (linspace lo hi (S (S m))) = S (S m).
Proof.
  rewrite linspace_grid, length_app, length_map, length_seq. simpl. lia.
Qed.

Lemma inject_count_pos (m : nat) : (0 < inject_Z (Z.of_nat (S m)))%Q.
Proof.
  change 0%Q with (inject_Z 0). rewrite <- Zlt_Qlt. lia.
Qed.

Lemma grid_step_pos (lo hi : Q) (m : nat) :
  (lo < hi)%Q -> (0 < grid_step lo hi (S m))%Q.
Proof.
  intros H. unfold grid_step. apply Qlt_shift_div_l.
  - apply inject_count_pos.
  - lra.
Qed.

Lemma grid_succ (lo step : Q) (i : nat) :
  (grid lo step (S i) == grid lo step i + step)%Q.
Proof.
  unfold grid. rewrite Nat2Z.inj_succ. unfold Z.succ.
  rewrite inject_Z_plus. ring.
Qed.

Lemma grid_top (lo hi : Q) (m : nat) :
  (grid lo (grid_step lo hi (S m)) (S m) == hi)%Q.
Proof.
  unfold grid, grid_step.
  pose proof (inject_count_pos m) as Hpos.
  field. lra.
Qed.

Lemma grid_increasing (lo step : Q) (i j : nat) :
  (0 < step)%Q -> (i < j)%nat -> (grid lo step i < grid lo step j)%Q.
Proof.
  intros Hs Hij. induction Hij as [ | j _ IH].
  - rewrite grid_succ. lra.
  - rewrite grid_succ. lra.
Qed.

Lemma monotonic_grid (f : nat -> Q) (top : Q) (n s : nat) :
  (forall i, (f i <= f (S i))%Q) ->
  (f (s + n)%nat <= top)%Q ->
  monotonic (List.map f (seq s n) ++ [top]) = true.
Proof.
  intros Hf. revert s. induction n as [ | n IH]; intros s Htop; [reflexivity | ].
  replace (s + S n)%nat with (S s + n)%nat in Htop by lia.
  specialize (IH (S s) Htop).
  destruct n as [ | n].
  - simpl. apply andb_true_iff. split; [ | reflexivity].
    apply Qle_bool_iff. rewrite Nat.add_0_r in Htop. specialize (Hf s). lra.
  - change (List.map f (seq s (S (S n))) ++ [top])
      with (f s :: f (S s) :: (List.map f (seq (S (S s)) n) ++ [top])).
    change (List.map f (seq (S s) (S n)) ++ [top])
      with (f (S s) :: (List.map f (seq (S (S s)) n) ++ [top])) in IH.
    change (monotonic (f s :: ?more)) with (Qle_bool (f s) (f (S s)) && monotonic more).
    rewrite IH. apply andb_true_iff. split; [ | reflexivity].
    apply Qle_bool_iff. apply Hf.
Qed.

Lemma linspace_monotonic (lo hi : Q) (m : nat) :
  (lo < hi)%Q -> monotonic (linspace lo hi (S (S m))) = true.
Proof.
  intros H. rewrite linspace_grid. apply monotonic_grid.
  - intros i. rewrite grid_succ. pose proof (grid_step_pos lo hi m H). lra.
  - simpl Nat.add. rewrite grid_top. lra.
Qed.

Lemma linspace_nth (lo hi : Q) (m i : nat) :
  (i < S m)%nat ->
  nth i (linspace lo hi (S (S m))) 0%Q = grid lo (grid_step lo hi (S m)) i.
Proof.
  intros Hi. rewrite linspace_grid.
  rewrite app_nth1 by (rewrite length_map, length_seq; exact Hi).
  rewrite (nth_indep _ 0%Q (grid lo (grid_step lo hi (S m)) 0))
    by (rewrite length_map, length_seq; exact Hi).
  rewrite map_nth. rewrite seq_nth by exact Hi. reflexivity.
Qed.

Lemma bin_count_bounds (n : Z) :
  5 <= _determine_histogram_bin_count n <= 20.
Proof.
  unfold _determine_histogram_bin_count, MIN_HISTOGRAM_BINS, MAX_HISTOGRAM_BINS.
  destruct (n <=? 0); lia.
Qed.

(** ** The event-time histogram (C2, C3) *)

Lemma filter_labels (f : pyfloat -> bool) (s : list pyfloat) (labels : list nat) :
  List.length labels = List.length s ->
  List.map snd (List.filter (fun p => f (snd p)) (combine labels s)) = List.filter f s.
Proof.
  revert labels. induction s as [ | x s IH]; intros [ | i labels] H;
    try discriminate; [reflexivity | ].
  simpl in H. injection H as H. simpl.
  destruct (f x); simpl; rewrite IH by exact H; reflexivity.
Qed.

Lemma valid_times_values (time_numeric : list pyfloat) :
  List.map snd (List.filter (fun p => PyFloat.notna (snd p)) (labelled time_numeric))
    = dropna time_numeric.
Proof. apply filter_labels. apply length_seq. Qed.

Lemma nth_difference (l1 l2 : list Z) (i : nat) :
  List.length l1 = List.length l2 ->
  nth i (List.map (fun p => fst p - snd p) (combine l1 l2)) 0 = nth i l1 0 - nth i l2 0.
Proof.
  revert l2 i. induction l1 as [ | a l1 IH]; intros [ | b l2] i H; try discriminate.
  - destruct i; reflexivity.
  - destruct i as [ | i]; [reflexivity | ]. simpl. apply IH. simpl in H. lia.
Qed.

(** The record the builder makes for bin [idx]. *)
Definition bin_record (bin_edges : list Q) (total_counts event_counts : list Z)
    (idx : nat) : HistogramBin :=
  {| bin_start := nth idx bin_edges 0%Q;
     bin_end := nth (idx + 1) bin_edges 0%Q;
     count := nth idx total_counts 0;
     events := nth idx event_counts 0;
     censored :=
       nth idx (List.map (fun p => fst p - snd p) (combine total_counts event_counts)) 0 |}.

(** What a non-empty histogram is made of: all valid times are finite and
    lie in a range [lo < hi], the edges are equally spaced over it, and
    both count vectors are taken over these edges. *)
Lemma histogram_inversion (time_numeric : list pyfloat) (event_indicator : list Z) :
  _build_event_time_histogram (Some time_numeric) event_indicator <> [] ->
  exists (lo hi : Q) (m : nat) (event_counts : list Z),
    let valid := dropna time_numeric in
    let bin_edges := linspace lo hi (S (S m)) in
    let total_counts := bin_counts bin_edges valid in
    valid <> [] /\
    (lo < hi)%Q /\
    Forall (within lo hi) valid /\
    Z.of_nat (S m) = _determine_histogram_bin_count (Z.of_nat (List.length valid)) /\
    List.length event_counts = List.length total_counts /\
    _build_event_time_histogram (Some time_numeric) event_indicator =
      List.map (bin_record bin_edges total_counts event_counts)
        (seq 0 (List.length total_counts)).
Proof.
  unfold _build_event_time_histogram.
  destruct (List.filter (fun p => PyFloat.notna (snd p)) (labelled time_numeric))
    as [ | p l] eqn:E; [congruence | ].
  cbv beta iota zeta. rewrite <- E.
  set (V := List.filter (fun p => PyFloat.notna (snd p)) (labelled time_numeric)) in *.
  pose proof (valid_times_values time_numeric) as HV. fold V in HV.
  rewrite <- (length_map snd V), HV.
  assert (Hne : dropna time_numeric <> []).
  { rewrite <- HV, E. discriminate. }
  set (bins := _determine_histogram_bin_count (Z.of_nat (List.length (dropna time_numeric)))).
  pose proof (bin_count_bounds (Z.of_nat (List.length (dropna time_numeric)))) as Hb.
  fold bins in Hb.
  destruct (np_histogram (dropna time_numeric) bins) as [[total edges] | ] eqn:Hh;
    [ | congruence].
  match goal with
  | |- context [np_histogram_edges ?ev edges] => set (event_times := ev)
  end.
  destruct (np_histogram_edges event_times edges) as [evs | ] eqn:He; [ | congruence].
  intros _.
  unfold np_histogram in Hh.
  destruct (bins <? 1) eqn:B1; [apply Z.ltb_lt in B1; lia | ].
  destruct (dropna time_numeric) as [ | x valid] eqn:Ev; [congruence | ].
  rewrite <- Ev in *.
  destruct (series_min (dropna time_numeric)) as [f | | ] eqn:Hmin; try discriminate.
  destruct (series_max (dropna time_numeric)) as [t | | ] eqn:Hmax; try discriminate.
  destruct (finite_range_within _ f t Hne Hmin Hmax) as [HW Hft].
  destruct (Z.to_nat bins) as [ | m] eqn:Hm; [lia | ].
  unfold np_histogram_edges in He.
  destruct (monotonic edges) eqn:Hmono; [ | discriminate].
  injection He as <-.
  assert (Hlen : forall lo hi,
             List.length (bin_counts (linspace lo hi (S (S m))) event_times) =
             List.length (bin_counts (linspace lo hi (S (S m))) (dropna time_numeric))).
  { intros lo hi. rewrite !bin_counts_length. reflexivity. }
  destruct (Qeq_bool f t) eqn:Eft; injection Hh as <- <-.
  - apply Qeq_bool_iff in Eft.
    exists (f - (1 # 2))%Q, (t + (1 # 2))%Q, m, (bin_counts (linspace (f - (1 # 2)) (t + (1 # 2)) (S (S m))) event_times).
    cbv zeta. repeat split; try assumption; try lra; try lia; try apply Hlen.
    eapply List.Forall_impl; [ | exact HW].
    intros y (a & -> & Ha). exists a. split; [reflexivity | lra].
  - exists f, t, m, (bin_counts (linspace f t (S (S m))) event_times).
    cbv zeta. repeat split; try assumption; try lia; try apply Hlen.
    destruct (Qlt_le_dec f t) as [L | L]; [exact L | ].
    assert (Heq : (f == t)%Q) by lra.
    apply Qeq_bool_iff in Heq. congruence.
Qed.

Lemma sorted_map_seq {A : Type} (R : A -> A -> Prop) (g : nat -> A) (n s : nat) :
  (forall i j, (s <= i)%nat -> (i < j)%nat -> (j < s + n)%nat -> R (g i) (g j)) ->
  StronglySorted R (List.map g (seq s n)).
Proof.
  revert s. induction n as [ | n IH]; intros s H; [constructor | ].
  simpl. constructor.
  - apply IH. intros i j H1 H2 H3. apply H; lia.
  - apply List.Forall_map. apply List.Forall_forall. intros j Hj.
    apply in_seq in Hj. apply H; lia.
Qed.

Lemma total_counts_length (lo hi : Q) (m : nat) (a : list pyfloat) :
  List.length (bin_counts (linspace lo hi (S (S m))) a) = S m.
Proof. rewrite bin_counts_length, linspace_length. reflexivity. Qed.

Lemma total_counts_sum (lo hi : Q) (m : nat) (a : list pyfloat) :
  (lo < hi)%Q -> Forall (within lo hi) a ->
  sum_counts (bin_counts (linspace lo hi (S (S m))) a) = Z.of_nat (List.length a).
Proof.
  intros Hlt HW.
  pose proof (linspace_monotonic lo hi m Hlt) as Hmono.
  rewrite linspace_grid in *.
  set (step := grid_step lo hi (S m)) in *.
  change (List.map (grid lo step) (seq 0 (S m)) ++ [hi])
    with (grid lo step 0 :: (List.map (grid lo step) (seq 1 m) ++ [hi])) in *.
  rewrite bin_counts_sum; [ | destruct (List.map (grid lo step) (seq 1 m)); discriminate | exact Hmono].
  rewrite last_last. f_equal. apply within_all_counted.
  eapply List.Forall_impl; [ | exact HW].
  intros y (q & -> & Hq). exists q. split; [reflexivity | ].
  assert (E : (grid lo step 0 == lo)%Q) by (unfold grid; simpl; ring).
  rewrite E. exact Hq.
Qed.

(** C2. In every non-empty histogram each bin has
    [events + censored = count], the counts add up to the number of valid
    time values, and the bins are listed by strictly increasing
    [bin_start]. *)
Theorem histogram_conservation (time_numeric : list pyfloat) (event_indicator : list Z) :
  let histogram := _build_event_time_histogram (Some time_numeric) event_indicator in
  histogram <> [] ->
  Forall (fun b => events b + censored b = count b) histogram /\
  sum_counts (List.map count histogram) = Z.of_nat (List.length (dropna time_numeric)) /\
  StronglySorted (fun b1 b2 => (bin_start b1 < bin_start b2)%Q) histogram.
Proof.
  intros histogram Hne. subst histogram.
  destruct (histogram_inversion time_numeric event_indicator Hne)
    as (lo & hi & m & evs & _ & Hlt & HW & _ & Hlen & ->).
  set (edges := linspace lo hi (S (S m))) in *.
  set (total := bin_counts edges (dropna time_numeric)) in *.
  split; [ | split].
  - apply List.Forall_map. apply List.Forall_forall. intros idx _.
    unfold bin_record. simpl.
    rewrite nth_difference by (symmetry; exact Hlen). lia.
  - replace (List.map count
               (List.map (bin_record edges total evs) (seq 0 (List.length total))))
      with total.
    + apply total_counts_sum; assumption.
    + symmetry. rewrite List.map_map. exact (map_nth_seq_from 0 total []).
  - apply sorted_map_seq. intros i j _ Hij Hj.
    unfold total, edges in Hj. rewrite total_counts_length in Hj.
    unfold bin_record. cbn [bin_start]. unfold edges.
    rewrite !linspace_nth by lia.
    apply grid_increasing; [apply grid_step_pos; exact Hlt | exact Hij].
Qed.

Lemma histogram_conservation_witness :
  let histogram :=
    _build_event_time_histogram (Some [Fin 10; NaN; Fin 15; Fin 20]) [0; 1; 1; 0] in
  Forall (fun b => events b + censored b = count b) histogram /\
  sum_counts (List.map count histogram) = 3 /\
  StronglySorted (fun b1 b2 => (bin_start b1 < bin_start b2)%Q) histogram.
Proof.
  apply (histogram_conservation [Fin 10; NaN; Fin 15; Fin 20] [0; 1; 1; 0]).
  vm_compute. discriminate.
Defined.

(** The bin count in the specification's words: the square root of the
    number of valid times rounded to the nearest integer, clamped to
    [MIN_HISTOGRAM_BINS .. MAX_HISTOGRAM_BINS]. *)
Definition round_sqrt (n : Z) : Z := (Z.sqrt (4 * n) + 1) / 2.

Definition bin_count_as_stated (n : Z) : Z :=
  Z.min MAX_HISTOGRAM_BINS (Z.max MIN_HISTOGRAM_BINS (round_sqrt n)).

(** [round_sqrt n] is the integer nearest to the square root of [n]:
    [r - 1/2 <= sqrt n < r + 1/2], with the inequalities squared. *)
Lemma round_sqrt_nearest (n : Z) :
  0 < n ->
  (2 * round_sqrt n - 1) * (2 * round_sqrt n - 1) <= 4 * n
    < (2 * round_sqrt n + 1) * (2 * round_sqrt n + 1).
Proof.
  intros Hn. unfold round_sqrt.
  pose proof (Z.sqrt_spec (4 * n) ltac:(lia)) as Hs.
  pose proof (Z.sqrt_nonneg (4 * n)) as Hs0.
  cbv zeta in Hs. unfold Z.succ in Hs.
  set (s := Z.sqrt (4 * n)) in *.
  assert (Hs1 : 1 <= s).
  { destruct (Z.eq_dec s 0) as [E | E]; [rewrite E in Hs; lia | lia]. }
  pose proof (Z.div_mod (s + 1) 2 ltac:(lia)) as Hd.
  pose proof (Z.mod_pos_bound (s + 1) 2 ltac:(lia)) as Hm.
  set (r := (s + 1) / 2) in *.
  assert (Hr : 1 <= r) by lia.
  assert (Hcase : s = 2 * r - 1 \/ s = 2 * r) by lia.
  clearbody r s. clear Hd Hm.
  destruct Hcase as [E | E]; subst s; nia.
Qed.

(** C3, amended. For [n > 0] valid time values the builder asks for
    [clamp(k, 5, 20)] bins, where [k] is the square root of [n] truncated
    to an integer ([k*k <= n < (k+1)*(k+1)]), and a histogram that is
    produced has exactly that many bins. *)
Theorem bin_count_is_truncated_sqrt (time_numeric : list pyfloat) (event_indicator : list Z) :
  let n := Z.of_nat (List.length (dropna time_numeric)) in
  let histogram := _build_event_time_histogram (Some time_numeric) event_indicator in
  0 < n ->
  exists k,
    k * k <= n < (k + 1) * (k + 1) /\
    _determine_histogram_bin_count n = Z.min 20 (Z.max 5 k) /\
    (histogram <> [] -> Z.of_nat (List.length histogram) = Z.min 20 (Z.max 5 k)).
Proof.
  intros n histogram Hn. exists (Z.sqrt n).
  assert (Hcount : _determine_histogram_bin_count n = Z.min 20 (Z.max 5 (Z.sqrt n))).
  { unfold _determine_histogram_bin_count, MIN_HISTOGRAM_BINS, MAX_HISTOGRAM_BINS.
    destruct (n <=? 0) eqn:E; [apply Z.leb_le in E; lia | reflexivity]. }
  split; [ | split].
  - pose proof (Z.sqrt_spec n ltac:(lia)) as Hs. simpl in Hs. lia.
  - exact Hcount.
  - intros Hne. subst histogram.
    destruct (histogram_inversion time_numeric event_indicator Hne)
      as (lo & hi & m & evs & _ & _ & _ & Hbins & _ & ->).
    rewrite length_map, length_seq, total_counts_length.
    fold n in Hbins. rewrite Hbins. exact Hcount.
Qed.

(** The valid times 1, 2, ..., 31. *)
Definition thirty_one_times : list pyfloat :=
  List.map (fun i => PyFloat.of_Z (Z.of_nat i)) (seq 1 31).

Lemma bin_count_is_truncated_sqrt_witness :
  exists k,
    k * k <= 31 < (k + 1) * (k + 1) /\
    _determine_histogram_bin_count 31 = Z.min 20 (Z.max 5 k) /\
    (_build_event_time_histogram (Some thirty_one_times) (repeat 1 31%nat) <> [] ->
     Z.of_nat (List.length
                 (_build_event_time_histogram (Some thirty_one_times) (repeat 1 31%nat)))
       = Z.min 20 (Z.max 5 k)).
Proof.
  apply (bin_count_is_truncated_sqrt thirty_one_times (repeat 1 31%nat)).
  vm_compute. reflexivity.
Defined.

(** C3 as worded fails for 31 valid times: the square root 5.57 rounds to 6,
    and the histogram has 5 bins. *)
Lemma bin_count_rounding_fails :
  let n := Z.of_nat (List.length (dropna thirty_one_times)) in
  let histogram := _build_event_time_histogram (Some thirty_one_times) (repeat 1 31%nat) in
  0 < n /\
  bin_count_as_stated n = 6 /\
  Z.of_nat (List.length histogram) = 5 /\
  _determine_histogram_bin_count n <> bin_count_as_stated n.
Proof.
  vm_compute. repeat split; congruence.
Qed.

(** ** Column roles (C9) *)

Lemma str_in_true (name : string) (names : list string) :
  str_in name names = true <-> In name names.
Proof.
  unfold str_in. rewrite existsb_exists. split.
  - intros (x & Hx & E). apply String.eqb_eq in E. subst. exact Hx.
  - intros H. exists name. split; [exact H | apply String.eqb_refl].
Qed.

Lemma find_column_respects_exclusions (columns candidates exclude : list string) (c : string) :
  _find_column columns candidates exclude = Some c ->
  str_in c exclude = false /\ In c candidates /\ In c columns.
Proof.
  induction candidates as [ | name rest IH]; [discriminate | ]. simpl.
  destruct (str_in name exclude) eqn:Ex.
  - intros H. destruct (IH H) as (H1 & H2 & H3). auto.
  - destruct (str_in name columns) eqn:Ec.
    + intros [= <-]. split; [exact Ex | ]. split; [left; reflexivity | ].
      apply str_in_true. exact Ec.
    + intros H. destruct (IH H) as (H1 & H2 & H3). auto.
Qed.

(** When the time column is found by its name, the event/censoring column
    is a different column, by the exclusion in the name matching and by
    the filter of the positional fallback. *)
Lemma named_time_column_is_excluded (df : DataFrame) (t c : string) :
  _find_column (df_columns df) TIME_CANDIDATES [] = Some t ->
  resolve_columns df = (Some t, Some c) ->
  c <> t.
Proof.
  intros Ht. unfold resolve_columns. rewrite Ht.
  assert (Hnonempty : truthy (Some t) = true).
  { apply find_column_respects_exclusions in Ht. destruct Ht as (_ & Hin & _).
    simpl in Hin. intuition (subst; reflexivity). }
  rewrite Hnonempty.
  destruct (_find_column (df_columns df) CENSOR_CANDIDATES [t]) as [c' | ] eqn:Hc.
  - intros [= <-]. apply find_column_respects_exclusions in Hc.
    destruct Hc as (Hex & _ & _). intros ->.
    simpl in Hex. rewrite String.eqb_refl in Hex. discriminate.
  - destruct (1 <? num_cols df)%nat; [ | discriminate].
    destruct (List.filter (fun col => negb (String.eqb col t)) (tl (df_columns df)))
      as [ | c' l] eqn:Hf; [discriminate | ].
    intros [= <-].
    assert (Hin : In c' (List.filter (fun col => negb (String.eqb col t)) (tl (df_columns df))))
      by (rewrite Hf; left; reflexivity).
    apply filter_In in Hin. destruct Hin as [_ Hneq].
    intros ->. rewrite String.eqb_refl in Hneq. discriminate.
Qed.

(** A table whose first column is named like an event column and that has
    no column named like a time column. *)
Definition status_first_table : DataFrame :=
  mkDataFrame ["status"; "age"]%string [[num 1; num 50]; [num 0; num 61]].

(** C9. On the table with the columns [status, age] the name matching
    takes [status] as the event column while no time column is known yet,
    and the positional fallback then takes the first column, [status]
    again, as the time column: both roles resolve to the same column. *)
Lemma time_fallback_takes_event_column :
  resolve_columns status_first_table = (Some "status"%string, Some "status"%string).
Proof. reflexivity. Qed.

(** ** The cache and the empty record (C7, C8) *)



(** C7. When the row of a dataset exists with the current schema version
    and recomputation is not forced, [ensure_dataset_statistics] returns
    that row and leaves the table as it is, whatever the file storage
    holds, hence also when the file is gone. The call is one that does not
    ask for the dataframe ([include_dataframe] is false, its default), or
    one whose loader returns. *)
Theorem cached_row_is_returned
    (lib : Libraries) (storage : Storage) (db : Database) (dataset : Dataset)
    (row : DatasetStatistics) (frame : option DataFrame) (include_dataframe : bool) :
  db_reachable db = true ->
  db_rows db !! dataset_id dataset = Some row ->
  schema_version row = DATASET_STATS_SCHEMA_VERSION ->
  include_dataframe = false \/
    (exists loaded, _read_dataset_into_dataframe lib storage dataset = Ok loaded) ->
  exists result,
    ensure_dataset_statistics lib storage db dataset false frame include_dataframe
      = Ok (result, db) /\
    stats result = row.
Proof.
  intros Hup Hrow Hver Hload. unfold ensure_dataset_statistics, get_statistics.
  rewrite Hup. cbn [mbind outcome_bind]. rewrite Hrow, Hver.
  cbn [negb andb]. rewrite String.eqb_refl.
  destruct frame as [d | ]; [eexists; split; reflexivity | ].
  destruct Hload as [-> | (loaded & ->)]; [eexists; split; reflexivity | ].
  destruct include_dataframe; eexists; split; reflexivity.
Qed.



(** A dataset whose file has been deleted from the storage. *)
Definition orphan_dataset : Dataset :=
  {| dataset_id := 7; file_path := Some "datasets/2025/01/a.csv"%string;
     time_unit := "day" |}.

Definition stored_row : DatasetStatistics :=
  {| st_general_stats :=
       {| num_samples := 3; num_features := 1; num_numeric_features := 1;
          num_censored := Some 2; num_events := Some 1;
          time_min := Some (Fin 10); time_max := Some (Fin 20);
          time_mean := Some (Fin 15); time_median := Some (Fin 15);
          gs_time_unit := "day"; total_columns := 3 |};
     st_feature_correlations := [];
     st_event_time_histogram := [];
     schema_version := "v2" |}.

Definition one_row_db : Database :=
  {| db_reachable := true; db_rows := {[ 7 := stored_row ]} |}.

(** A storage that, as Django's does, refuses a name that climbs out of
    its root, and a dataset with such a file reference. *)
Definition strict_lib : Libraries :=
  {| str_to_numeric := fun _ => NaN;
     series_mean := exact_mean;
     series_median := exact_median;
     series_std := fun _ => Fin 0;
     pearson := fun _ _ => NaN;
     lifelines_available := false;
     cox_fit := fun _ _ _ => None;
     np_log := fun _ => NaN;
     default_storage_path :=
       fun path => if String.prefix "../" path then None
                   else Some ("/media/" ++ path)%string;
     read_csv := fun _ _ => None |}.

Definition stray_dataset : Dataset :=
  {| dataset_id := 7; file_path := Some "../outside.csv"%string;
     time_unit := "day" |}.

Lemma cached_row_is_returned_witness :
  exists result,
    ensure_dataset_statistics strict_lib ∅ one_row_db orphan_dataset false None false
      = Ok (result, one_row_db) /\
    stats result = stored_row.
Proof.
  apply (cached_row_is_returned strict_lib ∅ one_row_db orphan_dataset stored_row
           None false).
  - reflexivity.
  - apply lookup_singleton_eq.
  - reflexivity.
  - left. reflexivity.
Defined.



(** ** The stable sort *)

Section SortFacts.
Context {A : Type} (lt : A -> A -> bool) (good : A -> Prop).


Hypothesis lt_asym : forall a b, lt a b = true -> lt b a = false.
Hypothesis lt_chain :
  forall a b c, good a -> good b -> good c ->
    lt b a = false -> lt c b = false -> lt c a = false.

Lemma sort_insert_perm (x : A) (l : list A) : Permutation (sort_insert lt x l) (x :: l).
Proof.
  induction l as [ | y l IH]; simpl; [apply Permutation_refl | ].
  destruct (lt y x).
  - eapply perm_trans; [apply perm_skip; exact IH | apply perm_swap].
  - apply Permutation_refl.
Qed.

Lemma py_sort_perm (l : list A) : Permutation (py_sort lt l) l.
Proof.
  induction l as [ | x l IH]; simpl; [apply perm_nil | ].
  eapply perm_trans; [apply sort_insert_perm | apply perm_skip; exact IH].
Qed.





End SortFacts.


(** ** The order of the feature records (C6) *)















Section FeatureOrder.
Context (lib : Libraries).

(** The record of a feature, given the p-value of the Cox block. *)
Definition feature_record (df : DataFrame) (event_indicator : list Z)
    (time_numeric : option (list pyfloat)) (name : string)
    (cox : option pyfloat) : FeatureRow :=
  let series := match df_get df name with Some s => s | None => [] end in
  let total_rows := num_rows df in
  let is_numeric := is_numeric_dtype series in
  let non_null_count := List.length (List.filter cell_notna series) in
  let non_null_percent :=
    match total_rows with
    | O => None
    | _ => Some (Fin (inject_Z (Z.of_nat non_null_count)
                      / inject_Z (Z.of_nat total_rows) * 100)%Q)
    end in
  let values := List.map cell_float series in
  let mean_value :=
    if is_numeric && (0 <? non_null_count)%nat
    then Some (series_mean lib (dropna values)) else None in
  let std_value :=
    if is_numeric && (1 <? non_null_count)%nat
    then Some (series_std lib (dropna values)) else None in
  let correlation :=
    match time_numeric with
    | Some times =>
        if is_numeric then
          let weighted_time :=
            List.map (fun p => PyFloat.mul (fst p) (PyFloat.of_Z (snd p)))
              (combine times event_indicator) in
          let corr_df :=
            List.filter (fun p => PyFloat.notna (fst p) && PyFloat.notna (snd p))
              (combine weighted_time values) in
          if (2 <=? List.length corr_df)%nat
             && (1 <? nunique (List.map snd corr_df))%nat
             && (1 <? nunique (List.map fst corr_df))%nat
          then
            let corr := pearson lib (List.map fst corr_df) (List.map snd corr_df) in
            if PyFloat.notna corr then Some corr else None
          else None
        else None
    | None => None
    end in
  {| feature := name;
     feature_type := if is_numeric then "numeric" else "categorical";
     non_null_percent := non_null_percent;
     correlation_with_time := correlation;
     abs_correlation := option_map PyFloat.abs correlation;
     mean := mean_value;
     std_dev := std_value;
     cox_score := cox;
     cox_score_log :=
       match cox with
       | Some p => if PyFloat.ltb (Fin 0) p then Some (np_log lib p) else None
       | None => None
       end |}.

(** The loop body returns the record of the feature, unless the Cox block
    raises; the block is entered for a numeric feature when lifelines is
    installed. *)
Lemma feature_row_cases (df : DataFrame) (t : string) (event_indicator : list Z)
    (time_numeric : option (list pyfloat)) (name : string) :
  feature_row lib df t event_indicator time_numeric name =
    match
      (if lifelines_available lib
          && is_numeric_dtype (match df_get df name with Some s => s | None => [] end)
       then cox_block lib df t event_indicator name
              (List.map cell_float
                 (match df_get df name with Some s => s | None => [] end))
       else Ok None)
    with
    | Ok cox => Ok (feature_record df event_indicator time_numeric name cox)
    | Raise e => Raise e
    end.
Proof. reflexivity. Qed.

Lemma feature_row_inv (df : DataFrame) (t : string) (event_indicator : list Z)
    (time_numeric : option (list pyfloat)) (name : string) (r : FeatureRow) :
  feature_row lib df t event_indicator time_numeric name = Ok r ->
  exists cox, r = feature_record df event_indicator time_numeric name cox.
Proof.
  rewrite feature_row_cases.
  match goal with
  | |- match ?c with Ok _ => _ | Raise _ => _ end = _ -> _ =>
      destruct c as [cox | e]; [ | discriminate]
  end.
  intros [= <-]. exists cox. reflexivity.
Qed.

(** The loop returns one record per feature column, in their order. *)
Lemma feature_rows_inv (df : DataFrame) (t : string) (event_indicator : list Z)
    (time_numeric : option (list pyfloat)) (names : list string)
    (results : list FeatureRow) :
  feature_rows lib df t event_indicator time_numeric names = Ok results ->
  Forall2 (fun name r => feature_row lib df t event_indicator time_numeric name = Ok r)
    names results.
Proof.
  revert results. induction names as [ | name names IH]; intros results.
  - intros [= <-]. constructor.
  - cbn [feature_rows].
    destruct (feature_row lib df t event_indicator time_numeric name) as [r | e] eqn:R;
      [ | discriminate].
    cbn [mbind outcome_bind].
    destruct (feature_rows lib df t event_indicator time_numeric names) as [rs | e];
      [ | discriminate].
    intros [= <-]. constructor; [exact R | apply IH; reflexivity].
Qed.

Lemma feature_rows_names (df : DataFrame) (t : string) (event_indicator : list Z)
    (time_numeric : option (list pyfloat)) (names : list string)
    (results : list FeatureRow) :
  feature_rows lib df t event_indicator time_numeric names = Ok results ->
  List.map feature results = names.
Proof.
  intros H. apply feature_rows_inv in H.
  induction H as [ | name r names results Hr _ IH]; [reflexivity | ].
  cbn [List.map]. rewrite IH. apply feature_row_inv in Hr.
  destruct Hr as (cox & ->). reflexivity.
Qed.


(** What a call of [_compute_feature_statistics] that returns has done:
    nothing, or the loop and the sort. *)
Lemma compute_feature_statistics_inv (df : DataFrame) (feature_columns : list string)
    (time_col : option string) (event_indicator : list Z)
    (time_numeric : option (list pyfloat)) (output : list FeatureRow) :
  _compute_feature_statistics lib df feature_columns time_col
    event_indicator time_numeric = Ok output ->
  (output = [] /\
   (feature_columns = [] \/ time_col = None \/
    exists t, time_col = Some t /\ str_in t (df_columns df) = false)) \/
  exists t results,
    time_col = Some t /\ str_in t (df_columns df) = true /\
    feature_rows lib df t event_indicator time_numeric feature_columns = Ok results /\
    output = py_sort row_lt results.
Proof.
  unfold _compute_feature_statistics.
  destruct feature_columns as [ | f fs].
  - intros [= <-]. left. split; [reflexivity | left; reflexivity].
  - destruct time_col as [t | ].
    + destruct (str_in t (df_columns df)) eqn:Hin; cbn [negb].
      * destruct (feature_rows lib df t event_indicator time_numeric (f :: fs))
          as [results | e] eqn:R; [ | discriminate].
        intros [= <-]. right. exists t, results.
        split; [reflexivity | ]. split; [exact Hin | ].
        split; [exact R | reflexivity].
      * intros [= <-]. left. split; [reflexivity | ].
        right. right. exists t. split; [reflexivity | exact Hin].
    + intros [= <-]. left. split; [reflexivity | right; left; reflexivity].
Qed.



End FeatureOrder.

(** The sort on six records: two without a correlation, listed first and
    third, two with the correlation 0.2, listed second and fifth, and two
    with the correlations 0.9 and 0.1. *)
Definition bare_row (name : string) (abs_corr : option pyfloat) : FeatureRow :=
  {| feature := name; feature_type := "numeric"; non_null_percent := None;
     correlation_with_time := abs_corr; abs_correlation := abs_corr;
     mean := None; std_dev := None; cox_score := None; cox_score_log := None |}.

Example sort_of_six_records :
  List.map feature
    (py_sort row_lt
       [bare_row "a" None; bare_row "b" (Some (Fin (2 # 10)));
        bare_row "c" None; bare_row "d" (Some (Fin (9 # 10)));
        bare_row "e" (Some (Fin (1 # 5))); bare_row "f" (Some (Fin (1 # 10)))])
  = ["d"; "b"; "e"; "f"; "a"; "c"]%string.
Proof. reflexivity. Qed.


(** * Further properties of the engine *)

(** ** Column lookup and role resolution *)

(** A candidate the lookup has to pass over: excluded, or not a column. *)
Definition passed_over (columns exclude : list string) (name : string) : Prop :=
  str_in name exclude = true \/ ~ In name columns.

(** [_find_column] goes by the order of the candidates, not by the order of
    the columns: it returns the first candidate that is a column and is not
    excluded, and [None] exactly when every candidate is passed over. *)
Theorem find_column_first_match (columns candidates exclude : list string) :
  match _find_column columns candidates exclude with
  | Some c =>
      exists before after,
        candidates = before ++ c :: after /\
        Forall (passed_over columns exclude) before /\
        str_in c exclude = false /\ In c columns
  | None => Forall (passed_over columns exclude) candidates
  end.
Proof.
  induction candidates as [ | name rest IH]; simpl; [constructor | ].
  destruct (str_in name exclude) eqn:Ex.
  - destruct (_find_column columns rest exclude) as [c | ].
    + destruct IH as (before & after & -> & Hb & Hc1 & Hc2).
      exists (name :: before), after. repeat split; try assumption.
      constructor; [left; exact Ex | exact Hb].
    + constructor; [left; exact Ex | exact IH].
  - destruct (str_in name columns) eqn:Ec.
    + exists [], rest. split; [reflexivity | ]. split; [constructor | ].
      split; [exact Ex | apply str_in_true; exact Ec].
    + assert (Hname : passed_over columns exclude name).
      { right. intros Hin. apply str_in_true in Hin. congruence. }
      destruct (_find_column columns rest exclude) as [c | ].
      * destruct IH as (before & after & -> & Hb & Hc1 & Hc2).
        exists (name :: before), after. repeat split; try assumption.
        constructor; assumption.
      * constructor; assumption.
Qed.

Definition is_column (df : DataFrame) (role : option string) : Prop :=
  match role with
  | Some c => In c (df_columns df)
  | None => True
  end.

(** Both resolved roles are columns of the table, and a table that is not
    empty always gets a time column. *)
Theorem resolved_roles_are_columns (df : DataFrame) :
  is_column df (fst (resolve_columns df)) /\
  is_column df (snd (resolve_columns df)) /\
  (df_empty df = false -> fst (resolve_columns df) <> None).
Proof.
  unfold resolve_columns. cbn [fst snd].
  set (named_time := _find_column (df_columns df) TIME_CANDIDATES []).
  set (excl := match named_time with
               | Some t => if truthy named_time then [t] else []
               | None => []
               end).
  assert (Htime : is_column df
                    match named_time with
                    | Some _ => named_time
                    | None => if negb (df_empty df) then nth_error (df_columns df) 0 else None
                    end).
  { destruct named_time as [t | ] eqn:Ht.
    - apply find_column_respects_exclusions in Ht. simpl. tauto.
    - destruct (negb (df_empty df)); [ | exact I].
      unfold is_column.
      destruct (df_columns df) as [ | c cs]; simpl; [exact I | left; reflexivity]. }
  split; [exact Htime | ]. split.
  - destruct (_find_column (df_columns df) CENSOR_CANDIDATES excl) as [c | ] eqn:Hc.
    + apply find_column_respects_exclusions in Hc. simpl. tauto.
    + destruct (1 <? num_cols df)%nat; [ | exact I].
      match goal with
      | |- context [List.filter ?p ?l] => destruct (List.filter p l) as [ | c l'] eqn:Hf
      end; [exact I | ].
      simpl.
      assert (Hin : In c (c :: l')) by (left; reflexivity).
      rewrite <- Hf in Hin. apply filter_In in Hin. destruct Hin as [Hin _].
      destruct (df_columns df) as [ | c0 cs]; [destruct Hin | right; exact Hin].
  - intros Hne. destruct named_time as [t | ]; [discriminate | ].
    rewrite Hne. simpl. unfold df_empty in Hne.
    apply orb_false_iff in Hne. destruct Hne as [_ Hcols].
    unfold num_cols in Hcols.
    destruct (df_columns df); [discriminate | discriminate].
Qed.

Lemma named_time_column_is_excluded_witness :
  ("censored" <> "time")%string.
Proof.
  apply (named_time_column_is_excluded upload_table "time" "censored"); reflexivity.
Defined.

(** ** When the computation returns *)

Section CoxBlockFacts.
Context (lib : Libraries).


Lemma cox_block_value_error (df : DataFrame) (t : string) (event_indicator : list Z)
    (name : string) (values : list pyfloat) (e : exn) :
  cox_block lib df t event_indicator name values = Raise e -> e = ValueError.
Proof.
  unfold cox_block.
  repeat match goal with
         | |- context [if ?c then _ else _] => destruct c
         end; intros [= <-] || discriminate; reflexivity.
Qed.


Lemma feature_row_value_error (df : DataFrame) (t : string) (event_indicator : list Z)
    (time_numeric : option (list pyfloat)) (name : string) (e : exn) :
  feature_row lib df t event_indicator time_numeric name = Raise e -> e = ValueError.
Proof.
  rewrite feature_row_cases.
  destruct (lifelines_available lib && _); [ | discriminate].
  destruct (cox_block _ _ _ _ _ _) as [cox | e'] eqn:C; [discriminate | ].
  intros [= <-]. eapply cox_block_value_error. exact C.
Qed.

Lemma feature_rows_value_error (df : DataFrame) (t : string) (event_indicator : list Z)
    (time_numeric : option (list pyfloat)) (names : list string) (e : exn) :
  feature_rows lib df t event_indicator time_numeric names = Raise e -> e = ValueError.
Proof.
  induction names as [ | name names IH]; [discriminate | ].
  cbn [feature_rows].
  destruct (feature_row lib df t event_indicator time_numeric name) as [r | e'] eqn:R.
  - cbn [mbind outcome_bind].
    destruct (feature_rows lib df t event_indicator time_numeric names) as [rs | e''];
      [discriminate | ].
    intros [= <-]. apply IH. reflexivity.
  - intros [= <-]. eapply feature_row_value_error. exact R.
Qed.

(** The loop raises as soon as the body raises for one of the features. *)
Lemma feature_rows_raise (df : DataFrame) (t : string) (event_indicator : list Z)
    (time_numeric : option (list pyfloat)) (names : list string) (name : string)
    (e : exn) :
  In name names ->
  feature_row lib df t event_indicator time_numeric name = Raise e ->
  feature_rows lib df t event_indicator time_numeric names = Raise ValueError.
Proof.
  intros Hin Hraise.
  destruct (feature_rows lib df t event_indicator time_numeric names)
    as [results | e'] eqn:R.
  - apply feature_rows_inv in R. exfalso.
    induction R as [ | n r ns rs Hr _ IH]; [destruct Hin | ].
    destruct Hin as [-> | Hin]; [congruence | exact (IH Hin)].
  - apply feature_rows_value_error in R. rewrite R. reflexivity.
Qed.


Lemma compute_statistics_value_error (df : DataFrame) (unit : string) (e : exn) :
  _compute_statistics_from_dataframe lib df unit = Raise e -> e = ValueError.
Proof.
  rewrite compute_statistics_cases.
  destruct (_compute_feature_statistics _ _ _ _ _ _) as [rows | e'] eqn:F;
    [discriminate | ].
  intros [= <-]. unfold _compute_feature_statistics in F.
  destruct (feature_columns_of df) as [ | f fs]; [discriminate | ].
  destruct (fst (resolve_columns df)) as [t | ]; [ | discriminate].
  destruct (negb (str_in t (df_columns df))); [discriminate | ].
  destruct (feature_rows _ _ _ _ _ _) as [results | e''] eqn:R; [discriminate | ].
  injection F as <-. eapply feature_rows_value_error. exact R.
Qed.


(** With lifelines installed, the computation on a table of distinct
    column labels raises [ValueError] when the frame of the Cox block of
    some numeric feature is ill formed: the
    time column or the feature is called "event", or the feature is the
    time column (a time column found by name after the second column) and
    some row with a time value counts as an event. The exception is
    raised in the lines that precede the [try] of the block. *)
Theorem ill_formed_cox_frame_raises
    (df : DataFrame) (unit t f : string) (series : Series) :
  List.NoDup (df_columns df) ->
  lifelines_available lib = true ->
  fst (resolve_columns df) = Some t ->
  str_in t (df_columns df) = true ->
  In f (feature_columns_of df) ->
  df_get df f = Some series ->
  is_numeric_dtype series = true ->
  t = "event"%string \/ f = "event"%string \/
    (f = t /\
     0 < sum_Z (List.map (fun r => snd (fst r))
                  (cox_frame series (engine_indicator lib df)
                     (List.map cell_float series)))) ->
  _compute_statistics_from_dataframe lib df unit = Raise ValueError.
Proof.
  intros _ Hlife Ht Hcol Hf Hs Hnum Hbad.
  assert (Hrow : feature_row lib df t (engine_indicator lib df)
                   (time_numeric_of lib df (Some t)) f = Raise ValueError).
  { rewrite feature_row_cases, Hlife, Hs, Hnum. cbn [andb].
    unfold cox_block.
    destruct (String.eqb t "event" || String.eqb f "event") eqn:E; [reflexivity | ].
    apply orb_false_iff in E. destruct E as [E1 E2].
    apply String.eqb_neq in E1, E2.
    destruct Hbad as [-> | [-> | (-> & Hsum)]]; [congruence | congruence | ].
    rewrite Hs. rewrite String.eqb_refl.
    replace (0 <? _) with true by (symmetry; apply Z.ltb_lt; exact Hsum).
    destruct (cox_frame series (engine_indicator lib df) (List.map cell_float series));
      [simpl in Hsum; lia | reflexivity]. }
  rewrite compute_statistics_cases. unfold _compute_feature_statistics.
  rewrite Ht, Hcol. cbn [negb].
  destruct (feature_columns_of df) as [ | f0 fs] eqn:Ef; [destruct Hf | ].
  rewrite (feature_rows_raise df t (engine_indicator lib df)
             (time_numeric_of lib df (Some t)) (f0 :: fs) f ValueError Hf Hrow).
  reflexivity.
Qed.

End CoxBlockFacts.

(** A table whose time column is found by name after the features, and a
    table with a feature called "event". *)
Definition late_time_table : DataFrame :=
  mkDataFrame ["a"; "b"; "time"]%string
    [[num 1; num 1; num 4]; [num 2; num 0; num 6]; [num 3; num 1; num 9]].

Definition event_feature_table : DataFrame :=
  mkDataFrame ["time"; "age"; "event"]%string
    [[num 4; num 50; num 1]; [num 6; num 61; num 0]; [num 9; num 47; num 1]].


Lemma ill_formed_cox_frame_raises_witness :
  _compute_statistics_from_dataframe lifelines_lib late_time_table "day"
    = Raise ValueError /\
  _compute_statistics_from_dataframe lifelines_lib event_feature_table "day"
    = Raise ValueError.
Proof.
  split.
  - apply (ill_formed_cox_frame_raises lifelines_lib late_time_table "day" "time" "time"
             [num 4; num 6; num 9]).
    + repeat constructor; simpl; intuition discriminate.
    + reflexivity.
    + reflexivity.
    + reflexivity.
    + left. reflexivity.
    + reflexivity.
    + reflexivity.
    + right. right. split; [reflexivity | vm_compute; reflexivity].
  - apply (ill_formed_cox_frame_raises lifelines_lib event_feature_table "day" "time"
             "event" [num 1; num 0; num 1]).
    + repeat constructor; simpl; intuition discriminate.
    + reflexivity.
    + reflexivity.
    + reflexivity.
    + left. reflexivity.
    + reflexivity.
    + reflexivity.
    + right. left. reflexivity.
Defined.

(** ** General statistics *)

Section GeneralStatsFacts.
Context (lib : Libraries).

(** The counts of the general statistics of an analysis the computation
    returns: there are as many features as columns after the first two,
    the numeric features are among them, and the sample and column counts
    are the dimensions of the table. *)
Theorem general_stats_counts (df : DataFrame) (unit : string) (a : Analysis) :
  _compute_statistics_from_dataframe lib df unit = Ok a ->
  num_samples (general_stats a) = Z.of_nat (num_rows df) /\
  total_columns (general_stats a) = Z.of_nat (num_cols df) /\
  num_features (general_stats a) = Z.max 0 (total_columns (general_stats a) - 2) /\
  0 <= num_numeric_features (general_stats a) <= num_features (general_stats a) /\
  gs_time_unit (general_stats a) = unit.
Proof.
  intros Ha. apply compute_statistics_inv in Ha. destruct Ha as (_ & -> & _).
  unfold general_stats_of.
  cbn [num_samples total_columns num_features num_numeric_features gs_time_unit].
  assert (Hfeat : Z.of_nat (List.length (feature_columns_of df))
                  = Z.max 0 (Z.of_nat (num_cols df) - 2)).
  { unfold feature_columns_of, num_cols.
    destruct (2 <=? List.length (df_columns df))%nat eqn:E.
    - apply Nat.leb_le in E. rewrite length_skipn. lia.
    - apply Nat.leb_gt in E. simpl. lia. }
  set (numeric := List.filter _ (feature_columns_of df)).
  assert (Hnum : (List.length numeric <= List.length (feature_columns_of df))%nat)
    by apply filter_length_le.
  split; [reflexivity | ]. split; [reflexivity | ]. split; [exact Hfeat | ].
  split; [ | reflexivity].
  destruct ((num_rows df =? 0)%nat || (List.length numeric =? 0)%nat); lia.
Qed.

Lemma count_plain_ones (numeric : list pyfloat) :
  Forall nan_or_bit numeric ->
  count_eq 1 (List.map bit numeric) =
    Z.of_nat (List.length (List.filter (fun x => PyFloat.eqb x (Fin 1)) numeric)).
Proof.
  unfold count_eq. intros H. f_equal.
  induction H as [ | x s Hx _ IH]; [reflexivity | ].
  cbn [List.map List.filter].
  replace (1 =? bit x) with (PyFloat.eqb x (Fin 1)).
  - destruct (PyFloat.eqb x (Fin 1)); cbn [List.length]; rewrite IH; reflexivity.
  - destruct Hx as [-> | (a & -> & [Ha | Ha])]; [reflexivity | | ]; simpl.
    + rewrite (Qtrunc_0 a Ha). apply not_true_is_false. intros E.
      apply Qeq_bool_iff in E. lra.
    + rewrite (Qtrunc_1 a Ha). apply Qeq_bool_iff. exact Ha.
Qed.

(** An event column whose name does not mention "censor" is taken as it
    is: with 0/1 values and at least one of them, the event count of the
    indicator stage is the number of rows in which the column holds 1,
    and that number is the [num_events] of every analysis the computation
    returns. *)
Theorem event_column_passthrough
    (df : DataFrame) (unit c : string) (series : Series) :
  snd (resolve_columns df) = Some c ->
  df_get df c = Some series ->
  c <> ""%string ->
  str_contains "censor" (lower c) = false ->
  forallb is_zero_or_one (dropna (to_numeric lib series)) = true ->
  dropna (to_numeric lib series) <> [] ->
  let ones :=
    Z.of_nat (List.length
                (List.filter (fun x => PyFloat.eqb x (Fin 1))
                   (to_numeric lib series))) in
  _derive_event_indicator lib series c = Some (to_numeric lib series) /\
  (exists k event_indicator,
      event_indicator_stage lib df (Some c) = Ok (Some (ones, k), event_indicator)) /\
  forall a,
    _compute_statistics_from_dataframe lib df unit = Ok a ->
    num_events (general_stats a) = Some ones.
Proof.
  intros Hc Hs Hne Hname Hall Hval ones.
  assert (Hd : _derive_event_indicator lib series c = Some (to_numeric lib series)).
  { rewrite derive_event_indicator_eq, Hall, Hname.
    destruct (dropna (to_numeric lib series)); [congruence | reflexivity]. }
  assert (Hdi : derived_indicator lib df (Some c) = Some (to_numeric lib series)).
  { unfold derived_indicator.
    replace (truthy (Some c)) with true
      by (symmetry; simpl; apply negb_true_iff; apply String.eqb_neq; exact Hne).
    rewrite Hs, Hd. reflexivity. }
  assert (Hcount : count_eq 1 (List.map bit (to_numeric lib series)) = ones).
  { apply count_plain_ones. apply dropna_bits. exact Hall. }
  split; [exact Hd | ]. split.
  - rewrite event_indicator_stage_eq, Hdi, Hcount. eexists. eexists. reflexivity.
  - intros a Ha. apply compute_statistics_inv in Ha. destruct Ha as (_ & -> & _).
    unfold engine_counts. rewrite Hc, Hdi.
    cbn [general_stats_of num_events option_map fst]. rewrite Hcount. reflexivity.
Qed.

End GeneralStatsFacts.

(** A table with an event column that is not a censoring flag. *)
Definition event_table : DataFrame :=
  mkDataFrame ["time"; "event"; "age"]%string
    [[num 4; num 1; num 50]; [num 6; num 0; num 61]; [num 9; num 1; num 47]].

Lemma general_stats_counts_witness :
  exists a,
    _compute_statistics_from_dataframe lifelines_lib upload_table "day" = Ok a /\
    num_samples (general_stats a) = 3 /\
    total_columns (general_stats a) = 3 /\
    num_features (general_stats a) = 1.
Proof.
  destruct (_compute_statistics_from_dataframe lifelines_lib upload_table "day")
    as [a | e] eqn:H; [ | vm_compute in H; discriminate].
  exists a. split; [reflexivity | ].
  destruct (general_stats_counts lifelines_lib upload_table "day" a H)
    as (H1 & H2 & H3 & _).
  split; [exact H1 | ]. split; [exact H2 | ]. rewrite H3, H2. reflexivity.
Defined.

Lemma event_column_passthrough_witness :
  exists a,
    _compute_statistics_from_dataframe lifelines_lib event_table "day" = Ok a /\
    num_events (general_stats a) = Some 2.
Proof.
  destruct (event_column_passthrough lifelines_lib event_table "day" "event"
              [num 1; num 0; num 1]) as (_ & _ & H).
  - reflexivity.
  - reflexivity.
  - discriminate.
  - reflexivity.
  - reflexivity.
  - vm_compute. discriminate.
  - destruct (_compute_statistics_from_dataframe lifelines_lib event_table "day")
      as [a | e] eqn:E; [ | vm_compute in E; discriminate].
    exists a. split; [reflexivity | ]. apply H. reflexivity.
Defined.

(** ** Time statistics *)

Section TimeStatsFacts.
Context (lib : Libraries).

(** The valid time values of a table: the numeric, non-missing entries of
    its resolved time column. *)
Definition valid_times_of (df : DataFrame) : list pyfloat :=
  match time_numeric_of lib df (fst (resolve_columns df)) with
  | Some time_numeric => dropna time_numeric
  | None => []
  end.

(** The time statistics of an analysis the computation returns: the four
    of them are null together when there is no valid time value and
    present together when there is one; when the reported minimum and
    maximum are finite numbers, the minimum is not above the maximum and
    every valid time lies between them. *)
Theorem time_statistics_bounds (df : DataFrame) (unit : string) (a : Analysis) :
  _compute_statistics_from_dataframe lib df unit = Ok a ->
  (valid_times_of df = [] ->
   time_min (general_stats a) = None /\ time_max (general_stats a) = None /\
   time_mean (general_stats a) = None /\ time_median (general_stats a) = None) /\
  (valid_times_of df <> [] ->
   time_min (general_stats a) <> None /\ time_max (general_stats a) <> None /\
   time_mean (general_stats a) <> None /\ time_median (general_stats a) <> None) /\
  (forall lo hi,
      time_min (general_stats a) = Some (Fin lo) ->
      time_max (general_stats a) = Some (Fin hi) ->
      (lo <= hi)%Q /\ Forall (within lo hi) (valid_times_of df)).
Proof.
  intros Ha. apply compute_statistics_inv in Ha. destruct Ha as (_ & -> & _).
  unfold valid_times_of, general_stats_of.
  cbn [time_min time_max time_mean time_median].
  destruct (time_numeric_of lib df (fst (resolve_columns df))) as [t | ];
    cbn [option_map].
  - destruct (dropna t) as [ | x rest] eqn:Ev.
    + split; [intros _; repeat split | ].
      split; [congruence | intros lo hi; discriminate].
    + split; [discriminate | ].
      split; [intros _; repeat split; discriminate | ].
      intros lo hi [= Hmin] [= Hmax].
      assert (Hne : x :: rest <> []) by discriminate.
      destruct (finite_range_within (x :: rest) lo hi Hne Hmin Hmax) as [HW _].
      split; [ | exact HW].
      inversion HW as [ | y l (v & _ & Hv) _]; subst. lra.
  - split; [intros _; repeat split | ].
    split; [congruence | intros lo hi; discriminate].
Qed.

End TimeStatsFacts.

Lemma time_statistics_bounds_witness :
  exists a,
    _compute_statistics_from_dataframe lifelines_lib upload_table "day" = Ok a /\
    time_min (general_stats a) = Some (Fin 10) /\
    time_max (general_stats a) = Some (Fin 20) /\
    Forall (within 10 20) (valid_times_of lifelines_lib upload_table).
Proof.
  destruct (_compute_statistics_from_dataframe lifelines_lib upload_table "day")
    as [a | e] eqn:H; [ | vm_compute in H; discriminate].
  exists a. split; [reflexivity | ].
  destruct (time_statistics_bounds lifelines_lib upload_table "day" a H)
    as (_ & _ & Hb).
  assert (Hmin : time_min (general_stats a) = Some (Fin 10))
    by (vm_compute in H; injection H as <-; reflexivity).
  assert (Hmax : time_max (general_stats a) = Some (Fin 20))
    by (vm_compute in H; injection H as <-; reflexivity).
  split; [exact Hmin | ]. split; [exact Hmax | ].
  apply (Hb 10%Q 20%Q Hmin Hmax).
Defined.

(** ** More on the event-time histogram *)

(** The valid times of the rows whose indicator is 1, as the builder
    selects them: by the label of the row. *)
Definition event_times_of (time_numeric : list pyfloat) (event_indicator : list Z)
    : list pyfloat :=
  List.map snd
    (List.filter (fun p => nth (fst p) event_indicator 0 =? 1)
       (List.filter (fun p => PyFloat.notna (snd p)) (labelled time_numeric))).

Lemma masked_selection {A B : Type} (f : A * B -> Z) (V : list (A * B)) :
  List.map (fun p => snd (fst p))
    (List.filter (fun p => snd p =? 1) (combine V (List.map f V)))
  = List.map snd (List.filter (fun p => f p =? 1) V).
Proof.
  induction V as [ | v V IH]; [reflexivity | ].
  cbn [List.map combine List.filter snd fst].
  destruct (f v =? 1); cbn [List.map snd fst]; rewrite IH; reflexivity.
Qed.

(** A non-empty histogram, with both count vectors spelled out. *)
Lemma histogram_inversion_events (time_numeric : list pyfloat) (event_indicator : list Z) :
  _build_event_time_histogram (Some time_numeric) event_indicator <> [] ->
  exists (lo hi : Q) (m : nat),
    let valid := dropna time_numeric in
    let bin_edges := linspace lo hi (S (S m)) in
    valid <> [] /\
    (lo < hi)%Q /\
    Forall (within lo hi) valid /\
    Z.of_nat (S m) = _determine_histogram_bin_count (Z.of_nat (List.length valid)) /\
    _build_event_time_histogram (Some time_numeric) event_indicator =
      List.map
        (bin_record bin_edges (bin_counts bin_edges valid)
           (bin_counts bin_edges (event_times_of time_numeric event_indicator)))
        (seq 0 (S m)).
Proof.
  unfold _build_event_time_histogram, event_times_of.
  destruct (List.filter (fun p => PyFloat.notna (snd p)) (labelled time_numeric))
    as [ | p l] eqn:E; [congruence | ].
  cbv beta iota zeta. rewrite <- E.
  set (V := List.filter (fun p => PyFloat.notna (snd p)) (labelled time_numeric)) in *.
  pose proof (valid_times_values time_numeric) as HV. fold V in HV.
  rewrite <- (length_map snd V), HV.
  rewrite (masked_selection (fun p => nth (fst p) event_indicator 0) V).
  assert (Hne : dropna time_numeric <> []).
  { rewrite <- HV, E. discriminate. }
  set (bins := _determine_histogram_bin_count (Z.of_nat (List.length (dropna time_numeric)))).
  pose proof (bin_count_bounds (Z.of_nat (List.length (dropna time_numeric)))) as Hb.
  fold bins in Hb.
  set (event_times := List.map snd (List.filter _ V)).
  destruct (np_histogram (dropna time_numeric) bins) as [[total edges] | ] eqn:Hh;
    [ | congruence].
  destruct (np_histogram_edges event_times edges) as [evs | ] eqn:He; [ | congruence].
  intros _.
  unfold np_histogram in Hh.
  destruct (bins <? 1) eqn:B1; [apply Z.ltb_lt in B1; lia | ].
  destruct (dropna time_numeric) as [ | x valid] eqn:Ev; [congruence | ].
  rewrite <- Ev in *.
  destruct (series_min (dropna time_numeric)) as [f | | ] eqn:Hmin; try discriminate.
  destruct (series_max (dropna time_numeric)) as [t | | ] eqn:Hmax; try discriminate.
  destruct (finite_range_within _ f t Hne Hmin Hmax) as [HW Hft].
  destruct (Z.to_nat bins) as [ | m] eqn:Hm; [lia | ].
  unfold np_histogram_edges in He.
  destruct (monotonic edges) eqn:Hmono; [ | discriminate].
  injection He as <-.
  destruct (Qeq_bool f t) eqn:Eft.
  - assert (Htot : List.length total = S m).
    { injection Hh as <- _.
      exact (total_counts_length (f - (1 # 2)) (t + (1 # 2)) m _). }
    rewrite Htot. injection Hh as <- <-.
    apply Qeq_bool_iff in Eft.
    exists (f - (1 # 2))%Q, (t + (1 # 2))%Q, m.
    cbv zeta.
    repeat split; try assumption; try lra; try lia.
    eapply List.Forall_impl; [ | exact HW].
    intros y (a & -> & Ha). exists a. split; [reflexivity | lra].
  - assert (Htot : List.length total = S m).
    { injection Hh as <- _. exact (total_counts_length f t m _). }
    rewrite Htot. injection Hh as <- <-.
    exists f, t, m.
    cbv zeta.
    repeat split; try assumption; try lia.
    destruct (Qlt_le_dec f t) as [L | L]; [exact L | ].
    assert (Heq : (f == t)%Q) by lra.
    apply Qeq_bool_iff in Heq. congruence.
Qed.

Lemma linspace_nth_top (lo hi : Q) (m : nat) :
  nth (S m) (linspace lo hi (S (S m))) 0%Q = hi.
Proof.
  rewrite linspace_grid.
  rewrite app_nth2 by (rewrite length_map, length_seq; lia).
  rewrite length_map, length_seq, Nat.sub_diag. reflexivity.
Qed.

Lemma nth_error_map_seq {A : Type} (g : nat -> A) (n i : nat) (b : A) :
  nth_error (List.map g (seq 0 n)) i = Some b -> b = g i /\ (i < n)%nat.
Proof.
  intros H.
  assert (Hi : (i < n)%nat).
  { assert (Hs : nth_error (List.map g (seq 0 n)) i <> None) by congruence.
    apply List.nth_error_Some in Hs. rewrite length_map, length_seq in Hs. exact Hs. }
  split; [ | exact Hi].
  rewrite List.nth_error_map in H.
  rewrite (nth_error_nth' (seq 0 n) 0%nat) in H by (rewrite length_seq; exact Hi).
  rewrite seq_nth in H by exact Hi. simpl in H. congruence.
Qed.

(** The bins of a histogram tile the range of the valid times: there are
    between 5 and 20 of them, each has a positive width, each ends where
    the next one starts, and every valid time lies between the start of
    the first bin and the end of the last one. *)
Theorem histogram_bins_tile_the_range
    (time_numeric : list pyfloat) (event_indicator : list Z) :
  let histogram := _build_event_time_histogram (Some time_numeric) event_indicator in
  histogram <> [] ->
  (5 <= List.length histogram <= 20)%nat /\
  Forall (fun b => (bin_start b < bin_end b)%Q) histogram /\
  (forall i b b',
      nth_error histogram i = Some b -> nth_error histogram (S i) = Some b' ->
      bin_end b = bin_start b') /\
  exists first final,
    hd_error histogram = Some first /\
    List.last histogram first = final /\
    Forall (within (bin_start first) (bin_end final)) (dropna time_numeric).
Proof.
  intros histogram Hne. subst histogram.
  destruct (histogram_inversion_events time_numeric event_indicator Hne)
    as (lo & hi & m & _ & Hlt & HW & Hbins & ->).
  set (edges := linspace lo hi (S (S m))).
  set (g := bin_record edges (bin_counts edges (dropna time_numeric))
              (bin_counts edges (event_times_of time_numeric event_indicator))).
  pose proof (bin_count_bounds (Z.of_nat (List.length (dropna time_numeric)))) as Hb.
  pose proof (grid_step_pos lo hi m Hlt) as Hstep.
  split; [rewrite length_map, length_seq; lia | ].
  split; [ | split].
  - apply List.Forall_map. apply List.Forall_forall. intros idx Hidx.
    apply in_seq in Hidx. unfold g, bin_record. cbn [bin_start bin_end]. unfold edges.
    rewrite linspace_nth by lia. rewrite Nat.add_1_r.
    destruct (Nat.eq_dec idx m) as [-> | Hneq].
    + rewrite linspace_nth_top. rewrite <- (grid_top lo hi m) at 2.
      apply grid_increasing; [exact Hstep | lia].
    + rewrite linspace_nth by lia. apply grid_increasing; [exact Hstep | lia].
  - intros i b b' Hb1 Hb2.
    apply nth_error_map_seq in Hb1, Hb2. destruct Hb1 as [-> _], Hb2 as [-> _].
    unfold g, bin_record. cbn [bin_start bin_end]. rewrite Nat.add_1_r. reflexivity.
  - exists (g 0%nat), (g m). split; [reflexivity | ]. split.
    + rewrite seq_S, List.map_app. cbn [List.map Nat.add]. apply last_last.
    + unfold g, bin_record. cbn [bin_start bin_end]. unfold edges.
      rewrite linspace_nth by lia. rewrite Nat.add_1_r, linspace_nth_top.
      eapply List.Forall_impl; [ | exact HW].
      intros y (q & -> & Hq). exists q. split; [reflexivity | ].
      assert (E : (grid lo (grid_step lo hi (S m)) 0 == lo)%Q)
        by (unfold grid; simpl; ring).
      rewrite E. exact Hq.
Qed.

Lemma histogram_bins_tile_the_range_witness :
  let histogram :=
    _build_event_time_histogram (Some [Fin 10; NaN; Fin 15; Fin 20]) [0; 1; 1; 0] in
  (5 <= List.length histogram <= 20)%nat /\
  Forall (fun b => (bin_start b < bin_end b)%Q) histogram /\
  (forall i b b',
      nth_error histogram i = Some b -> nth_error histogram (S i) = Some b' ->
      bin_end b = bin_start b') /\
  exists first final,
    hd_error histogram = Some first /\
    List.last histogram first = final /\
    Forall (within (bin_start first) (bin_end final)) (dropna [Fin 10; NaN; Fin 15; Fin 20]).
Proof.
  apply (histogram_bins_tile_the_range [Fin 10; NaN; Fin 15; Fin 20] [0; 1; 1; 0]).
  vm_compute. discriminate.
Defined.

Lemma selection_count_le {A : Type} (p : pyfloat -> bool) (q : A * pyfloat -> bool)
    (V : list (A * pyfloat)) :
  (List.length (List.filter p (List.map snd (List.filter q V)))
   <= List.length (List.filter p (List.map snd V)))%nat.
Proof.
  induction V as [ | v V IH]; [reflexivity | ].
  cbn [List.filter List.map].
  destruct (q v); cbn [List.filter List.map]; destruct (p (snd v)); simpl; lia.
Qed.

Lemma selection_Forall {A : Type} (P : pyfloat -> Prop) (q : A * pyfloat -> bool)
    (V : list (A * pyfloat)) :
  Forall P (List.map snd V) -> Forall P (List.map snd (List.filter q V)).
Proof.
  induction V as [ | v V IH]; intros H; [constructor | ].
  inversion H as [ | y l Hy Hl]; subst. cbn [List.filter].
  destruct (q v); [constructor; [exact Hy | apply IH; exact Hl] | apply IH; exact Hl].
Qed.

Lemma bin_counts_nth_le (a1 a2 : list pyfloat) (edges : list Q) (i : nat) :
  (forall p, (List.length (List.filter p a1) <= List.length (List.filter p a2))%nat) ->
  0 <= nth i (bin_counts edges a1) 0 <= nth i (bin_counts edges a2) 0.
Proof.
  intros Hsub. revert i. induction edges as [ | lo more IH]; intros i.
  - destruct i; simpl; lia.
  - destruct more as [ | hi rest]; [destruct i; simpl; lia | ].
    change (bin_counts (lo :: hi :: rest) ?a)
      with (Z.of_nat (List.length
                        (List.filter
                           (in_bin lo hi (match rest with [] => true | _ => false end)) a))
            :: bin_counts (hi :: rest) a).
    destruct i as [ | i]; [ | apply IH].
    cbn [nth].
    specialize (Hsub (in_bin lo hi (match rest with [] => true | _ => false end))). lia.
Qed.

(** In every bin of a histogram the events are at most the count, so the
    censored number is not negative; over all bins the events add up to the
    number of rows that have a valid time and indicator 1. *)
Theorem histogram_events_within_counts
    (time_numeric : list pyfloat) (event_indicator : list Z) :
  let histogram := _build_event_time_histogram (Some time_numeric) event_indicator in
  histogram <> [] ->
  Forall (fun b => 0 <= events b <= count b /\ 0 <= censored b) histogram /\
  sum_counts (List.map events histogram) =
    Z.of_nat (List.length (event_times_of time_numeric event_indicator)).
Proof.
  intros histogram Hne. subst histogram.
  destruct (histogram_inversion_events time_numeric event_indicator Hne)
    as (lo & hi & m & _ & Hlt & HW & _ & ->).
  set (edges := linspace lo hi (S (S m))).
  set (evt := event_times_of time_numeric event_indicator).
  pose proof (valid_times_values time_numeric) as HV.
  assert (Hsub : forall p,
             (List.length (List.filter p evt)
              <= List.length (List.filter p (dropna time_numeric)))%nat).
  { intros p. unfold evt, event_times_of. rewrite <- HV. apply selection_count_le. }
  assert (HWe : Forall (within lo hi) evt).
  { unfold evt, event_times_of. apply selection_Forall. rewrite HV. exact HW. }
  split.
  - apply List.Forall_map. apply List.Forall_forall. intros idx _.
    unfold bin_record. cbn [events count censored].
    rewrite nth_difference by (unfold edges; rewrite !total_counts_length; reflexivity).
    pose proof (bin_counts_nth_le evt (dropna time_numeric) edges idx Hsub). lia.
  - replace (List.map events
               (List.map (bin_record edges (bin_counts edges (dropna time_numeric))
                            (bin_counts edges evt)) (seq 0 (S m))))
      with (bin_counts edges evt).
    + apply total_counts_sum; assumption.
    + symmetry. rewrite List.map_map.
      rewrite <- (total_counts_length lo hi m evt). fold edges.
      exact (map_nth_seq_from 0 (bin_counts edges evt) []).
Qed.

Lemma histogram_events_within_counts_witness :
  let histogram :=
    _build_event_time_histogram (Some [Fin 10; NaN; Fin 15; Fin 20]) [0; 1; 1; 0] in
  Forall (fun b => 0 <= events b <= count b /\ 0 <= censored b) histogram /\
  sum_counts (List.map events histogram) = 1.
Proof.
  apply (histogram_events_within_counts [Fin 10; NaN; Fin 15; Fin 20] [0; 1; 1; 0]).
  vm_compute. discriminate.
Defined.

Lemma nth_repeat_inside {A : Type} (x d : A) (n i : nat) :
  (i < n)%nat -> nth i (repeat x n) d = x.
Proof.
  revert i. induction n as [ | n IH]; intros i Hi; [lia | ].
  destruct i as [ | i]; [reflexivity | ]. simpl. apply IH. lia.
Qed.

Lemma filter_all {A : Type} (p : A -> bool) (l : list A) :
  (forall x, In x l -> p x = true) -> List.filter p l = l.
Proof.
  induction l as [ | x l IH]; intros H; [reflexivity | ].
  simpl. rewrite (H x) by (left; reflexivity).
  rewrite IH; [reflexivity | ]. intros y Hy. apply H. right. exact Hy.
Qed.

Lemma event_times_all_events (time_numeric : list pyfloat) :
  event_times_of time_numeric (repeat 1 (List.length time_numeric)) = dropna time_numeric.
Proof.
  unfold event_times_of. rewrite filter_all; [apply valid_times_values | ].
  intros [i x] Hin. apply filter_In in Hin. destruct Hin as [Hin _].
  unfold labelled in Hin. apply in_combine_l in Hin. apply in_seq in Hin.
  cbn [fst]. rewrite nth_repeat_inside by lia. reflexivity.
Qed.

Section DefaultIndicator.
Context (lib : Libraries).

Lemma time_numeric_length (df : DataFrame) (tc : option string) (tn : list pyfloat) :
  time_numeric_of lib df tc = Some tn -> List.length tn = num_rows df.
Proof.
  unfold time_numeric_of. destruct tc as [t | ]; [ | discriminate].
  destruct (truthy (Some t)); [ | discriminate].
  destruct (df_get df t) as [s | ] eqn:G; [ | discriminate].
  intros [= <-]. rewrite to_numeric_length. eapply df_get_length. exact G.
Qed.

(** When no event indicator can be derived, the histogram of every
    analysis the computation returns shows every valid time as an event:
    in each bin [events = count] and [censored = 0]. *)
Theorem underived_indicator_histogram (df : DataFrame) (unit : string) (a : Analysis) :
  derived_indicator lib df (snd (resolve_columns df)) = None ->
  _compute_statistics_from_dataframe lib df unit = Ok a ->
  Forall (fun b => events b = count b /\ censored b = 0) (event_time_histogram a).
Proof.
  intros Hd Ha. apply compute_statistics_inv in Ha. destruct Ha as (_ & _ & ->).
  unfold engine_indicator. rewrite Hd.
  destruct (time_numeric_of lib df (fst (resolve_columns df))) as [tn | ] eqn:Ht;
    [ | constructor].
  rewrite <- (time_numeric_length df _ tn Ht).
  destruct (_build_event_time_histogram (Some tn) (repeat 1 (List.length tn)))
    as [ | b0 h0] eqn:Eh; [constructor | ].
  rewrite <- Eh.
  assert (Hne : _build_event_time_histogram (Some tn) (repeat 1 (List.length tn)) <> [])
    by (rewrite Eh; discriminate).
  destruct (histogram_inversion_events tn _ Hne) as (lo & hi & m & _ & _ & _ & _ & ->).
  rewrite event_times_all_events.
  apply List.Forall_map. apply List.Forall_forall. intros idx _.
  unfold bin_record. cbn [events count censored].
  rewrite nth_difference by reflexivity. lia.
Qed.

End DefaultIndicator.

Lemma underived_indicator_histogram_witness :
  exists a,
    _compute_statistics_from_dataframe lifelines_lib graded_table "day" = Ok a /\
    event_time_histogram a <> [] /\
    Forall (fun b => events b = count b /\ censored b = 0) (event_time_histogram a).
Proof.
  destruct (_compute_statistics_from_dataframe lifelines_lib graded_table "day")
    as [a | e] eqn:H; [ | vm_compute in H; discriminate].
  exists a. split; [reflexivity | ]. split.
  - vm_compute in H. injection H as <-. discriminate.
  - apply (underived_indicator_histogram lifelines_lib graded_table "day" a);
      [reflexivity | exact H].
Defined.

(** ** More on the feature records *)

(** What every feature record satisfies by the way it is built. *)
Definition consistent_row (r : FeatureRow) : Prop :=
  (feature_type r = "numeric"%string \/ feature_type r = "categorical"%string) /\
  abs_correlation r = option_map PyFloat.abs (correlation_with_time r) /\
  (forall x, correlation_with_time r = Some x -> PyFloat.isnan x = false) /\
  (feature_type r = "categorical"%string ->
   mean r = None /\ std_dev r = None /\ correlation_with_time r = None /\
   cox_score r = None) /\
  (cox_score r = None -> cox_score_log r = None).

Section FeatureRecords.
Context (lib : Libraries).

Lemma feature_record_consistent (df : DataFrame) (event_indicator : list Z)
    (time_numeric : option (list pyfloat)) (name : string) (cox : option pyfloat) :
  (is_numeric_dtype (match df_get df name with Some s => s | None => [] end) = false ->
   cox = None) ->
  consistent_row (feature_record lib df event_indicator time_numeric name cox).
Proof.
  intros Hcox. unfold consistent_row, feature_record.
  cbn [feature_type abs_correlation correlation_with_time mean std_dev cox_score
         cox_score_log].
  set (series := match df_get df name with Some s => s | None => [] end) in *.
  destruct (is_numeric_dtype series) eqn:Enum.
  - split; [left; reflexivity | ]. split; [reflexivity | ]. split; [ | split].
    + intros x. destruct time_numeric as [times | ]; [ | discriminate].
      repeat match goal with
             | |- context [if ?c then _ else _] => destruct c eqn:?
             end; try discriminate.
      intros [= <-].
      match goal with
      | H : PyFloat.notna ?c = true |- PyFloat.isnan ?c = false =>
          apply negb_true_iff in H; exact H
      end.
    + discriminate.
    + intros ->. reflexivity.
  - rewrite (Hcox eq_refl).
    split; [right; reflexivity | ]. split.
    + destruct time_numeric; reflexivity.
    + split; [destruct time_numeric; discriminate | ].
      split; [ | reflexivity].
      intros _. cbn [andb]. destruct time_numeric; repeat split.
Qed.

Lemma feature_row_consistent (df : DataFrame) (t : string) (event_indicator : list Z)
    (time_numeric : option (list pyfloat)) (name : string) (r : FeatureRow) :
  feature_row lib df t event_indicator time_numeric name = Ok r ->
  consistent_row r.
Proof.
  rewrite feature_row_cases.
  destruct (is_numeric_dtype (match df_get df name with Some s => s | None => [] end))
    eqn:Enum.
  - match goal with
    | |- match ?c with Ok _ => _ | Raise _ => _ end = _ -> _ =>
        destruct c as [cox | e]; [ | discriminate]
    end.
    intros [= <-]. apply feature_record_consistent. congruence.
  - rewrite andb_false_r. intros [= <-].
    apply feature_record_consistent. reflexivity.
Qed.

(** Every record of an output is consistent: its type is "numeric" or
    "categorical", [abs_correlation] is the absolute value of
    [correlation_with_time] and neither is NaN, a categorical feature has
    no mean, deviation, correlation or Cox score, and there is no
    [cox_score_log] without a [cox_score]. *)
Theorem feature_records_consistent (df : DataFrame) (feature_columns : list string)
    (time_col : option string) (event_indicator : list Z)
    (time_numeric : option (list pyfloat)) (output : list FeatureRow) :
  _compute_feature_statistics lib df feature_columns time_col
    event_indicator time_numeric = Ok output ->
  Forall consistent_row output.
Proof.
  intros H. apply compute_feature_statistics_inv in H.
  destruct H as [(-> & _) | (t & results & _ & _ & Hrows & ->)]; [constructor | ].
  eapply Permutation_Forall; [apply Permutation_sym, py_sort_perm | ].
  apply feature_rows_inv in Hrows.
  induction Hrows as [ | name r names rs Hr _ IH]; constructor; [ | exact IH].
  eapply feature_row_consistent. exact Hr.
Qed.

(** When the time column is a column of the table, an output has exactly
    one record per feature column: its features are the feature columns,
    rearranged. Without a time column the output is returned, and it has
    no record. *)
Theorem feature_records_cover_columns (df : DataFrame) (feature_columns : list string)
    (time_col : option string) (event_indicator : list Z)
    (time_numeric : option (list pyfloat)) :
  (forall output,
      _compute_feature_statistics lib df feature_columns time_col
        event_indicator time_numeric = Ok output ->
      is_column df time_col /\ time_col <> None ->
      Permutation (List.map feature output) feature_columns /\
      List.length output = List.length feature_columns) /\
  (time_col = None ->
   _compute_feature_statistics lib df feature_columns time_col
     event_indicator time_numeric = Ok []).
Proof.
  split.
  - intros output H [Hcol Hsome]. apply compute_feature_statistics_inv in H.
    destruct time_col as [t | ]; [ | congruence].
    simpl in Hcol. apply str_in_true in Hcol.
    destruct H as [(-> & Hwhy) | (t' & results & [= <-] & _ & Hrows & ->)].
    + destruct Hwhy as [-> | [Hnone | (t' & [= <-] & Hout)]];
        [split; [constructor | reflexivity] | discriminate | congruence].
    + pose proof (py_sort_perm row_lt results) as Hp.
      pose proof (feature_rows_names lib df t event_indicator time_numeric
                    feature_columns results Hrows) as Hnames.
      split.
      * rewrite <- Hnames. apply Permutation_map. exact Hp.
      * rewrite (Permutation_length Hp), <- Hnames. symmetry. apply length_map.
  - intros ->. destruct feature_columns; reflexivity.
Qed.

End FeatureRecords.

Lemma feature_records_consistent_witness :
  exists output,
    _compute_feature_statistics lifelines_lib upload_table ["feature_a"]%string
      (Some "time"%string) [0; 1; 0] (Some [Fin 10; Fin 15; Fin 20]) = Ok output /\
    output <> [] /\
    Forall consistent_row output.
Proof.
  destruct (_compute_feature_statistics lifelines_lib upload_table ["feature_a"]%string
              (Some "time"%string) [0; 1; 0] (Some [Fin 10; Fin 15; Fin 20]))
    as [output | e] eqn:H; [ | vm_compute in H; discriminate].
  exists output. split; [reflexivity | ]. split.
  - vm_compute in H. injection H as <-. discriminate.
  - exact (feature_records_consistent lifelines_lib upload_table ["feature_a"]%string
             (Some "time"%string) [0; 1; 0] (Some [Fin 10; Fin 15; Fin 20]) output H).
Defined.

Lemma feature_records_cover_columns_witness :
  exists output,
    _compute_feature_statistics lifelines_lib upload_table ["feature_a"]%string
      (Some "time"%string) [0; 1; 0] (Some [Fin 10; Fin 15; Fin 20]) = Ok output /\
    Permutation (List.map feature output) ["feature_a"]%string /\
    List.length output = 1%nat.
Proof.
  destruct (_compute_feature_statistics lifelines_lib upload_table ["feature_a"]%string
              (Some "time"%string) [0; 1; 0] (Some [Fin 10; Fin 15; Fin 20]))
    as [output | e] eqn:H; [ | vm_compute in H; discriminate].
  exists output. split; [reflexivity | ].
  destruct (feature_records_cover_columns lifelines_lib upload_table
              ["feature_a"]%string (Some "time"%string) [0; 1; 0]
              (Some [Fin 10; Fin 15; Fin 20])) as (Hcover & _).
  apply (Hcover output H). split; [ | discriminate].
  simpl. left. reflexivity.
Defined.

(** ** The cache *)


Section CacheFacts.
Context (lib : Libraries).

(** The loader raises nothing but what the storage raises for the file
    reference. *)
Lemma loader_raise (storage : Storage) (dataset : Dataset) (e : exn) :
  _read_dataset_into_dataframe lib storage dataset = Raise e ->
  e = SuspiciousFileOperation /\
  exists path,
    file_path dataset = Some path /\ path <> ""%string /\
    default_storage_path lib path = None.
Proof.
  unfold _read_dataset_into_dataframe.
  destruct (file_path dataset) as [path | ]; [ | discriminate].
  destruct (negb (truthy (Some path))) eqn:T; [discriminate | ].
  destruct (default_storage_path lib path) eqn:P.
  - destruct (storage !! path); [ | discriminate].
    destruct (endswith (lower path) ".tsv"); discriminate.
  - intros [= <-]. split; [reflexivity | ]. exists path.
    split; [reflexivity | ]. split; [ | exact P].
    intros ->. discriminate.
Qed.

(** What [calculate_and_store_dataset_statistics] can raise: the storage's
    refusal of the file reference, the [ValueError] of the computation,
    and the database's failure or refusal of the row. *)
Lemma calculate_raise (storage : Storage) (db : Database) (dataset : Dataset)
    (frame : option DataFrame) (e : exn) :
  calculate_and_store_dataset_statistics lib storage db dataset frame = Raise e ->
  e = DatabaseError \/ e = ValueError \/ e = SuspiciousFileOperation.
Proof.
  unfold calculate_and_store_dataset_statistics.
  destruct (match frame with
            | Some d => Ok (Some d)
            | None => _read_dataset_into_dataframe lib storage dataset
            end) as [df | e'] eqn:L.
  - cbn [mbind outcome_bind].
    match goal with
    | |- (?m ≫= _) = _ -> _ => destruct m as [analysis | e''] eqn:A
    end.
    + cbn [mbind outcome_bind]. unfold update_or_create.
      destruct (db_reachable db && _); [discriminate | ].
      intros [= <-]. left. reflexivity.
    + intros [= <-]. right. left.
      destruct df as [d | ]; [ | discriminate].
      destruct (df_empty d); [discriminate | ].
      eapply compute_statistics_value_error. exact A.
  - intros [= <-]. right. right.
    destruct frame; [discriminate | ].
    apply loader_raise in L. tauto.
Qed.

(** With a database that answers, [ensure_dataset_statistics] serves the
    row of the current schema version unless recomputation is forced, and
    computes in every other case. *)
Lemma ensure_cases (storage : Storage) (db : Database) (dataset : Dataset)
    (force_recalculate : bool) (frame : option DataFrame) (include_dataframe : bool) :
  db_reachable db = true ->
  ensure_dataset_statistics lib storage db dataset force_recalculate frame
    include_dataframe =
    match db_rows db !! dataset_id dataset with
    | Some row =>
        if negb force_recalculate
           && String.eqb (schema_version row) DATASET_STATS_SCHEMA_VERSION
        then
          df ← match frame with
               | Some d => Ok (Some d)
               | None =>
                   if include_dataframe
                   then _read_dataset_into_dataframe lib storage dataset
                   else Ok None
               end;
          Ok ({| stats := row; dataframe := df |}, db)
        else calculate_and_store_dataset_statistics lib storage db dataset frame
    | None => calculate_and_store_dataset_statistics lib storage db dataset frame
    end.
Proof.
  intros Hup. unfold ensure_dataset_statistics, get_statistics. rewrite Hup.
  reflexivity.
Qed.

(** A recomputation is what [ensure_dataset_statistics] does when it is
    forced, when there is no row, and when the row has another schema
    version. When it returns, the returned row is stored under the
    current schema version, all its floats are finite, and the rows of
    the other datasets are not touched. *)
Theorem recomputation_refreshes_the_row
    (storage : Storage) (db : Database) (dataset : Dataset)
    (force_recalculate : bool) (frame : option DataFrame) (include_dataframe : bool) :
  db_reachable db = true ->
  force_recalculate = true \/
    match db_rows db !! dataset_id dataset with
    | Some row => schema_version row <> DATASET_STATS_SCHEMA_VERSION
    | None => True
    end ->
  ensure_dataset_statistics lib storage db dataset force_recalculate frame
    include_dataframe
    = calculate_and_store_dataset_statistics lib storage db dataset frame /\
  forall result db',
    ensure_dataset_statistics lib storage db dataset force_recalculate frame
      include_dataframe = Ok (result, db') ->
    db_rows db' !! dataset_id dataset = Some (stats result) /\
    schema_version (stats result) = DATASET_STATS_SCHEMA_VERSION /\
    json_storable (stats result) = true /\
    forall other, other <> dataset_id dataset ->
      db_rows db' !! other = db_rows db !! other.
Proof.
  intros Hup Hwhy.
  assert (Hensure :
    ensure_dataset_statistics lib storage db dataset force_recalculate frame
      include_dataframe
    = calculate_and_store_dataset_statistics lib storage db dataset frame).
  { rewrite ensure_cases by exact Hup.
    destruct (db_rows db !! dataset_id dataset) as [row | ]; [ | reflexivity].
    destruct Hwhy as [-> | Hold]; [reflexivity | ].
    replace (String.eqb (schema_version row) DATASET_STATS_SCHEMA_VERSION) with false
      by (symmetry; apply String.eqb_neq; exact Hold).
    rewrite andb_false_r. reflexivity. }
  split; [exact Hensure | ].
  intros result db' H. rewrite Hensure in H. apply calculate_inv in H.
  destruct H as (df & analysis & _ & _ & _ & Hjson & -> & ->).
  cbn [stats db_rows]. split; [apply lookup_insert_eq | ].
  split; [reflexivity | ]. split; [exact Hjson | ].
  intros other Hother. apply lookup_insert_ne. congruence.
Qed.

(** After a computation that returned, the cache answers:
    [ensure_dataset_statistics] without the force flag returns the row
    just stored and leaves the table as it is, whatever has happened to
    the file storage since. *)
Theorem computed_row_is_served
    (storage later_storage : Storage) (db : Database) (dataset : Dataset)
    (frame : option DataFrame) (result : DatasetStatisticsResult) (db' : Database) :
  calculate_and_store_dataset_statistics lib storage db dataset frame
    = Ok (result, db') ->
  ensure_dataset_statistics lib later_storage db' dataset false None false
    = Ok ({| stats := stats result; dataframe := None |}, db').
Proof.
  intros H. apply calculate_inv in H.
  destruct H as (df & analysis & _ & _ & Hup & _ & -> & ->).
  rewrite ensure_cases by exact Hup. cbn [db_rows stats].
  rewrite lookup_insert_eq. cbn [row_of schema_version negb andb].
  rewrite String.eqb_refl. reflexivity.
Qed.



(** A file reference that the storage refuses makes the loader raise: so
    does every computation that has to load the file, and so does a
    request for the cached row together with the dataframe. Without the
    dataframe the cached row is served all the same. *)
Theorem rejected_file_reference_raises
    (storage : Storage) (db : Database) (dataset : Dataset) (path : string) :
  file_path dataset = Some path ->
  path <> ""%string ->
  default_storage_path lib path = None ->
  _read_dataset_into_dataframe lib storage dataset = Raise SuspiciousFileOperation /\
  calculate_and_store_dataset_statistics lib storage db dataset None
    = Raise SuspiciousFileOperation /\
  forall row,
    db_reachable db = true ->
    db_rows db !! dataset_id dataset = Some row ->
    schema_version row = DATASET_STATS_SCHEMA_VERSION ->
    ensure_dataset_statistics lib storage db dataset false None true
      = Raise SuspiciousFileOperation /\
    ensure_dataset_statistics lib storage db dataset false None false
      = Ok ({| stats := row; dataframe := None |}, db).
Proof.
  intros Hp Hne Hpath.
  assert (Hload : _read_dataset_into_dataframe lib storage dataset
                  = Raise SuspiciousFileOperation).
  { unfold _read_dataset_into_dataframe. rewrite Hp.
    replace (truthy (Some path)) with true
      by (symmetry; simpl; apply negb_true_iff; apply String.eqb_neq; exact Hne).
    cbn [negb]. rewrite Hpath. reflexivity. }
  split; [exact Hload | ]. split.
  - unfold calculate_and_store_dataset_statistics. rewrite Hload. reflexivity.
  - intros row Hup Hrow Hver.
    rewrite !ensure_cases by exact Hup.
    rewrite Hrow, Hver, String.eqb_refl, Hload. split; reflexivity.
Qed.

End CacheFacts.

(** A stale row: stored under the previous schema version. *)
Definition stale_row : DatasetStatistics :=
  {| st_general_stats := empty_general_stats "day";
     st_feature_correlations := [];
     st_event_time_histogram := [];
     schema_version := "v1" |}.

Definition stale_db : Database :=
  {| db_reachable := true; db_rows := {[ 7 := stale_row ]} |}.


(** A table whose last time value is infinite. *)
Definition endless_table : DataFrame :=
  mkDataFrame ["time"; "censored"; "age"]%string
    [[num 4; num 0; num 50]; [CNum (Inf false); num 1; num 61]].

Lemma recomputation_refreshes_the_row_witness :
  exists result db',
    ensure_dataset_statistics lifelines_lib ∅ stale_db orphan_dataset false
      (Some upload_table) false = Ok (result, db') /\
    db_rows db' !! 7 = Some (stats result) /\
    schema_version (stats result) = "v2"%string /\
    num_samples (st_general_stats (stats result)) = 3.
Proof.
  destruct (recomputation_refreshes_the_row lifelines_lib ∅ stale_db orphan_dataset
              false (Some upload_table) false) as (_ & H).
  - reflexivity.
  - right. vm_compute. discriminate.
  - destruct (ensure_dataset_statistics lifelines_lib ∅ stale_db orphan_dataset false
                (Some upload_table) false) as [[result db'] | e] eqn:E;
      [ | vm_compute in E; discriminate].
    exists result, db'. split; [reflexivity | ].
    destruct (H result db' eq_refl) as (H1 & H2 & _).
    split; [exact H1 | ]. split; [exact H2 | ].
    vm_compute in E. injection E as <- _. reflexivity.
Defined.

Lemma computed_row_is_served_witness :
  exists result db',
    calculate_and_store_dataset_statistics lifelines_lib ∅ stale_db orphan_dataset
      (Some upload_table) = Ok (result, db') /\
    ensure_dataset_statistics lifelines_lib ∅ db' orphan_dataset false None false
      = Ok ({| stats := stats result; dataframe := None |}, db').
Proof.
  destruct (calculate_and_store_dataset_statistics lifelines_lib ∅ stale_db
              orphan_dataset (Some upload_table)) as [[result db'] | e] eqn:E;
    [ | vm_compute in E; discriminate].
  exists result, db'. split; [reflexivity | ].
  exact (computed_row_is_served lifelines_lib ∅ ∅ stale_db orphan_dataset
           (Some upload_table) result db' E).
Defined.



Lemma rejected_file_reference_raises_witness :
  calculate_and_store_dataset_statistics strict_lib ∅ one_row_db stray_dataset None
    = Raise SuspiciousFileOperation /\
  ensure_dataset_statistics strict_lib ∅ one_row_db stray_dataset false None true
    = Raise SuspiciousFileOperation /\
  ensure_dataset_statistics strict_lib ∅ one_row_db stray_dataset false None false
    = Ok ({| stats := stored_row; dataframe := None |}, one_row_db).
Proof.
  destruct (rejected_file_reference_raises strict_lib ∅ one_row_db stray_dataset
              "../outside.csv") as (_ & H1 & H2).
  - reflexivity.
  - discriminate.
  - reflexivity.
  - split; [exact H1 | ].
    apply (H2 stored_row); [reflexivity | apply lookup_singleton_eq | reflexivity].
Defined.

(** ** The statistics endpoint (dataset/views.py) *)

Inductive ResponseBody : Type :=
| ErrorBody (error : string) (code : option string)
| FailureBody (raised : exn)
| StatisticsBody (row : DatasetStatistics) (columns rows : Z).

Record Response : Type := mkResponse {
  status_code : Z;
  body : ResponseBody
}.

Definition HTTP_200_OK : Z := 200.
Definition HTTP_400_BAD_REQUEST : Z := 400.
Definition HTTP_500_INTERNAL_SERVER_ERROR : Z := 500.
Definition HTTP_503_SERVICE_UNAVAILABLE : Z := 503.

Definition REFRESH_VALUES : list string :=
  ["1"; "true"; "yes"; "recompute"; "refresh"]%string.

Section Endpoint.
Context (lib : Libraries).

(** The [statistics] action of the dataset view set, from the dataset that
    [get_object] returned and the [refresh] query parameter; the response
    and the table after the request. [FailureBody] stands for the message
    built from an exception other than [DatabaseError]. *)
Definition statistics (storage : Storage) (db : Database) (dataset : Dataset)
    (refresh : option string) : Response * Database :=
  if negb (truthy (file_path dataset)) then
    ({| status_code := HTTP_400_BAD_REQUEST;
        body := ErrorBody "Dataset has no associated file – cannot compute statistics."
                  None |}, db)
  else
    let refresh_flag := lower (match refresh with Some v => v | None => ""%string end) in
    let force_recalculate := str_in refresh_flag REFRESH_VALUES in
    match ensure_dataset_statistics lib storage db dataset force_recalculate None false with
    | Raise DatabaseError =>
        ({| status_code := HTTP_503_SERVICE_UNAVAILABLE;
            body := ErrorBody
                      "Dataset statistics storage is unavailable. Please run the latest migrations to initialize analytics."
                      (Some "stats_backend_unavailable"%string) |}, db)
    | Raise exc =>
        ({| status_code := HTTP_500_INTERNAL_SERVER_ERROR; body := FailureBody exc |}, db)
    | Ok (result, db') =>
        let general := st_general_stats (stats result) in
        ({| status_code := HTTP_200_OK;
            body := StatisticsBody (stats result) (total_columns general)
                      (num_samples general) |}, db')
    end.

(** A dataset without a file reference is answered with 400 and no write,
    also when a row is cached for it. *)
Theorem statistics_without_file (storage : Storage) (db : Database) (dataset : Dataset)
    (refresh : option string) :
  truthy (file_path dataset) = false ->
  exists message,
    statistics storage db dataset refresh
      = ({| status_code := 400; body := ErrorBody message None |}, db).
Proof.
  intros H. unfold statistics. rewrite H. eexists. reflexivity.
Qed.

(** For a dataset with a file reference the endpoint answers 200, 503 or
    500. A 200 answer carries the row that is stored for the dataset
    after the request, with its column and sample counts. The answer is
    503 when the database does not answer or refuses the row, and 500
    when the storage refuses the file reference or the computation
    raises [ValueError]; in both cases nothing is written. *)
Theorem statistics_status (storage : Storage) (db : Database) (dataset : Dataset)
    (refresh : option string) :
  truthy (file_path dataset) = true ->
  let response := fst (statistics storage db dataset refresh) in
  let db' := snd (statistics storage db dataset refresh) in
  (db_reachable db = false -> status_code response = 503) /\
  ((exists row,
       response = {| status_code := 200;
                     body := StatisticsBody row
                               (total_columns (st_general_stats row))
                               (num_samples (st_general_stats row)) |} /\
       db_rows db' !! dataset_id dataset = Some row /\
       schema_version row = DATASET_STATS_SCHEMA_VERSION /\
       db_reachable db = true) \/
   (status_code response = 503 /\ db' = db) \/
   (status_code response = 500 /\ db' = db /\ db_reachable db = true /\
    (body response = FailureBody ValueError \/
     body response = FailureBody SuspiciousFileOperation))).
Proof.
  intros Hfile. cbv zeta. unfold statistics. rewrite Hfile. cbn [negb].
  set (force := str_in _ REFRESH_VALUES).
  destruct (db_reachable db) eqn:Hup.
  - rewrite ensure_cases by exact Hup. split; [discriminate | ].
    set (respond := fun outcome : outcome (DatasetStatisticsResult * Database) =>
           match outcome with
           | Ok (result, db') =>
               ({| status_code := HTTP_200_OK;
                   body := StatisticsBody (stats result)
                             (total_columns (st_general_stats (stats result)))
                             (num_samples (st_general_stats (stats result))) |}, db')
           | Raise DatabaseError =>
               ({| status_code := HTTP_503_SERVICE_UNAVAILABLE;
                   body := ErrorBody
                             "Dataset statistics storage is unavailable. Please run the latest migrations to initialize analytics."
                             (Some "stats_backend_unavailable"%string) |}, db)
           | Raise exc =>
               ({| status_code := HTTP_500_INTERNAL_SERVER_ERROR;
                   body := FailureBody exc |}, db)
           end).
    assert (Hcalc :
      let answer :=
        respond (calculate_and_store_dataset_statistics lib storage db dataset None) in
      (exists row,
          fst answer = {| status_code := 200;
                          body := StatisticsBody row
                                    (total_columns (st_general_stats row))
                                    (num_samples (st_general_stats row)) |} /\
          db_rows (snd answer) !! dataset_id dataset = Some row /\
          schema_version row = DATASET_STATS_SCHEMA_VERSION /\
          true = true) \/
      (status_code (fst answer) = 503 /\ snd answer = db) \/
      (status_code (fst answer) = 500 /\ snd answer = db /\ true = true /\
       (body (fst answer) = FailureBody ValueError \/
        body (fst answer) = FailureBody SuspiciousFileOperation))).
    { cbv zeta.
      destruct (calculate_and_store_dataset_statistics lib storage db dataset None)
        as [[result db'] | e] eqn:C.
      - left. apply calculate_inv in C.
        destruct C as (df & analysis & _ & _ & _ & _ & -> & ->).
        eexists. split; [reflexivity | ]. cbn [respond fst snd db_rows stats].
        split; [apply lookup_insert_eq | ]. split; reflexivity.
      - apply calculate_raise in C. destruct C as [-> | [-> | ->]].
        + right. left. split; reflexivity.
        + right. right. repeat split. left. reflexivity.
        + right. right. repeat split. right. reflexivity. }
    destruct (db_rows db !! dataset_id dataset) as [row | ] eqn:Hrow; [ | exact Hcalc].
    destruct (negb force && String.eqb (schema_version row) DATASET_STATS_SCHEMA_VERSION)
      eqn:Hcached; [ | exact Hcalc].
    left. exists row. cbn. split; [reflexivity | ]. split; [exact Hrow | ].
    split; [ | reflexivity].
    apply andb_true_iff in Hcached. destruct Hcached as [_ Hv].
    apply String.eqb_eq. exact Hv.
  - unfold ensure_dataset_statistics, get_statistics. rewrite Hup.
    cbn. split; [reflexivity | ]. right. left. split; reflexivity.
Qed.

(** The [refresh] parameter is compared in lower case with five accepted
    values; with any other value, or without the parameter, a cached row of
    the current schema version is served as it is and nothing is
    written. *)
Theorem statistics_serves_cached_row (storage : Storage) (db : Database)
    (dataset : Dataset) (refresh : option string) (row : DatasetStatistics) :
  truthy (file_path dataset) = true ->
  db_reachable db = true ->
  db_rows db !! dataset_id dataset = Some row ->
  schema_version row = DATASET_STATS_SCHEMA_VERSION ->
  ~ In (lower (match refresh with Some v => v | None => ""%string end)) REFRESH_VALUES ->
  statistics storage db dataset refresh
    = ({| status_code := 200;
          body := StatisticsBody row (total_columns (st_general_stats row))
                    (num_samples (st_general_stats row)) |}, db).
Proof.
  intros Hfile Hup Hrow Hver Hflag. unfold statistics. rewrite Hfile. cbn [negb].
  replace (str_in (lower match refresh with Some v => v | None => ""%string end)
             REFRESH_VALUES) with false.
  - unfold ensure_dataset_statistics, get_statistics. rewrite Hup.
    cbn [mbind outcome_bind]. rewrite Hrow, Hver, String.eqb_refl. reflexivity.
  - symmetry. apply not_true_is_false. intros H. apply str_in_true in H. contradiction.
Qed.

(** With an accepted [refresh] value, in any letter case, and a database
    that answers, the row is computed again whatever was cached: when the
    computation returns, the endpoint answers 200 with the row just
    stored; when it raises, the endpoint answers 503 for a database
    error and 500 for any other exception, and nothing is written. *)
Theorem statistics_refresh_recomputes (storage : Storage) (db : Database)
    (dataset : Dataset) (value : string) :
  truthy (file_path dataset) = true ->
  db_reachable db = true ->
  In (lower value) REFRESH_VALUES ->
  match calculate_and_store_dataset_statistics lib storage db dataset None with
  | Ok (result, db') =>
      statistics storage db dataset (Some value)
        = ({| status_code := 200;
              body := StatisticsBody (stats result)
                        (total_columns (st_general_stats (stats result)))
                        (num_samples (st_general_stats (stats result))) |}, db')
  | Raise e =>
      status_code (fst (statistics storage db dataset (Some value)))
        = (if is_database_error e then 503 else 500) /\
      snd (statistics storage db dataset (Some value)) = db
  end.
Proof.
  intros Hfile Hup Hflag.
  unfold statistics. rewrite Hfile. cbn [negb].
  apply str_in_true in Hflag. rewrite Hflag.
  assert (Hensure :
    ensure_dataset_statistics lib storage db dataset true None false
    = calculate_and_store_dataset_statistics lib storage db dataset None).
  { rewrite ensure_cases by exact Hup.
    destruct (db_rows db !! dataset_id dataset); reflexivity. }
  rewrite Hensure.
  destruct (calculate_and_store_dataset_statistics lib storage db dataset None)
    as [[result db'] | e]; [reflexivity | ].
  destruct e; split; reflexivity.
Qed.

End Endpoint.

Definition fileless_dataset : Dataset :=
  {| dataset_id := 7; file_path := None; time_unit := "day" |}.

(** A library instance whose reader yields [table] for every file, with
    lifelines installed. *)
Definition reader_of (table : DataFrame) : Libraries :=
  {| str_to_numeric := fun _ => NaN;
     series_mean := exact_mean;
     series_median := exact_median;
     series_std := fun _ => Fin 0;
     pearson := fun _ _ => NaN;
     lifelines_available := true;
     cox_fit := fun _ _ _ => None;
     np_log := fun _ => NaN;
     default_storage_path := fun path => Some ("/media/" ++ path)%string;
     read_csv := fun _ _ => Some table |}.

Definition upload_storage : gmap string string :=
  {[ "datasets/2025/01/a.csv"%string := "time,censored,age,site"%string ]}.

Lemma statistics_without_file_witness :
  exists message,
    statistics sample_lib ∅ one_row_db fileless_dataset (Some "true"%string)
      = ({| status_code := 400; body := ErrorBody message None |}, one_row_db).
Proof.
  apply (statistics_without_file sample_lib ∅ one_row_db fileless_dataset).
  reflexivity.
Defined.

Lemma statistics_status_witness :
  let response :=
    fst (statistics (reader_of late_time_table) upload_storage stale_db orphan_dataset
           None) in
  let db' :=
    snd (statistics (reader_of late_time_table) upload_storage stale_db orphan_dataset
           None) in
  (db_reachable stale_db = false -> status_code response = 503) /\
  ((exists row,
       response = {| status_code := 200;
                     body := StatisticsBody row
                               (total_columns (st_general_stats row))
                               (num_samples (st_general_stats row)) |} /\
       db_rows db' !! dataset_id orphan_dataset = Some row /\
       schema_version row = DATASET_STATS_SCHEMA_VERSION /\
       db_reachable stale_db = true) \/
   (status_code response = 503 /\ db' = stale_db) \/
   (status_code response = 500 /\ db' = stale_db /\ db_reachable stale_db = true /\
    (body response = FailureBody ValueError \/
     body response = FailureBody SuspiciousFileOperation))).
Proof.
  apply (statistics_status (reader_of late_time_table) upload_storage stale_db
           orphan_dataset None).
  reflexivity.
Defined.

(** The three answers on a stale row: a table that is analysed and stored,
    a table whose time column stands among the features, and a table with
    an infinite time. *)
Example statistics_answers :
  status_code
    (fst (statistics (reader_of upload_table) upload_storage stale_db orphan_dataset None))
    = 200 /\
  status_code
    (fst (statistics (reader_of late_time_table) upload_storage stale_db orphan_dataset
            None))
    = 500 /\
  status_code
    (fst (statistics (reader_of endless_table) upload_storage stale_db orphan_dataset
            None))
    = 503.
Proof. repeat split; vm_compute; reflexivity. Qed.

Lemma statistics_serves_cached_row_witness :
  statistics sample_lib ∅ one_row_db orphan_dataset (Some "no"%string)
    = ({| status_code := 200;
          body := StatisticsBody stored_row 3 3 |}, one_row_db).
Proof.
  apply (statistics_serves_cached_row sample_lib ∅ one_row_db orphan_dataset
           (Some "no"%string) stored_row).
  - reflexivity.
  - reflexivity.
  - apply lookup_singleton_eq.
  - reflexivity.
  - simpl. intros H. repeat destruct H as [H | H]; try discriminate. exact H.
Defined.

Lemma statistics_refresh_recomputes_witness :
  exists result db',
    calculate_and_store_dataset_statistics (reader_of upload_table) upload_storage
      one_row_db orphan_dataset None = Ok (result, db') /\
    statistics (reader_of upload_table) upload_storage one_row_db orphan_dataset
      (Some "TRUE"%string)
      = ({| status_code := 200;
            body := StatisticsBody (stats result)
                      (total_columns (st_general_stats (stats result)))
                      (num_samples (st_general_stats (stats result))) |}, db') /\
    num_samples (st_general_stats (stats result)) = 3.
Proof.
  pose proof (statistics_refresh_recomputes (reader_of upload_table) upload_storage
                one_row_db orphan_dataset "TRUE" eq_refl eq_refl
                (or_intror (or_introl eq_refl))) as H.
  destruct (calculate_and_store_dataset_statistics (reader_of upload_table)
              upload_storage one_row_db orphan_dataset None)
    as [[result db'] | e] eqn:E; [ | vm_compute in E; discriminate].
  exists result, db'. split; [reflexivity | ]. split; [exact H | ].
  vm_compute in E. injection E as <- _. reflexivity.
Defined.

(** ** Feature imputation (dataset/tasks.py) *)

Definition cell_isnull (c : cell) : bool := negb (cell_notna c).

(** [series.fillna(value)] *)
Definition fillna_cells (value : cell) (s : Series) : Series :=
  List.map (fun c => if cell_isnull c then value else c) s.

(** A record with its missing trailing cells written out. *)
Definition pad_record (width : nat) (r : list cell) : list cell :=
  r ++ repeat (CNum NaN) (width - List.length r).

(** [df[name] = series]: the cells of an existing column are replaced, a
    new name adds a column at the end. *)
Definition df_set (df : DataFrame) (name : string) (series : Series) : DataFrame :=
  match position name (df_columns df) with
  | Some j =>
      {| df_columns := df_columns df;
         df_records :=
           List.map (fun p => <[j := snd p]> (pad_record (num_cols df) (fst p)))
             (combine (df_records df) series) |}
  | None =>
      {| df_columns := df_columns df ++ [name];
         df_records :=
           List.map (fun p => pad_record (num_cols df) (fst p) ++ [snd p])
             (combine (df_records df) series) |}
  end.

Inductive ImputationNote : Type :=
| ImputedNumeric (col : string) (mean_val : pyfloat)
| ImputedCategorical (col : string).

(** One turn of the loop over the numeric features. *)
Definition impute_numeric (lib : Libraries)
    (state : DataFrame * list ImputationNote) (col : string)
    : DataFrame * list ImputationNote :=
  match df_get (fst state) col with
  | Some s =>
      if existsb cell_isnull s then
        let mean_val := series_mean lib (dropna (List.map cell_float s)) in
        (df_set (fst state) col (fillna_cells (CNum mean_val) s),
         snd state ++ [ImputedNumeric col mean_val])
      else state
  | None => state
  end.

(** One turn of the loop over the categorical features. *)
Definition impute_categorical (state : DataFrame * list ImputationNote) (col : string)
    : DataFrame * list ImputationNote :=
  match df_get (fst state) col with
  | Some s =>
      if existsb cell_isnull s then
        (df_set (fst state) col (fillna_cells (CStr "unknown") s),
         snd state ++ [ImputedCategorical col])
      else state
  | None => state
  end.

Definition column_is_numeric (df : DataFrame) (col : string) : bool :=
  match df_get df col with
  | Some s => is_numeric_dtype s
  | None => false
  end.

(** [select_dtypes(include=[np.number])] and
    [select_dtypes(include=['object', 'category'])] on the feature columns:
    a column of the model is numeric or of dtype [object]. *)
Definition numeric_features_of (df : DataFrame) : list string :=
  List.filter (column_is_numeric df) (skipn 2 (df_columns df)).

Definition categorical_features_of (df : DataFrame) : list string :=
  List.filter (fun col => negb (column_is_numeric df col)) (skipn 2 (df_columns df)).

(** The imputation step of [process_feature_imputation]: numeric features
    get their mean, categorical features get "unknown". *)
Definition impute_features (lib : Libraries) (df : DataFrame)
    : DataFrame * list ImputationNote :=
  let numeric_features := numeric_features_of df in
  let categorical_features := categorical_features_of df in
  let state := fold_left (impute_numeric lib) numeric_features (df, []) in
  fold_left impute_categorical categorical_features state.

Definition cell_eqb (a b : cell) : bool :=
  match a, b with
  | CNum x, CNum y => PyFloat.eqb x y
  | CStr s, CStr t => String.eqb s t
  | _, _ => false
  end.

Fixpoint unique_cells (s : Series) : Series :=
  match s with
  | [] => []
  | c :: rest => c :: List.filter (fun d => negb (cell_eqb c d)) (unique_cells rest)
  end.

(** [series.nunique()]: missing entries do not count. *)
Definition cell_nunique (s : Series) : nat :=
  List.length (unique_cells (List.filter cell_notna s)).

(** The warnings: the categorical features with more than 30 categories. *)
Definition category_warnings (df : DataFrame) (categorical_features : list string)
    : list (string * nat) :=
  List.filter (fun w => (30 <? snd w)%nat)
    (List.map (fun col => (col, cell_nunique (match df_get df col with
                                              | Some s => s
                                              | None => []
                                              end)))
       categorical_features).

Inductive TaskError : Type :=
| DatasetNotFound
| NoFileAssociatedWithDataset
| TooFewColumns
| ProcessingFailed.

Record TaskDetails : Type := mkTaskDetails {
  original_rows : nat;
  original_cols : nat;
  final_rows : nat;
  final_cols : nat;
  imputation_summary : list ImputationNote
}.

Inductive TaskResult : Type :=
| TaskFailed (error : TaskError)
| TaskSucceeded (details : TaskDetails) (warnings : list (string * nat)).

Section ImputationTask.
Context (lib : Libraries).

(** [DataFrame.to_csv(path, sep=..., index=False)]: the file content. *)
Context (to_csv : DataFrame -> string -> string).

(** [process_feature_imputation], from the result of
    [Dataset.objects.get] ([None] when the dataset does not exist): the
    result, the file storage and the statistics table afterwards. Every
    exception of the read (a refused file reference, a missing file, a
    parse error) lands in the handlers at the end, here
    [ProcessingFailed]; an exception of the statistics is caught and
    logged; the update of the stored file size is left out. *)
Definition process_feature_imputation (storage : Storage) (db : Database)
    (found : option Dataset) : TaskResult * Storage * Database :=
  if negb (db_reachable db) then (TaskFailed ProcessingFailed, storage, db)
  else
    match found with
    | None => (TaskFailed DatasetNotFound, storage, db)
    | Some dataset =>
        match file_path dataset with
        | None => (TaskFailed NoFileAssociatedWithDataset, storage, db)
        | Some path =>
            if negb (truthy (Some path))
            then (TaskFailed NoFileAssociatedWithDataset, storage, db)
            else
              match default_storage_path lib path, storage !! path with
              | None, _ | _, None => (TaskFailed ProcessingFailed, storage, db)
              | Some _, Some content =>
                  let read :=
                    if endswith (lower path) ".csv" then read_csv lib content ","
                    else if endswith (lower path) ".tsv" then read_csv lib content TAB
                    else read_csv lib content "," in
                  match read with
                  | None => (TaskFailed ProcessingFailed, storage, db)
                  | Some df =>
                      if (num_cols df <? 3)%nat
                      then (TaskFailed TooFewColumns, storage, db)
                      else
                        let categorical_features := categorical_features_of df in
                        let imputed := impute_features lib df in
                        let warnings :=
                          category_warnings (fst imputed) categorical_features in
                        let content' :=
                          if endswith (lower path) ".tsv"
                          then to_csv (fst imputed) TAB
                          else to_csv (fst imputed) "," in
                        let storage' := <[path := content']> storage in
                        let db' :=
                          match calculate_and_store_dataset_statistics lib storage' db
                                  dataset (Some (fst imputed)) with
                          | Ok (_, updated) => updated
                          | Raise _ => db
                          end in
                        (TaskSucceeded
                           {| original_rows := num_rows df;
                              original_cols := num_cols df;
                              final_rows := num_rows (fst imputed);
                              final_cols := num_cols (fst imputed);
                              imputation_summary := snd imputed |}
                           warnings,
                         storage', db')
                  end
              end
        end
    end.

End ImputationTask.

(** A table with gaps in a numeric and in a categorical feature. *)
Definition gappy_table : DataFrame :=
  mkDataFrame ["time"; "censored"; "age"; "site"]%string
    [[num 4; num 0; num 50; CStr "north"];
     [num 6; num 1; CNum NaN; CNum NaN];
     [num 9; num 1; num 60; CStr "south"]].

Example impute_gappy_table :
  impute_features sample_lib gappy_table =
    (mkDataFrame ["time"; "censored"; "age"; "site"]%string
       [[num 4; num 0; num 50; CStr "north"];
        [num 6; num 1; CNum (Fin (110 # 2)); CStr "unknown"];
        [num 9; num 1; num 60; CStr "south"]],
     [ImputedNumeric "age" (Fin (110 # 2)); ImputedCategorical "site"]).
Proof. reflexivity. Qed.

(** *** Reading and writing columns *)

Lemma position_lt (name : string) (names : list string) (j : nat) :
  position name names = Some j -> (j < List.length names)%nat.
Proof.
  revert j. induction names as [ | n names IH]; intros j; [discriminate | ].
  simpl. destruct (String.eqb name n).
  - intros [= <-]. lia.
  - destruct (position name names) as [k | ]; [ | discriminate].
    intros [= <-]. specialize (IH k eq_refl). lia.
Qed.

Lemma position_same (a b : string) (names : list string) (j : nat) :
  position a names = Some j -> position b names = Some j -> a = b.
Proof.
  revert j. induction names as [ | n names IH]; intros j; [discriminate | ].
  simpl. destruct (String.eqb a n) eqn:Ea, (String.eqb b n) eqn:Eb.
  - intros _ _. apply String.eqb_eq in Ea, Eb. congruence.
  - intros [= <-]. destruct (position b names); discriminate.
  - destruct (position a names); [ | discriminate]. intros [= <-]. discriminate.
  - destruct (position a names) as [k | ]; [ | discriminate].
    destruct (position b names) as [k' | ]; [ | discriminate].
    intros [= <-] [= ->]. apply (IH k); reflexivity.
Qed.

Lemma position_In (name : string) (names : list string) :
  In name names -> exists j, position name names = Some j.
Proof.
  induction names as [ | n names IH]; [intros [] | ].
  intros H. simpl. destruct (String.eqb name n) eqn:E; [exists 0%nat; reflexivity | ].
  destruct H as [-> | H]; [rewrite String.eqb_refl in E; discriminate | ].
  destruct (IH H) as [j ->]. exists (S j). reflexivity.
Qed.

Lemma nth_pad_record (width : nat) (r : list cell) (i : nat) :
  nth i (pad_record width r) (CNum NaN) = nth i r (CNum NaN).
Proof.
  unfold pad_record.
  destruct (Nat.lt_ge_cases i (List.length r)) as [H | H].
  - apply app_nth1. exact H.
  - rewrite app_nth2 by exact H. rewrite (nth_overflow r) by exact H.
    destruct (Nat.lt_ge_cases (i - List.length r) (width - List.length r)) as [H' | H'].
    + apply nth_repeat_inside. exact H'.
    + apply nth_overflow. rewrite repeat_length. exact H'.
Qed.

Lemma pad_record_length (width : nat) (r : list cell) :
  (width <= List.length (pad_record width r))%nat.
Proof. unfold pad_record. rewrite length_app, repeat_length. lia. Qed.

Lemma map_fst_combine {A B : Type} (l : list A) (l' : list B) :
  List.length l = List.length l' -> List.map fst (combine l l') = l.
Proof.
  revert l'. induction l as [ | a l IH]; intros [ | b l'] H; try discriminate;
    [reflexivity | ].
  simpl. rewrite IH by (simpl in H; lia). reflexivity.
Qed.

Lemma map_snd_combine {A B : Type} (l : list A) (l' : list B) :
  List.length l = List.length l' -> List.map snd (combine l l') = l'.
Proof.
  revert l'. induction l as [ | a l IH]; intros [ | b l'] H; try discriminate;
    [reflexivity | ].
  simpl. rewrite IH by (simpl in H; lia). reflexivity.
Qed.

Section ColumnUpdate.
Context (df : DataFrame) (name : string) (old new : Series).
Hypothesis Hold : df_get df name = Some old.
Hypothesis Hlen : List.length new = List.length old.

Lemma df_set_columns : df_columns (df_set df name new) = df_columns df.
Proof.
  unfold df_set. unfold df_get in Hold.
  destruct (position name (df_columns df)); [reflexivity | discriminate].
Qed.

Lemma df_set_rows : num_rows (df_set df name new) = num_rows df.
Proof.
  pose proof (df_get_length df name old Hold) as Hrows.
  unfold df_set. unfold df_get in Hold.
  destruct (position name (df_columns df)); [ | discriminate].
  unfold num_rows in *. cbn [df_records].
  rewrite length_map, length_combine. lia.
Qed.

Lemma df_get_set_same : df_get (df_set df name new) name = Some new.
Proof.
  pose proof (df_get_length df name old Hold) as Hrows.
  unfold df_set. unfold df_get in Hold |- *.
  destruct (position name (df_columns df)) as [j | ] eqn:Hj; [ | discriminate].
  cbn [df_columns df_records]. rewrite Hj. f_equal.
  rewrite List.map_map.
  rewrite <- (map_snd_combine (df_records df) new) at 2
    by (unfold num_rows in Hrows; lia).
  apply map_ext. intros [r c]. cbn [fst snd].
  apply nth_lookup_Some. apply list_lookup_insert_eq.
  pose proof (pad_record_length (num_cols df) r).
  apply position_lt in Hj. unfold num_cols in *. lia.
Qed.

Lemma df_get_set_other (other : string) :
  other <> name -> df_get (df_set df name new) other = df_get df other.
Proof.
  intros Hother.
  pose proof (df_get_length df name old Hold) as Hrows.
  unfold df_set. unfold df_get in Hold |- *.
  destruct (position name (df_columns df)) as [j | ] eqn:Hj; [ | discriminate].
  cbn [df_columns df_records].
  destruct (position other (df_columns df)) as [k | ] eqn:Hk; [ | reflexivity].
  f_equal. rewrite List.map_map.
  rewrite <- (map_fst_combine (df_records df) new) at 2
    by (unfold num_rows in Hrows; lia).
  rewrite List.map_map. apply map_ext. intros [r c]. cbn [fst snd].
  rewrite nth_lookup, list_lookup_insert_ne, <- nth_lookup.
  - apply nth_pad_record.
  - intros ->. apply Hother. symmetry. eapply position_same; eassumption.
Qed.

End ColumnUpdate.

(** *** The imputation loops *)

Lemma fillna_cells_length (value : cell) (s : Series) :
  List.length (fillna_cells value s) = List.length s.
Proof. apply length_map. Qed.

Lemma fillna_cells_complete (value : cell) (s : Series) :
  existsb cell_isnull s = false -> fillna_cells value s = s.
Proof.
  induction s as [ | c s IH]; [reflexivity | ]. simpl.
  intros H. apply orb_false_iff in H. destruct H as [Hc Hs].
  rewrite Hc, IH by exact Hs. reflexivity.
Qed.

Section FillLoop.
(** The value a column is filled with, from the column. *)
Context (value_of : Series -> cell).

Definition filled (s : Series) : Series := fillna_cells (value_of s) s.

(** One turn of a loop, on the table alone. *)
Definition fill_column (df : DataFrame) (col : string) : DataFrame :=
  match df_get df col with
  | Some s => if existsb cell_isnull s then df_set df col (filled s) else df
  | None => df
  end.

Lemma fill_column_shape (df : DataFrame) (col : string) :
  df_columns (fill_column df col) = df_columns df /\
  num_rows (fill_column df col) = num_rows df.
Proof.
  unfold fill_column. destruct (df_get df col) as [s | ] eqn:G; [ | split; reflexivity].
  destruct (existsb cell_isnull s); [ | split; reflexivity].
  split.
  - apply (df_set_columns df col s). exact G.
  - apply (df_set_rows df col s); [exact G | apply fillna_cells_length].
Qed.

Lemma fill_column_get (df : DataFrame) (col name : string) (s : Series) :
  df_get df name = Some s ->
  df_get (fill_column df col) name
    = Some (if String.eqb name col then filled s else s).
Proof.
  intros Hs. unfold fill_column.
  destruct (String.eqb name col) eqn:E.
  - apply String.eqb_eq in E. subst col. rewrite Hs.
    destruct (existsb cell_isnull s) eqn:Hnull.
    + apply (df_get_set_same df name s); [exact Hs | apply fillna_cells_length].
    + unfold filled. rewrite fillna_cells_complete by exact Hnull. exact Hs.
  - apply String.eqb_neq in E.
    destruct (df_get df col) as [c | ] eqn:G; [ | exact Hs].
    destruct (existsb cell_isnull c); [ | exact Hs].
    rewrite (df_get_set_other df col c); [exact Hs | exact G | | exact E].
    apply fillna_cells_length.
Qed.

Lemma fill_loop_shape (names : list string) (df : DataFrame) :
  df_columns (fold_left fill_column names df) = df_columns df /\
  num_rows (fold_left fill_column names df) = num_rows df.
Proof.
  revert df. induction names as [ | c names IH]; intros df; [split; reflexivity | ].
  simpl. destruct (IH (fill_column df c)) as [H1 H2].
  destruct (fill_column_shape df c) as [H3 H4]. split; congruence.
Qed.

Lemma fill_loop_get (names : list string) (df : DataFrame) (name : string) (s : Series) :
  List.NoDup names ->
  df_get df name = Some s ->
  df_get (fold_left fill_column names df) name
    = Some (if str_in name names then filled s else s).
Proof.
  revert df s. induction names as [ | c names IH]; intros df s Hnd Hs; [exact Hs | ].
  inversion Hnd as [ | c' l Hnotin Hnd']; subst.
  cbn [fold_left]. unfold str_in. cbn [existsb]. fold (str_in name names).
  pose proof (fill_column_get df c name s Hs) as Hstep.
  destruct (String.eqb name c) eqn:E.
  - apply String.eqb_eq in E. subst c.
    rewrite (IH _ _ Hnd' Hstep).
    replace (str_in name names) with false; [reflexivity | ].
    symmetry. apply not_true_is_false. intros H. apply str_in_true in H. contradiction.
  - rewrite (IH _ _ Hnd' Hstep). reflexivity.
Qed.

End FillLoop.

Definition mean_cell (lib : Libraries) (s : Series) : cell :=
  CNum (series_mean lib (dropna (List.map cell_float s))).

Definition unknown_cell (s : Series) : cell := CStr "unknown".

Lemma impute_numeric_loop (lib : Libraries) (names : list string)
    (state : DataFrame * list ImputationNote) :
  fst (fold_left (impute_numeric lib) names state)
    = fold_left (fill_column (mean_cell lib)) names (fst state).
Proof.
  revert state. induction names as [ | c names IH]; intros state; [reflexivity | ].
  cbn [fold_left]. rewrite IH. f_equal.
  unfold impute_numeric, fill_column, filled, mean_cell.
  destruct (df_get (fst state) c) as [s | ]; [ | reflexivity].
  destruct (existsb cell_isnull s); reflexivity.
Qed.

Lemma impute_categorical_loop (names : list string)
    (state : DataFrame * list ImputationNote) :
  fst (fold_left impute_categorical names state)
    = fold_left (fill_column unknown_cell) names (fst state).
Proof.
  revert state. induction names as [ | c names IH]; intros state; [reflexivity | ].
  cbn [fold_left]. rewrite IH. f_equal.
  unfold impute_categorical, fill_column, filled, unknown_cell.
  destruct (df_get (fst state) c) as [s | ]; [ | reflexivity].
  destruct (existsb cell_isnull s); reflexivity.
Qed.

Lemma NoDup_skipn_names (n : nat) (l : list string) : List.NoDup l -> List.NoDup (skipn n l).
Proof.
  revert l. induction n as [ | n IH]; intros l H; [exact H | ].
  destruct l as [ | x l]; [constructor | ].
  inversion H; subst. apply IH. assumption.
Qed.

Lemma NoDup_filter_names (p : string -> bool) (l : list string) :
  List.NoDup l -> List.NoDup (List.filter p l).
Proof.
  induction 1 as [ | x l Hx Hl IH]; [constructor | ].
  simpl. destruct (p x); [ | exact IH].
  constructor; [ | exact IH]. intros Hin. apply filter_In in Hin. tauto.
Qed.

Lemma str_in_filter (p : string -> bool) (name : string) (l : list string) :
  str_in name (List.filter p l) = str_in name l && p name.
Proof.
  destruct (str_in name (List.filter p l)) eqn:E.
  - apply str_in_true in E. apply filter_In in E. destruct E as [E1 E2].
    apply str_in_true in E1. rewrite E1, E2. reflexivity.
  - symmetry. apply not_true_is_false. intros H.
    apply andb_true_iff in H. destruct H as [H1 H2]. apply str_in_true in H1.
    assert (Hin : In name (List.filter p l)) by (apply filter_In; split; assumption).
    apply str_in_true in Hin. congruence.
Qed.

Section ImputationFacts.
Context (lib : Libraries).

(** The imputed table, column by column: a feature column is filled with
    its mean when it is numeric and with "unknown" when it is not; the
    other columns are as they were. *)
Lemma impute_features_get (df : DataFrame) (name : string) (s : Series) :
  List.NoDup (df_columns df) ->
  df_get df name = Some s ->
  df_get (fst (impute_features lib df)) name
    = Some (if str_in name (skipn 2 (df_columns df))
            then if is_numeric_dtype s
                 then fillna_cells (mean_cell lib s) s
                 else fillna_cells (unknown_cell s) s
            else s).
Proof.
  intros Hnd Hs. unfold impute_features.
  rewrite impute_categorical_loop, impute_numeric_loop. cbn [fst].
  pose proof (NoDup_skipn_names 2 _ Hnd) as Hfeat.
  assert (Hnum : df_get (fold_left (fill_column (mean_cell lib))
                           (numeric_features_of df) df) name
                 = Some (if str_in name (numeric_features_of df)
                         then filled (mean_cell lib) s else s)).
  { apply fill_loop_get; [ | exact Hs]. apply NoDup_filter_names. exact Hfeat. }
  rewrite (fill_loop_get unknown_cell (categorical_features_of df) _ name _
             (NoDup_filter_names _ _ Hfeat) Hnum).
  unfold numeric_features_of, categorical_features_of.
  rewrite !str_in_filter. unfold column_is_numeric. rewrite Hs.
  destruct (str_in name (skipn 2 (df_columns df))); cbn [andb]; [ | reflexivity].
  destruct (is_numeric_dtype s); reflexivity.
Qed.

Lemma impute_features_shape (df : DataFrame) :
  df_columns (fst (impute_features lib df)) = df_columns df /\
  num_rows (fst (impute_features lib df)) = num_rows df.
Proof.
  unfold impute_features.
  rewrite impute_categorical_loop, impute_numeric_loop. cbn [fst].
  destruct (fill_loop_shape unknown_cell (categorical_features_of df)
              (fold_left (fill_column (mean_cell lib)) (numeric_features_of df) df))
    as [H1 H2].
  destruct (fill_loop_shape (mean_cell lib) (numeric_features_of df) df) as [H3 H4].
  split; congruence.
Qed.

(** *** Properties of the imputation *)

(** Imputation keeps the shape of the table and every known cell: the
    columns and the number of rows are the same, an entry that was not
    missing is unchanged, and the columns before the features (time and
    censoring) are untouched. *)
Theorem imputation_keeps_known_cells (df : DataFrame) (name : string) (s : Series) :
  List.NoDup (df_columns df) ->
  df_get df name = Some s ->
  df_columns (fst (impute_features lib df)) = df_columns df /\
  num_rows (fst (impute_features lib df)) = num_rows df /\
  exists s',
    df_get (fst (impute_features lib df)) name = Some s' /\
    List.length s' = List.length s /\
    (forall i c, nth_error s i = Some c -> cell_isnull c = false ->
                 nth_error s' i = Some c) /\
    (str_in name (skipn 2 (df_columns df)) = false -> s' = s).
Proof.
  intros Hnd Hs. destruct (impute_features_shape df) as [Hc Hr].
  split; [exact Hc | ]. split; [exact Hr | ].
  rewrite (impute_features_get df name s Hnd Hs).
  assert (Hfill : forall v,
             List.length (fillna_cells v s) = List.length s /\
             forall i c, nth_error s i = Some c -> cell_isnull c = false ->
                         nth_error (fillna_cells v s) i = Some c).
  { intros v. split; [apply fillna_cells_length | ].
    intros i c Hi Hc'. unfold fillna_cells.
    rewrite List.nth_error_map, Hi. cbn [option_map]. rewrite Hc'. reflexivity. }
  eexists. split; [reflexivity | ].
  destruct (str_in name (skipn 2 (df_columns df))).
  - destruct (is_numeric_dtype s);
      (split; [apply Hfill | ]; split; [apply Hfill | discriminate]).
  - split; [reflexivity | ]. split; [intros i c Hi _; exact Hi | reflexivity].
Qed.

(** After the imputation a categorical feature has no missing entry, and
    a numeric feature has none provided its mean is a number. *)
Theorem imputation_fills_features (df : DataFrame) (name : string) (s : Series) :
  List.NoDup (df_columns df) ->
  In name (skipn 2 (df_columns df)) ->
  df_get df name = Some s ->
  (is_numeric_dtype s = true ->
   PyFloat.isnan (series_mean lib (dropna (List.map cell_float s))) = false) ->
  exists s',
    df_get (fst (impute_features lib df)) name = Some s' /\
    Forall (fun c => cell_isnull c = false) s'.
Proof.
  intros Hnd Hin Hs Hmean.
  rewrite (impute_features_get df name s Hnd Hs).
  apply str_in_true in Hin. rewrite Hin.
  assert (Hfill : forall v, cell_isnull v = false ->
                            Forall (fun c => cell_isnull c = false) (fillna_cells v s)).
  { intros v Hv. unfold fillna_cells. apply List.Forall_map.
    apply List.Forall_forall. intros c _.
    destruct (cell_isnull c) eqn:E; [exact Hv | exact E]. }
  eexists. split; [reflexivity | ].
  destruct (is_numeric_dtype s).
  - apply Hfill. unfold mean_cell, cell_isnull, cell_notna, PyFloat.notna.
    rewrite (Hmean eq_refl). reflexivity.
  - apply Hfill. reflexivity.
Qed.

End ImputationFacts.

Lemma gappy_columns_distinct : List.NoDup (df_columns gappy_table).
Proof.
  repeat constructor; simpl; intuition discriminate.
Defined.

Lemma imputation_keeps_known_cells_witness :
  df_columns (fst (impute_features sample_lib gappy_table)) = df_columns gappy_table /\
  num_rows (fst (impute_features sample_lib gappy_table)) = num_rows gappy_table /\
  exists s',
    df_get (fst (impute_features sample_lib gappy_table)) "age" = Some s' /\
    List.length s' = 3%nat /\
    (forall i c, nth_error [num 50; CNum NaN; num 60] i = Some c ->
                 cell_isnull c = false -> nth_error s' i = Some c) /\
    (str_in "age" (skipn 2 (df_columns gappy_table)) = false ->
     s' = [num 50; CNum NaN; num 60]).
Proof.
  apply (imputation_keeps_known_cells sample_lib gappy_table "age"
           [num 50; CNum NaN; num 60]).
  - exact gappy_columns_distinct.
  - reflexivity.
Defined.

Lemma imputation_fills_features_witness :
  exists s',
    df_get (fst (impute_features sample_lib gappy_table)) "age" = Some s' /\
    Forall (fun c => cell_isnull c = false) s'.
Proof.
  apply (imputation_fills_features sample_lib gappy_table "age"
           [num 50; CNum NaN; num 60]).
  - exact gappy_columns_distinct.
  - simpl. left. reflexivity.
  - reflexivity.
  - intros _. reflexivity.
Defined.

Section ImputationTaskFacts.
Context (lib : Libraries) (to_csv : DataFrame -> string -> string).

(** The separator the task reads a file with. *)
Definition read_separator (path : string) : string :=
  if endswith (lower path) ".csv" then ","
  else if endswith (lower path) ".tsv" then TAB else ",".

(** The task turns down a dataset that does not exist, a dataset without
    a file and a table with fewer than three columns, read from a file
    the storage holds under a reference it accepts; in each case neither
    the file storage nor the statistics table is written. *)
Theorem imputation_rejections (storage : Storage) (db : Database) :
  db_reachable db = true ->
  process_feature_imputation lib to_csv storage db None
    = (TaskFailed DatasetNotFound, storage, db) /\
  (forall dataset,
      truthy (file_path dataset) = false ->
      process_feature_imputation lib to_csv storage db (Some dataset)
        = (TaskFailed NoFileAssociatedWithDataset, storage, db)) /\
  (forall dataset path content df,
      file_path dataset = Some path -> path <> ""%string ->
      default_storage_path lib path <> None ->
      storage !! path = Some content ->
      read_csv lib content (read_separator path) = Some df ->
      (num_cols df < 3)%nat ->
      process_feature_imputation lib to_csv storage db (Some dataset)
        = (TaskFailed TooFewColumns, storage, db)).
Proof.
  intros Hup. unfold process_feature_imputation. rewrite Hup. cbn [negb].
  split; [reflexivity | ]. split.
  - intros dataset Hno. destruct (file_path dataset) as [path | ]; [ | reflexivity].
    rewrite Hno. reflexivity.
  - intros dataset path content df Hp Hne Hpath Hs Hr Hcols. rewrite Hp.
    replace (truthy (Some path)) with true
      by (symmetry; simpl; apply negb_true_iff; apply String.eqb_neq; exact Hne).
    cbn [negb].
    destruct (default_storage_path lib path) as [full | ]; [ | congruence].
    rewrite Hs. unfold read_separator in Hr.
    replace (if endswith (lower path) ".csv" then read_csv lib content ","
             else if endswith (lower path) ".tsv" then read_csv lib content TAB
                  else read_csv lib content ",") with (Some df)
      by (destruct (endswith (lower path) ".csv"), (endswith (lower path) ".tsv");
          symmetry; exact Hr).
    apply Nat.ltb_lt in Hcols. rewrite Hcols. reflexivity.
Qed.

(** A successful run: the table has the shape it had and the file is
    overwritten with the imputed table. The statistics are computed from
    the imputed table itself: when that computation returns, its row is
    the statistics row of the dataset afterwards; when it raises, the
    exception is swallowed, the run still succeeds and the statistics
    table is left as it was. *)
Theorem imputation_success (storage : Storage) (db : Database) (dataset : Dataset)
    (path content : string) (df : DataFrame) :
  db_reachable db = true ->
  file_path dataset = Some path -> path <> ""%string ->
  default_storage_path lib path <> None ->
  storage !! path = Some content ->
  read_csv lib content (read_separator path) = Some df ->
  (3 <= num_cols df)%nat ->
  let imputed := fst (impute_features lib df) in
  exists details warnings storage' db',
    process_feature_imputation lib to_csv storage db (Some dataset)
      = (TaskSucceeded details warnings, storage', db') /\
    final_rows details = original_rows details /\
    final_cols details = original_cols details /\
    original_rows details = num_rows df /\
    storage' !! path
      = Some (to_csv imputed (if endswith (lower path) ".tsv" then TAB else ",")) /\
    (forall other, other <> path -> storage' !! other = storage !! other) /\
    match calculate_and_store_dataset_statistics lib storage' db dataset
            (Some imputed) with
    | Ok (computed, updated) =>
        db' = updated /\
        db_rows db' !! dataset_id dataset = Some (stats computed)
    | Raise _ => db' = db
    end.
Proof.
  intros Hup Hp Hne Hpath Hs Hr Hcols imputed.
  set (storage' := <[path := if endswith (lower path) ".tsv"
                             then to_csv imputed TAB else to_csv imputed ","]> storage).
  destruct (impute_features_shape lib df) as [Hc Hrows].
  eexists. eexists. exists storage'.
  exists (match calculate_and_store_dataset_statistics lib storage' db dataset
                  (Some imputed) with
          | Ok (_, updated) => updated
          | Raise _ => db
          end).
  split.
  - unfold process_feature_imputation. rewrite Hup. cbn [negb]. rewrite Hp.
    replace (truthy (Some path)) with true
      by (symmetry; simpl; apply negb_true_iff; apply String.eqb_neq; exact Hne).
    cbn [negb].
    destruct (default_storage_path lib path) as [full | ]; [ | congruence].
    rewrite Hs. unfold read_separator in Hr.
    replace (if endswith (lower path) ".csv" then read_csv lib content ","
             else if endswith (lower path) ".tsv" then read_csv lib content TAB
                  else read_csv lib content ",") with (Some df)
      by (destruct (endswith (lower path) ".csv"), (endswith (lower path) ".tsv");
          symmetry; exact Hr).
    replace (num_cols df <? 3)%nat with false
      by (symmetry; apply Nat.ltb_ge; exact Hcols).
    fold imputed. fold storage'. reflexivity.
  - cbn [final_rows final_cols original_rows original_cols].
    unfold num_cols. fold imputed in Hc, Hrows. rewrite Hc, Hrows.
    split; [reflexivity | ]. split; [reflexivity | ]. split; [reflexivity | ].
    split.
    + unfold storage'.
      rewrite (lookup_insert_eq (M := gmap string) (A := string) storage path).
      destruct (endswith (lower path) ".tsv"); reflexivity.
    + split.
      * intros other Ho. unfold storage'.
        apply (lookup_insert_ne (M := gmap string) (A := string) storage).
        congruence.
      * destruct (calculate_and_store_dataset_statistics lib storage' db dataset
                    (Some imputed)) as [[computed updated] | e] eqn:C;
          [ | reflexivity].
        split; [reflexivity | ].
        apply calculate_inv in C.
        destruct C as (d & analysis & _ & _ & _ & _ & -> & ->).
        cbn [db_rows stats]. apply lookup_insert_eq.
Qed.

End ImputationTaskFacts.

Definition sample_to_csv (table : DataFrame) (sep : string) : string :=
  String.concat sep (df_columns table).

Lemma imputation_rejections_witness :
  process_feature_imputation sample_lib sample_to_csv upload_storage one_row_db None
    = (TaskFailed DatasetNotFound, upload_storage, one_row_db) /\
  (forall dataset,
      truthy (file_path dataset) = false ->
      process_feature_imputation sample_lib sample_to_csv upload_storage one_row_db
        (Some dataset)
        = (TaskFailed NoFileAssociatedWithDataset, upload_storage, one_row_db)) /\
  (forall dataset path content df,
      file_path dataset = Some path -> path <> ""%string ->
      default_storage_path sample_lib path <> None ->
      upload_storage !! path = Some content ->
      read_csv sample_lib content (read_separator path) = Some df ->
      (num_cols df < 3)%nat ->
      process_feature_imputation sample_lib sample_to_csv upload_storage one_row_db
        (Some dataset)
        = (TaskFailed TooFewColumns, upload_storage, one_row_db)).
Proof.
  apply (imputation_rejections sample_lib sample_to_csv upload_storage one_row_db).
  reflexivity.
Defined.

Lemma imputation_success_witness :
  let imputed := fst (impute_features (reader_of gappy_table) gappy_table) in
  exists details warnings storage' db',
    process_feature_imputation (reader_of gappy_table) sample_to_csv upload_storage
      one_row_db (Some orphan_dataset)
      = (TaskSucceeded details warnings, storage', db') /\
    final_rows details = original_rows details /\
    final_cols details = original_cols details /\
    original_rows details = num_rows gappy_table /\
    storage' !! "datasets/2025/01/a.csv"%string
      = Some (sample_to_csv imputed
                (if endswith (lower "datasets/2025/01/a.csv") ".tsv" then TAB else ",")) /\
    (forall other, other <> "datasets/2025/01/a.csv"%string ->
                   storage' !! other = upload_storage !! other) /\
    match calculate_and_store_dataset_statistics (reader_of gappy_table) storage'
            one_row_db orphan_dataset (Some imputed) with
    | Ok (computed, updated) =>
        db' = updated /\
        db_rows db' !! dataset_id orphan_dataset = Some (stats computed)
    | Raise _ => db' = one_row_db
    end.
Proof.
  apply (imputation_success (reader_of gappy_table) sample_to_csv upload_storage
           one_row_db orphan_dataset "datasets/2025/01/a.csv" "time,censored,age,site"
           gappy_table).
  - reflexivity.
  - reflexivity.
  - discriminate.
  - discriminate.
  - apply (lookup_singleton_eq (M := gmap string) (A := string)).
  - reflexivity.
  - unfold num_cols. simpl. lia.
Defined.

(** The two ends of a successful run: the statistics of the imputed table
    are stored, and the error of a table whose time column stands among
    the features is swallowed. *)
Example imputation_statistics_stored :
  option_map (fun row => num_samples (st_general_stats row))
    (db_rows
       (snd (process_feature_imputation (reader_of gappy_table) sample_to_csv
               upload_storage stale_db (Some orphan_dataset)))
     !! 7) = Some 3.
Proof. vm_compute. reflexivity. Qed.

Example imputation_statistics_swallowed :
  exists details warnings storage',
    process_feature_imputation (reader_of late_time_table) sample_to_csv
      upload_storage stale_db (Some orphan_dataset)
    = (TaskSucceeded details warnings, storage', stale_db).
Proof. eexists. eexists. eexists. vm_compute. reflexivity. Qed.
